(** * The HgiGL command-op layer, and the color-correction task's
      full-screen pass, as state transformers over an OpenGL context

    Sources embedded here:
    - [pxr/imaging/hgiGL/ops.cpp]: every [HgiGLOps] factory function;
    - [HdxColorCorrectionTask::_ApplyColorCorrection].

    An op is a closure [void()] run against the one native context.  It is
    modelled as a function from the context to an outcome.  The context
    carries the driver's binding state and objects, the log of native calls
    issued so far, the driver's queue of pending errors and the Tf diagnostic
    sink.  Dereferencing a null pointer or indexing a vector out of range is
    undefined behaviour in C++; the model stops there with [Undefined]. *)

From stdpp Require Import gmap strings list.

Local Open Scope Z_scope.

(** ** Machine integers *)

(** [uint32_t] / [GLuint] and [GLint]: the value a C++ conversion to the type
    yields, on integers of any size. *)
Definition wrap_uint32 (x : Z) : Z := x mod 2 ^ 32.
Definition wrap_int32 (x : Z) : Z := (x + 2 ^ 31) mod 2 ^ 32 - 2 ^ 31.

Definition is_uint32 (x : Z) : Prop := 0 <= x < 2 ^ 32.

(** ** OpenGL names *)

(** Symbolic selectors: targets, capabilities, state names, error codes. *)
Inductive GLenum :=
| GL_FRAMEBUFFER | GL_READ_FRAMEBUFFER | GL_DRAW_FRAMEBUFFER
| GL_READ_FRAMEBUFFER_BINDING | GL_DRAW_FRAMEBUFFER_BINDING
| GL_COLOR_ATTACHMENT0 | GL_DEPTH_ATTACHMENT | GL_NONE
| GL_ARRAY_BUFFER | GL_ELEMENT_ARRAY_BUFFER
| GL_TEXTURE_2D | GL_TEXTURE_3D | GL_TEXTURE0 | GL_TEXTURE1
| GL_BLEND | GL_SAMPLE_ALPHA_TO_COVERAGE
| GL_DEPTH_WRITEMASK | GL_STENCIL_WRITEMASK | GL_DEPTH_FUNC | GL_VIEWPORT
| GL_COLOR | GL_DEPTH
| GL_VERTEX_SHADER | GL_FRAGMENT_SHADER
| GL_DEBUG_SOURCE_THIRD_PARTY
| GL_INVALID_ENUM | GL_INVALID_VALUE | GL_INVALID_OPERATION
| GL_enum (code : Z).

(** Values that flow through integer variables keep their numeric codes. *)
Definition GL_FALSE : bool := false.
Definition GL_TRUE : bool := true.
Definition GL_ALWAYS : Z := 0x0207.
Definition GL_TRIANGLES : Z := 0x0004.
Definition GL_UNSIGNED_INT : Z := 0x1405.
Definition GL_FLOAT : Z := 0x1406.
Definition GL_DEPTH_COMPONENT : Z := 0x1902.
Definition GL_DEPTH_COMPONENT32F : Z := 0x8CAC.
Definition GL_NEAREST : Z := 0x2600.
Definition GL_DEPTH_BUFFER_BIT : Z := 0x00000100.
Definition GL_COLOR_BUFFER_BIT : Z := 0x00004000.
Definition GL_ALL_BARRIER_BITS : Z := 0xFFFFFFFF.
Definition GL_BUFFER_UPDATE_BARRIER_BIT : Z := 0x00000200.
Definition GL_FRAMEBUFFER_COMPLETE : Z := 0x8CD5.
Definition GL_FRAMEBUFFER_INCOMPLETE_MISSING_ATTACHMENT : Z := 0x8CD7.

(** A [float] is only ever copied by this code: its bit pattern. *)
Definition GLfloat := Z.

(** ** The native context *)

Record Rect := mkRect { rect_x : Z; rect_y : Z; rect_w : Z; rect_h : Z }.

Record VertexBufferBinding := mkVertexBufferBinding {
  vb_buffer : Z;
  vb_offset : Z;
  vb_stride : Z
}.

(** A framebuffer object: its draw-buffer list and the textures attached at
    the two attachment points the sources use. *)
Record Framebuffer := mkFramebuffer {
  fb_draw_buffers : list GLenum;
  fb_color_attachment0 : Z;
  fb_depth_attachment : Z
}.

Definition new_framebuffer : Framebuffer :=
  mkFramebuffer [GL_COLOR_ATTACHMENT0] 0 0.

(** The log of native calls, arguments as the C++ expressions evaluate. *)
Module Call.
Inductive t :=
| glPushDebugGroup (source : GLenum) (id length : Z) (label : string)
| glPopDebugGroup
| glMemoryBarrier (barriers : Z)
| glGetTextureSubImage (texture level xoffset yoffset zoffset : Z)
    (width height depth format type bufSize pixels : Z)
| glNamedBufferSubData (buffer offset size data : Z)
| glCreateFramebuffers (n : Z)
| glDeleteFramebuffers (n : Z) (framebuffer : Z)
| glIsTexture (texture : Z)
| glNamedFramebufferDrawBuffers (framebuffer n : Z) (bufs : list GLenum)
| glNamedFramebufferTexture (framebuffer : Z) (attachment : GLenum)
    (texture level : Z)
| glCheckNamedFramebufferStatus (framebuffer : Z) (target : GLenum)
| glGetIntegerv (pname : GLenum)
| glGetBooleanv (pname : GLenum)
| glBindFramebuffer (target : GLenum) (framebuffer : Z)
| glBlitFramebuffer (srcX0 srcY0 srcX1 srcY1 dstX0 dstY0 dstX1 dstY1 : Z)
    (mask filter : Z)
| glViewport (x y width height : Z)
| glScissor (x y width height : Z)
| glBindVertexBuffer (bindingindex buffer offset stride : Z)
| glBindBuffer (target : GLenum) (buffer : Z)
| glDrawElementsInstancedBaseVertex (mode count type indices : Z)
    (instancecount basevertex : Z)
| glDrawArrays (mode first count : Z)
| glClearBufferfv (buffer : GLenum) (drawbuffer : Z) (value : list GLfloat)
| glBlendFuncSeparatei (buf srcRGB dstRGB srcAlpha dstAlpha : Z)
| glBlendEquationSeparatei (buf modeRGB modeAlpha : Z)
| glEnable (cap : GLenum)
| glDisable (cap : GLenum)
| glUseProgram (program : Z)
| glActiveTexture (texture : GLenum)
| glBindTexture (target : GLenum) (texture : Z)
| glUniform1i (location v0 : Z)
| glVertexAttribPointer (index size type : Z) (normalized : bool)
    (stride pointer : Z)
| glEnableVertexAttribArray (index : Z)
| glDisableVertexAttribArray (index : Z)
| glDepthMask (flag : bool)
| glStencilMask (mask : Z)
| glDepthFunc (func : Z)
| glGetError.
End Call.

Abbreviation GLCall := Call.t.

(** What reaches the Tf diagnostic sink.  None of these aborts the op. *)
Inductive Diagnostic :=
| VerifyFailed (what : string)
| Warning (what : string)
| CodingError (what : string)
| PendingGLError (error : GLenum).

Record Bindings := mkBindings {
  read_framebuffer : Z;
  draw_framebuffer : Z;
  viewport : Rect;
  scissor : Rect;
  blend : bool;
  depth_func : Z;
  depth_writemask : bool;
  stencil_writemask : Z;
  sample_alpha_to_coverage : bool;
  texture_3d : bool;
  active_texture : Z;
  texture_binding_2d : gmap Z Z;
  texture_binding_3d : gmap Z Z;
  array_buffer : Z;
  element_array_buffer : Z;
  vertex_buffer : gmap Z VertexBufferBinding;
  vertex_attrib_array : gmap Z bool;
  current_program : Z
}.

Definition set_read_framebuffer (v : Z) (b : Bindings) : Bindings :=
  mkBindings v (draw_framebuffer b) (viewport b) (scissor b) (blend b)
    (depth_func b) (depth_writemask b) (stencil_writemask b)
    (sample_alpha_to_coverage b) (texture_3d b) (active_texture b)
    (texture_binding_2d b) (texture_binding_3d b) (array_buffer b)
    (element_array_buffer b) (vertex_buffer b) (vertex_attrib_array b)
    (current_program b).

Definition set_draw_framebuffer (v : Z) (b : Bindings) : Bindings :=
  mkBindings (read_framebuffer b) v (viewport b) (scissor b) (blend b)
    (depth_func b) (depth_writemask b) (stencil_writemask b)
    (sample_alpha_to_coverage b) (texture_3d b) (active_texture b)
    (texture_binding_2d b) (texture_binding_3d b) (array_buffer b)
    (element_array_buffer b) (vertex_buffer b) (vertex_attrib_array b)
    (current_program b).

Definition set_viewport (v : Rect) (b : Bindings) : Bindings :=
  mkBindings (read_framebuffer b) (draw_framebuffer b) v (scissor b) (blend
    b) (depth_func b) (depth_writemask b) (stencil_writemask b)
    (sample_alpha_to_coverage b) (texture_3d b) (active_texture b)
    (texture_binding_2d b) (texture_binding_3d b) (array_buffer b)
    (element_array_buffer b) (vertex_buffer b) (vertex_attrib_array b)
    (current_program b).

Definition set_scissor (v : Rect) (b : Bindings) : Bindings :=
  mkBindings (read_framebuffer b) (draw_framebuffer b) (viewport b) v (blend
    b) (depth_func b) (depth_writemask b) (stencil_writemask b)
    (sample_alpha_to_coverage b) (texture_3d b) (active_texture b)
    (texture_binding_2d b) (texture_binding_3d b) (array_buffer b)
    (element_array_buffer b) (vertex_buffer b) (vertex_attrib_array b)
    (current_program b).

Definition set_blend (v : bool) (b : Bindings) : Bindings :=
  mkBindings (read_framebuffer b) (draw_framebuffer b) (viewport b) (scissor
    b) v (depth_func b) (depth_writemask b) (stencil_writemask b)
    (sample_alpha_to_coverage b) (texture_3d b) (active_texture b)
    (texture_binding_2d b) (texture_binding_3d b) (array_buffer b)
    (element_array_buffer b) (vertex_buffer b) (vertex_attrib_array b)
    (current_program b).

Definition set_depth_func (v : Z) (b : Bindings) : Bindings :=
  mkBindings (read_framebuffer b) (draw_framebuffer b) (viewport b) (scissor
    b) (blend b) v (depth_writemask b) (stencil_writemask b)
    (sample_alpha_to_coverage b) (texture_3d b) (active_texture b)
    (texture_binding_2d b) (texture_binding_3d b) (array_buffer b)
    (element_array_buffer b) (vertex_buffer b) (vertex_attrib_array b)
    (current_program b).

Definition set_depth_writemask (v : bool) (b : Bindings) : Bindings :=
  mkBindings (read_framebuffer b) (draw_framebuffer b) (viewport b) (scissor
    b) (blend b) (depth_func b) v (stencil_writemask b)
    (sample_alpha_to_coverage b) (texture_3d b) (active_texture b)
    (texture_binding_2d b) (texture_binding_3d b) (array_buffer b)
    (element_array_buffer b) (vertex_buffer b) (vertex_attrib_array b)
    (current_program b).

Definition set_stencil_writemask (v : Z) (b : Bindings) : Bindings :=
  mkBindings (read_framebuffer b) (draw_framebuffer b) (viewport b) (scissor
    b) (blend b) (depth_func b) (depth_writemask b) v
    (sample_alpha_to_coverage b) (texture_3d b) (active_texture b)
    (texture_binding_2d b) (texture_binding_3d b) (array_buffer b)
    (element_array_buffer b) (vertex_buffer b) (vertex_attrib_array b)
    (current_program b).

Definition set_sample_alpha_to_coverage (v : bool) (b : Bindings)
  : Bindings :=
  mkBindings (read_framebuffer b) (draw_framebuffer b) (viewport b) (scissor
    b) (blend b) (depth_func b) (depth_writemask b) (stencil_writemask b) v
    (texture_3d b) (active_texture b) (texture_binding_2d b)
    (texture_binding_3d b) (array_buffer b) (element_array_buffer b)
    (vertex_buffer b) (vertex_attrib_array b) (current_program b).

Definition set_texture_3d (v : bool) (b : Bindings) : Bindings :=
  mkBindings (read_framebuffer b) (draw_framebuffer b) (viewport b) (scissor
    b) (blend b) (depth_func b) (depth_writemask b) (stencil_writemask b)
    (sample_alpha_to_coverage b) v (active_texture b) (texture_binding_2d b)
    (texture_binding_3d b) (array_buffer b) (element_array_buffer b)
    (vertex_buffer b) (vertex_attrib_array b) (current_program b).

Definition set_active_texture (v : Z) (b : Bindings) : Bindings :=
  mkBindings (read_framebuffer b) (draw_framebuffer b) (viewport b) (scissor
    b) (blend b) (depth_func b) (depth_writemask b) (stencil_writemask b)
    (sample_alpha_to_coverage b) (texture_3d b) v (texture_binding_2d b)
    (texture_binding_3d b) (array_buffer b) (element_array_buffer b)
    (vertex_buffer b) (vertex_attrib_array b) (current_program b).

Definition set_texture_binding_2d (v : gmap Z Z) (b : Bindings) : Bindings :=
  mkBindings (read_framebuffer b) (draw_framebuffer b) (viewport b) (scissor
    b) (blend b) (depth_func b) (depth_writemask b) (stencil_writemask b)
    (sample_alpha_to_coverage b) (texture_3d b) (active_texture b) v
    (texture_binding_3d b) (array_buffer b) (element_array_buffer b)
    (vertex_buffer b) (vertex_attrib_array b) (current_program b).

Definition set_texture_binding_3d (v : gmap Z Z) (b : Bindings) : Bindings :=
  mkBindings (read_framebuffer b) (draw_framebuffer b) (viewport b) (scissor
    b) (blend b) (depth_func b) (depth_writemask b) (stencil_writemask b)
    (sample_alpha_to_coverage b) (texture_3d b) (active_texture b)
    (texture_binding_2d b) v (array_buffer b) (element_array_buffer b)
    (vertex_buffer b) (vertex_attrib_array b) (current_program b).

Definition set_array_buffer (v : Z) (b : Bindings) : Bindings :=
  mkBindings (read_framebuffer b) (draw_framebuffer b) (viewport b) (scissor
    b) (blend b) (depth_func b) (depth_writemask b) (stencil_writemask b)
    (sample_alpha_to_coverage b) (texture_3d b) (active_texture b)
    (texture_binding_2d b) (texture_binding_3d b) v (element_array_buffer b)
    (vertex_buffer b) (vertex_attrib_array b) (current_program b).

Definition set_element_array_buffer (v : Z) (b : Bindings) : Bindings :=
  mkBindings (read_framebuffer b) (draw_framebuffer b) (viewport b) (scissor
    b) (blend b) (depth_func b) (depth_writemask b) (stencil_writemask b)
    (sample_alpha_to_coverage b) (texture_3d b) (active_texture b)
    (texture_binding_2d b) (texture_binding_3d b) (array_buffer b) v
    (vertex_buffer b) (vertex_attrib_array b) (current_program b).

Definition set_vertex_buffer (v : gmap Z VertexBufferBinding) (b : Bindings)
  : Bindings :=
  mkBindings (read_framebuffer b) (draw_framebuffer b) (viewport b) (scissor
    b) (blend b) (depth_func b) (depth_writemask b) (stencil_writemask b)
    (sample_alpha_to_coverage b) (texture_3d b) (active_texture b)
    (texture_binding_2d b) (texture_binding_3d b) (array_buffer b)
    (element_array_buffer b) v (vertex_attrib_array b) (current_program b).

Definition set_vertex_attrib_array (v : gmap Z bool) (b : Bindings)
  : Bindings :=
  mkBindings (read_framebuffer b) (draw_framebuffer b) (viewport b) (scissor
    b) (blend b) (depth_func b) (depth_writemask b) (stencil_writemask b)
    (sample_alpha_to_coverage b) (texture_3d b) (active_texture b)
    (texture_binding_2d b) (texture_binding_3d b) (array_buffer b)
    (element_array_buffer b) (vertex_buffer b) v (current_program b).

Definition set_current_program (v : Z) (b : Bindings) : Bindings :=
  mkBindings (read_framebuffer b) (draw_framebuffer b) (viewport b) (scissor
    b) (blend b) (depth_func b) (depth_writemask b) (stencil_writemask b)
    (sample_alpha_to_coverage b) (texture_3d b) (active_texture b)
    (texture_binding_2d b) (texture_binding_3d b) (array_buffer b)
    (element_array_buffer b) (vertex_buffer b) (vertex_attrib_array b) v.

Record Ctx := mkCtx {
  bindings : Bindings;
  framebuffers : gmap Z Framebuffer;
  textures : gset Z;
  debug_groups : list string;
  calls : list GLCall;
  gl_errors : list GLenum;
  diagnostics : list Diagnostic
}.

Definition with_bindings (v : Bindings) (c : Ctx) : Ctx :=
  mkCtx v (framebuffers c) (textures c) (debug_groups c) (calls c)
    (gl_errors c) (diagnostics c).

Definition with_framebuffers (v : gmap Z Framebuffer) (c : Ctx) : Ctx :=
  mkCtx (bindings c) v (textures c) (debug_groups c) (calls c) (gl_errors c)
    (diagnostics c).

Definition with_textures (v : gset Z) (c : Ctx) : Ctx :=
  mkCtx (bindings c) (framebuffers c) v (debug_groups c) (calls c)
    (gl_errors c) (diagnostics c).

Definition with_debug_groups (v : list string) (c : Ctx) : Ctx :=
  mkCtx (bindings c) (framebuffers c) (textures c) v (calls c) (gl_errors c)
    (diagnostics c).

Definition with_calls (v : list GLCall) (c : Ctx) : Ctx :=
  mkCtx (bindings c) (framebuffers c) (textures c) (debug_groups c) v
    (gl_errors c) (diagnostics c).

Definition with_gl_errors (v : list GLenum) (c : Ctx) : Ctx :=
  mkCtx (bindings c) (framebuffers c) (textures c) (debug_groups c) (calls
    c) v (diagnostics c).

Definition with_diagnostics (v : list Diagnostic) (c : Ctx) : Ctx :=
  mkCtx (bindings c) (framebuffers c) (textures c) (debug_groups c) (calls
    c) (gl_errors c) v.

(** ** Reading and writing the context *)

Definition issue (k : GLCall) (c : Ctx) : Ctx := with_calls (calls c ++ [k]) c.

Definition raise (e : GLenum) (c : Ctx) : Ctx :=
  with_gl_errors (gl_errors c ++ [e]) c.

Definition post (d : Diagnostic) (c : Ctx) : Ctx :=
  with_diagnostics (diagnostics c ++ [d]) c.

Definition rebind (f : Bindings -> Bindings) (c : Ctx) : Ctx :=
  with_bindings (f (bindings c)) c.

(** ** Outcomes and the op monad *)

Inductive Fault := NullDereference | IndexOutOfRange.

Inductive Outcome (A : Type) :=
| Normal (a : A) (c : Ctx)
| Undefined (f : Fault) (c : Ctx).
Arguments Normal {A} a c.
Arguments Undefined {A} f c.

Definition GL (A : Type) : Type := Ctx -> Outcome A.

Definition ret {A} (a : A) : GL A := fun c => Normal a c.

Definition bind {A B} (m : GL A) (k : A -> GL B) : GL B :=
  fun c => match m c with
           | Normal a c' => k a c'
           | Undefined f c' => Undefined f c'
           end.

Definition undefined {A} (f : Fault) : GL A := fun c => Undefined f c.

Definition act (f : Ctx -> Ctx) : GL unit := fun c => Normal tt (f c).

Definition observe {A} (f : Ctx -> A) : GL A := fun c => Normal (f c) c.

Notation "'do' x <- m ; k" := (bind m (fun x => k))
  (at level 10, x name, m at level 100, k at level 200).
Notation "'do' ' p <- m ; k" := (bind m (fun x => let 'p := x in k))
  (at level 10, p pattern, m at level 100, k at level 200).
Notation "'run' m ; k" := (bind m (fun _ => k))
  (at level 10, m at level 100, k at level 200).

(** The context an outcome ends in, whichever way it ended. *)
Definition final {A} (o : Outcome A) : Ctx :=
  match o with Normal _ c => c | Undefined _ c => c end.

(** A [std::function<void(void)>] recorded by the factory. *)
Definition HgiGLOpsFn : Type := GL unit.

(** [*p] on a pointer that may be null. *)
Definition deref {A} (p : option A) : GL A :=
  match p with Some a => ret a | None => undefined NullDereference end.

Definition is_null {A} (p : option A) : bool :=
  match p with Some _ => false | None => true end.

(** [v[i]] on a [std::vector]. *)
Definition index {A} (v : list A) (i : nat) : GL A :=
  match v !! i with Some a => ret a | None => undefined IndexOutOfRange end.

(** ** Tf diagnostics *)

Definition TF_VERIFY (cond : bool) (what : string) : GL bool :=
  if cond then ret true
  else run act (post (VerifyFailed what)); ret false.

Definition TF_WARN (what : string) : GL unit := act (post (Warning what)).

Definition TF_CODING_ERROR (what : string) : GL unit :=
  act (post (CodingError what)).

(** ** The driver

    The slice of OpenGL semantics the sources rely on.  Each native function
    logs itself, then acts on the context.  Calls whose effect no property
    below observes (uploads, draws, blits, clears, barriers, uniforms) are
    logged only. *)

Definition logged (k : GLCall) : GL unit := act (issue k).

Definition glPushDebugGroup (source : GLenum) (id length : Z) (label : string)
  : GL unit :=
  act (fun c => with_debug_groups (label :: debug_groups c)
                  (issue (Call.glPushDebugGroup source id length label) c)).

Definition glPopDebugGroup : GL unit :=
  act (fun c => with_debug_groups (tail (debug_groups c))
                  (issue Call.glPopDebugGroup c)).

Definition glMemoryBarrier (barriers : Z) : GL unit :=
  logged (Call.glMemoryBarrier barriers).

Definition glGetTextureSubImage (texture level xoffset yoffset zoffset : Z)
    (width height depth format type bufSize pixels : Z) : GL unit :=
  logged (Call.glGetTextureSubImage texture level xoffset yoffset zoffset
            width height depth format type bufSize pixels).

Definition glNamedBufferSubData (buffer offset size data : Z) : GL unit :=
  logged (Call.glNamedBufferSubData buffer offset size data).

(** A name the driver hands out is nonzero and not in use. *)
Definition unused_framebuffer_name (c : Ctx) : Z :=
  fresh ({[0]} ∪ dom (framebuffers c)).

(** [glCreateFramebuffers(1, &name)] *)
Definition glCreateFramebuffers : GL Z :=
  fun c =>
    let name := unused_framebuffer_name c in
    Normal name
      (with_framebuffers (<[name := new_framebuffer]> (framebuffers c))
         (issue (Call.glCreateFramebuffers 1) c)).

Definition unbind_framebuffer (name : Z) (b : Bindings) : Bindings :=
  let b := if decide (read_framebuffer b = name)
           then set_read_framebuffer 0 b else b in
  if decide (draw_framebuffer b = name) then set_draw_framebuffer 0 b else b.

(** [glDeleteFramebuffers(1, &name)]: the object goes, and a binding that
    still points at it reverts to the default framebuffer. *)
Definition glDeleteFramebuffers (name : Z) : GL unit :=
  act (fun c =>
         let c := issue (Call.glDeleteFramebuffers 1 name) c in
         if decide (name = 0) then c
         else rebind (unbind_framebuffer name)
                (with_framebuffers (delete name (framebuffers c)) c)).

Definition glIsTexture (texture : Z) : GL bool :=
  fun c => Normal (bool_decide (texture ∈ textures c))
             (issue (Call.glIsTexture texture) c).

Definition on_framebuffer (name : Z) (f : Framebuffer -> Framebuffer)
    (c : Ctx) : Ctx :=
  match framebuffers c !! name with
  | Some fb => with_framebuffers (<[name := f fb]> (framebuffers c)) c
  | None => raise GL_INVALID_OPERATION c
  end.

Definition glNamedFramebufferDrawBuffers (framebuffer n : Z)
    (bufs : list GLenum) : GL unit :=
  act (fun c =>
         on_framebuffer framebuffer
           (fun fb => mkFramebuffer bufs (fb_color_attachment0 fb)
                        (fb_depth_attachment fb))
           (issue (Call.glNamedFramebufferDrawBuffers framebuffer n bufs) c)).

Definition attach (attachment : GLenum) (texture : Z) (fb : Framebuffer)
  : Framebuffer :=
  match attachment with
  | GL_COLOR_ATTACHMENT0 =>
      mkFramebuffer (fb_draw_buffers fb) texture (fb_depth_attachment fb)
  | GL_DEPTH_ATTACHMENT =>
      mkFramebuffer (fb_draw_buffers fb) (fb_color_attachment0 fb) texture
  | _ => fb
  end.

Definition glNamedFramebufferTexture (framebuffer : Z) (attachment : GLenum)
    (texture level : Z) : GL unit :=
  act (fun c =>
         on_framebuffer framebuffer (attach attachment texture)
           (issue (Call.glNamedFramebufferTexture framebuffer attachment
                     texture level) c)).

(** Completeness is judged on the attachments alone: a framebuffer with
    nothing attached is incomplete. *)
Definition framebuffer_status (fb : Framebuffer) : Z :=
  if (fb_color_attachment0 fb =? 0) && (fb_depth_attachment fb =? 0)
  then GL_FRAMEBUFFER_INCOMPLETE_MISSING_ATTACHMENT
  else GL_FRAMEBUFFER_COMPLETE.

Definition glCheckNamedFramebufferStatus (framebuffer : Z) (target : GLenum)
  : GL Z :=
  fun c =>
    let c' := issue (Call.glCheckNamedFramebufferStatus framebuffer target) c in
    match framebuffers c !! framebuffer with
    | Some fb => Normal (framebuffer_status fb) c'
    | None => Normal 0 (raise GL_INVALID_OPERATION c')
    end.

Definition glGetIntegerv (pname : GLenum) : GL Z :=
  fun c =>
    let c' := issue (Call.glGetIntegerv pname) c in
    match pname with
    | GL_READ_FRAMEBUFFER_BINDING =>
        Normal (wrap_int32 (read_framebuffer (bindings c))) c'
    | GL_DRAW_FRAMEBUFFER_BINDING =>
        Normal (wrap_int32 (draw_framebuffer (bindings c))) c'
    | GL_DEPTH_FUNC => Normal (wrap_int32 (depth_func (bindings c))) c'
    | _ => Normal 0 (raise GL_INVALID_ENUM c')
    end.

(** [glGetIntegerv(GL_VIEWPORT, v)] fills four integers. *)
Definition glGetIntegerv4 (pname : GLenum) : GL Rect :=
  fun c =>
    let c' := issue (Call.glGetIntegerv pname) c in
    match pname with
    | GL_VIEWPORT => Normal (viewport (bindings c)) c'
    | _ => Normal (mkRect 0 0 0 0) (raise GL_INVALID_ENUM c')
    end.

(** [glGetBooleanv] on integer state answers whether the value is nonzero. *)
Definition glGetBooleanv (pname : GLenum) : GL bool :=
  fun c =>
    let c' := issue (Call.glGetBooleanv pname) c in
    match pname with
    | GL_DEPTH_WRITEMASK => Normal (depth_writemask (bindings c)) c'
    | GL_STENCIL_WRITEMASK =>
        Normal (negb (stencil_writemask (bindings c) =? 0)) c'
    | GL_BLEND => Normal (blend (bindings c)) c'
    | GL_SAMPLE_ALPHA_TO_COVERAGE =>
        Normal (sample_alpha_to_coverage (bindings c)) c'
    | _ => Normal false (raise GL_INVALID_ENUM c')
    end.

Definition glBindFramebuffer (target : GLenum) (framebuffer : Z) : GL unit :=
  act (fun c =>
         let name := wrap_uint32 framebuffer in
         let c := issue (Call.glBindFramebuffer target framebuffer) c in
         match target with
         | GL_FRAMEBUFFER =>
             rebind (fun b => set_draw_framebuffer name
                                (set_read_framebuffer name b)) c
         | GL_READ_FRAMEBUFFER => rebind (set_read_framebuffer name) c
         | GL_DRAW_FRAMEBUFFER => rebind (set_draw_framebuffer name) c
         | _ => raise GL_INVALID_ENUM c
         end).

Definition glBlitFramebuffer
    (srcX0 srcY0 srcX1 srcY1 dstX0 dstY0 dstX1 dstY1 mask filter : Z)
  : GL unit :=
  logged (Call.glBlitFramebuffer srcX0 srcY0 srcX1 srcY1
            dstX0 dstY0 dstX1 dstY1 mask filter).

(** A negative width or height is [GL_INVALID_VALUE] and changes nothing. *)
Definition glViewport (x y width height : Z) : GL unit :=
  act (fun c =>
         let c := issue (Call.glViewport x y width height) c in
         if decide (width < 0 \/ height < 0) then raise GL_INVALID_VALUE c
         else rebind (set_viewport (mkRect x y width height)) c).

Definition glScissor (x y width height : Z) : GL unit :=
  act (fun c =>
         let c := issue (Call.glScissor x y width height) c in
         if decide (width < 0 \/ height < 0) then raise GL_INVALID_VALUE c
         else rebind (set_scissor (mkRect x y width height)) c).

Definition glBindVertexBuffer (bindingindex buffer offset stride : Z)
  : GL unit :=
  act (fun c =>
         rebind (fun b =>
                   set_vertex_buffer
                     (<[wrap_uint32 bindingindex :=
                          mkVertexBufferBinding buffer offset stride]>
                        (vertex_buffer b)) b)
           (issue (Call.glBindVertexBuffer bindingindex buffer offset stride)
              c)).

Definition glBindBuffer (target : GLenum) (buffer : Z) : GL unit :=
  act (fun c =>
         let c := issue (Call.glBindBuffer target buffer) c in
         match target with
         | GL_ARRAY_BUFFER => rebind (set_array_buffer buffer) c
         | GL_ELEMENT_ARRAY_BUFFER =>
             rebind (set_element_array_buffer buffer) c
         | _ => raise GL_INVALID_ENUM c
         end).

Definition glDrawElementsInstancedBaseVertex
    (mode count type indices instancecount basevertex : Z) : GL unit :=
  logged (Call.glDrawElementsInstancedBaseVertex mode count type indices
            instancecount basevertex).

Definition glDrawArrays (mode first count : Z) : GL unit :=
  logged (Call.glDrawArrays mode first count).

Definition glClearBufferfv (buffer : GLenum) (drawbuffer : Z)
    (value : list GLfloat) : GL unit :=
  logged (Call.glClearBufferfv buffer drawbuffer value).

Definition glBlendFuncSeparatei (buf srcRGB dstRGB srcAlpha dstAlpha : Z)
  : GL unit :=
  logged (Call.glBlendFuncSeparatei buf srcRGB dstRGB srcAlpha dstAlpha).

Definition glBlendEquationSeparatei (buf modeRGB modeAlpha : Z) : GL unit :=
  logged (Call.glBlendEquationSeparatei buf modeRGB modeAlpha).

Definition set_capability (cap : GLenum) (on : bool) (c : Ctx) : Ctx :=
  match cap with
  | GL_BLEND => rebind (set_blend on) c
  | GL_SAMPLE_ALPHA_TO_COVERAGE => rebind (set_sample_alpha_to_coverage on) c
  | GL_TEXTURE_3D => rebind (set_texture_3d on) c
  | _ => raise GL_INVALID_ENUM c
  end.

Definition glEnable (cap : GLenum) : GL unit :=
  act (fun c => set_capability cap true (issue (Call.glEnable cap) c)).

Definition glDisable (cap : GLenum) : GL unit :=
  act (fun c => set_capability cap false (issue (Call.glDisable cap) c)).

Definition glUseProgram (program : Z) : GL unit :=
  act (fun c => rebind (set_current_program program)
                  (issue (Call.glUseProgram program) c)).

Definition glActiveTexture (texture : GLenum) : GL unit :=
  act (fun c =>
         let c := issue (Call.glActiveTexture texture) c in
         match texture with
         | GL_TEXTURE0 => rebind (set_active_texture 0) c
         | GL_TEXTURE1 => rebind (set_active_texture 1) c
         | _ => raise GL_INVALID_ENUM c
         end).

Definition glBindTexture (target : GLenum) (texture : Z) : GL unit :=
  act (fun c =>
         let c := issue (Call.glBindTexture target texture) c in
         let unit := active_texture (bindings c) in
         match target with
         | GL_TEXTURE_2D =>
             rebind (fun b => set_texture_binding_2d
                                (<[unit := texture]> (texture_binding_2d b)) b)
               c
         | GL_TEXTURE_3D =>
             rebind (fun b => set_texture_binding_3d
                                (<[unit := texture]> (texture_binding_3d b)) b)
               c
         | _ => raise GL_INVALID_ENUM c
         end).

Definition glUniform1i (location v0 : Z) : GL unit :=
  logged (Call.glUniform1i location v0).

Definition glVertexAttribPointer (index size type : Z) (normalized : bool)
    (stride pointer : Z) : GL unit :=
  logged (Call.glVertexAttribPointer index size type normalized stride
            pointer).

Definition glEnableVertexAttribArray (index : Z) : GL unit :=
  act (fun c =>
         rebind (fun b => set_vertex_attrib_array
                            (<[wrap_uint32 index := true]>
                               (vertex_attrib_array b)) b)
           (issue (Call.glEnableVertexAttribArray index) c)).

Definition glDisableVertexAttribArray (index : Z) : GL unit :=
  act (fun c =>
         rebind (fun b => set_vertex_attrib_array
                            (<[wrap_uint32 index := false]>
                               (vertex_attrib_array b)) b)
           (issue (Call.glDisableVertexAttribArray index) c)).

Definition glDepthMask (flag : bool) : GL unit :=
  act (fun c => rebind (set_depth_writemask flag)
                  (issue (Call.glDepthMask flag) c)).

Definition glStencilMask (mask : Z) : GL unit :=
  act (fun c => rebind (set_stencil_writemask (wrap_uint32 mask))
                  (issue (Call.glStencilMask mask) c)).

Definition glDepthFunc (func : Z) : GL unit :=
  act (fun c => rebind (set_depth_func (wrap_uint32 func))
                  (issue (Call.glDepthFunc func) c)).

(** [glGetError()]: the oldest pending error, or [None] for [GL_NO_ERROR]. *)
Definition glGetError : GL (option GLenum) :=
  fun c =>
    let c' := issue Call.glGetError c in
    match gl_errors c with
    | [] => Normal None c'
    | e :: rest => Normal (Some e) (with_gl_errors rest c')
    end.

(** ** Hgi descriptors and handles *)

Inductive HgiFormat :=
| HgiFormatInvalid
| HgiFormatFloat32
| HgiFormatOther (n : Z).

Definition is_HgiFormatFloat32 (f : HgiFormat) : bool :=
  match f with HgiFormatFloat32 => true | _ => false end.

Inductive HgiAttachmentLoadOp :=
| HgiAttachmentLoadOpDontCare
| HgiAttachmentLoadOpClear
| HgiAttachmentLoadOpLoad.

Definition is_HgiAttachmentLoadOpClear (op : HgiAttachmentLoadOp) : bool :=
  match op with HgiAttachmentLoadOpClear => true | _ => false end.

Record GfVec3i := mkGfVec3i { v3_0 : Z; v3_1 : Z; v3_2 : Z }.
Record GfVec4i := mkGfVec4i { v4_0 : Z; v4_1 : Z; v4_2 : Z; v4_3 : Z }.

Module HgiTextureDesc.
Record t := mk {
  usage : Z;
  format : HgiFormat;
  dimensions : GfVec3i;
  layerCount : Z
}.
End HgiTextureDesc.

Module HgiGLTexture.
Record t := mk { GetTextureId : Z; GetDescriptor : HgiTextureDesc.t }.
End HgiGLTexture.

(** A handle is what its [Get()] yields: the backend object, or null. *)
Abbreviation HgiTextureHandle := (option HgiGLTexture.t).

Module HgiBufferDesc.
Record t := mk { usage : Z; vertexStride : Z }.
End HgiBufferDesc.

Module HgiGLBuffer.
Record t := mk { GetBufferId : Z; GetDescriptor : HgiBufferDesc.t }.
End HgiGLBuffer.

Abbreviation HgiBufferHandle := (option HgiGLBuffer.t).

Module HgiTextureGpuToCpuOp.
Record t := mk {
  gpuSourceTexture : HgiTextureHandle;
  sourceTexelOffset : GfVec3i;
  mipLevel : Z;
  startLayer : Z;
  numLayers : Z;
  cpuDestinationBuffer : Z;
  destinationByteOffset : Z;
  destinationBufferByteSize : Z
}.
End HgiTextureGpuToCpuOp.

Module HgiBufferCpuToGpuOp.
Record t := mk {
  cpuSourceBuffer : Z;
  sourceByteOffset : Z;
  gpuDestinationBuffer : HgiBufferHandle;
  destinationByteOffset : Z;
  byteSize : Z
}.
End HgiBufferCpuToGpuOp.

Module HgiResolveImageOp.
Record t := mk {
  usage : Z;
  source : HgiTextureHandle;
  destination : HgiTextureHandle;
  sourceRegion : GfVec4i;
  destinationRegion : GfVec4i
}.
End HgiResolveImageOp.

Module HgiAttachmentDesc.
Record t := mk {
  loadOp : HgiAttachmentLoadOp;
  clearValue : list GLfloat;
  blendEnabled : bool;
  srcColorBlendFactor : Z;
  dstColorBlendFactor : Z;
  srcAlphaBlendFactor : Z;
  dstAlphaBlendFactor : Z;
  colorBlendOp : Z;
  alphaBlendOp : Z
}.
End HgiAttachmentDesc.

Module HgiGraphicsEncoderDesc.
Record t := mk {
  colorAttachmentDescs : list HgiAttachmentDesc.t;
  depthAttachmentDesc : HgiAttachmentDesc.t;
  colorTextures : list HgiTextureHandle;
  depthTexture : HgiTextureHandle
}.

(** Modelled from the spec: [HasAttachments] is declared in a header that is
    not among the sources; "encoderDesc must declare at least one
    attachment". *)
Definition HasAttachments (d : t) : bool :=
  match colorAttachmentDescs d, depthTexture d with
  | [], None => false
  | _, _ => true
  end.
End HgiGraphicsEncoderDesc.

(** [x & bit] as a condition. *)
Definition has_bit (x bit : Z) : bool := negb (Z.land x bit =? 0).

(** What the op layer takes from the rest of the backend: enumerator values
    and conversion tables from headers, the extension flag, the device's
    framebuffer cache and the bind routines of pipelines and resource sets. *)
Class Backend := {
  HgiGLPipeline : Type;
  HgiGLResourceBindings : Type;
  HgiTextureUsageBitsColorTarget : Z;
  HgiTextureUsageBitsDepthTarget : Z;
  HgiBufferUsageVertex : Z;
  HgiBufferUsageIndex32 : Z;
  GLEW_KHR_debug : bool;
  GetFormat : HgiFormat -> Z * Z * Z;
  GetBlendFactor : Z -> Z;
  GetBlendEquation : Z -> Z;
  AcquireFramebuffer : HgiGraphicsEncoderDesc.t -> Ctx -> Z * Ctx;
  BindPipeline_impl : HgiGLPipeline -> Ctx -> Ctx;
  BindResources_impl : HgiGLResourceBindings -> Ctx -> Ctx
}.

(** Modelled from the spec: the macro [HGIGL_POST_PENDING_GL_ERRORS] comes
    from a header that is not among the sources; "pending native-API errors
    are polled and surfaced to a diagnostic sink".  It asks [glGetError]
    until the driver answers [GL_NO_ERROR] and posts each error it got. *)
Fixpoint post_pending (pending : list GLenum) : GL unit :=
  match pending with
  | [] => do _ <- glGetError; ret tt
  | _ :: rest =>
      do e <- glGetError;
      run match e with
          | Some e => act (post (PendingGLError e))
          | None => ret tt
          end;
      post_pending rest
  end.

Definition HGIGL_POST_PENDING_GL_ERRORS : GL unit :=
  fun c => post_pending (gl_errors c) c.

(** The Glf macro of the same shape, used by the color-correction task. *)
Definition GLF_POST_PENDING_GL_ERRORS : GL unit :=
  HGIGL_POST_PENDING_GL_ERRORS.

(** ** [HgiGLOps]: the op factory of [hgiGL/ops.cpp]

    Each function returns the closure's body.  A [return;] inside the closure
    ends the branch it stands in. *)

Module HgiGLOps.
Section Ops.
Context {backend : Backend}.

Definition PushDebugGroup (label : string) : HgiGLOpsFn :=
  if GLEW_KHR_debug
  then glPushDebugGroup GL_DEBUG_SOURCE_THIRD_PARTY 0 (-1) label
  else ret tt.

Definition PopDebugGroup : HgiGLOpsFn :=
  if GLEW_KHR_debug then glPopDebugGroup else ret tt.

(** [srcTexture && srcTexture->GetTextureId()] *)
Definition valid_texture (texHandle : HgiTextureHandle) : bool :=
  match texHandle with
  | Some srcTexture => negb (HgiGLTexture.GetTextureId srcTexture =? 0)
  | None => false
  end.

Definition CopyTextureGpuToCpu (copyOp : HgiTextureGpuToCpuOp.t)
  : HgiGLOpsFn :=
  let texHandle := HgiTextureGpuToCpuOp.gpuSourceTexture copyOp in
  do valid <- TF_VERIFY (valid_texture texHandle) "Invalid texture handle";
  if negb valid then ret tt
  else if HgiTextureGpuToCpuOp.destinationBufferByteSize copyOp =? 0
  then TF_WARN "The size of the data to copy was zero (aborted)"
  else
    do srcTexture <- deref texHandle;
    let texDesc := HgiGLTexture.GetDescriptor srcTexture in
    (* uint32_t layerCnt = copyOp.startLayer + copyOp.numLayers; *)
    let layerCnt :=
      wrap_uint32 (HgiTextureGpuToCpuOp.startLayer copyOp
                   + HgiTextureGpuToCpuOp.numLayers copyOp) in
    do enough <- TF_VERIFY (layerCnt <=? HgiTextureDesc.layerCount texDesc)
                   "Texture has less layers than attempted to be copied";
    if negb enough then ret tt
    else
      do '(glFormat, glPixelType, glInternalFormat) <-
        (if has_bit (HgiTextureDesc.usage texDesc)
              HgiTextureUsageBitsColorTarget
         then ret (GetFormat (HgiTextureDesc.format texDesc))
         else if has_bit (HgiTextureDesc.usage texDesc)
                   HgiTextureUsageBitsDepthTarget
         then
           run TF_VERIFY (is_HgiFormatFloat32 (HgiTextureDesc.format texDesc))
                 "texDesc.format == HgiFormatFloat32";
           ret (GL_DEPTH_COMPONENT, GL_FLOAT, GL_DEPTH_COMPONENT32F)
         else
           run TF_CODING_ERROR "Unknown HgTextureUsage bit";
           ret (0, 0, 0));
      (* Make sure writes are finished before we read from the texture *)
      run glMemoryBarrier GL_ALL_BARRIER_BITS;
      (* [level] is a [GLint] and [bufSize] a [GLsizei]: the unsigned
         members of [copyOp] are converted on the way in. *)
      run glGetTextureSubImage
            (HgiGLTexture.GetTextureId srcTexture)
            (wrap_int32 (HgiTextureGpuToCpuOp.mipLevel copyOp))
            (v3_0 (HgiTextureGpuToCpuOp.sourceTexelOffset copyOp))
            (v3_1 (HgiTextureGpuToCpuOp.sourceTexelOffset copyOp))
            (v3_2 (HgiTextureGpuToCpuOp.sourceTexelOffset copyOp))
            (v3_0 (HgiTextureDesc.dimensions texDesc))
            (v3_1 (HgiTextureDesc.dimensions texDesc))
            (v3_2 (HgiTextureDesc.dimensions texDesc))
            glFormat
            glPixelType
            (wrap_int32 (HgiTextureGpuToCpuOp.destinationBufferByteSize copyOp))
            (HgiTextureGpuToCpuOp.cpuDestinationBuffer copyOp);
      HGIGL_POST_PENDING_GL_ERRORS.

Definition CopyBufferCpuToGpu (copyOp : HgiBufferCpuToGpuOp.t)
  : HgiGLOpsFn :=
  if (HgiBufferCpuToGpuOp.byteSize copyOp =? 0)
     || (HgiBufferCpuToGpuOp.cpuSourceBuffer copyOp =? 0)
     || is_null (HgiBufferCpuToGpuOp.gpuDestinationBuffer copyOp)
  then ret tt
  else
    do glBuffer <- deref (HgiBufferCpuToGpuOp.gpuDestinationBuffer copyOp);
    (* Offset into the src buffer *)
    let src := HgiBufferCpuToGpuOp.cpuSourceBuffer copyOp
               + HgiBufferCpuToGpuOp.sourceByteOffset copyOp in
    (* Offset into the dst buffer *)
    let dstOffset := HgiBufferCpuToGpuOp.destinationByteOffset copyOp in
    run glNamedBufferSubData
          (HgiGLBuffer.GetBufferId glBuffer)
          dstOffset
          (HgiBufferCpuToGpuOp.byteSize copyOp)
          src;
    (* Make sure the copy is finished before reads from buffer. *)
    glMemoryBarrier GL_BUFFER_UPDATE_BARRIER_BIT.

Definition ResolveImage (resolveOp : HgiResolveImageOp.t) : HgiGLOpsFn :=
  (* Create framebuffers for resolve. *)
  do readFramebuffer <- glCreateFramebuffers;
  do writeFramebuffer <- glCreateFramebuffers;
  match HgiResolveImageOp.source resolveOp,
        HgiResolveImageOp.destination resolveOp with
  | Some glSrcTexture, Some glDstTexture =>
      let depthTarget :=
        has_bit (HgiResolveImageOp.usage resolveOp)
          HgiTextureUsageBitsDepthTarget in
      let readAttachment := HgiGLTexture.GetTextureId glSrcTexture in
      do isRead <- glIsTexture readAttachment;
      run TF_VERIFY isRead "Source is not a texture";
      let writeAttachment := HgiGLTexture.GetTextureId glDstTexture in
      do isWrite <- glIsTexture writeAttachment;
      run TF_VERIFY isWrite "Destination is not a texture";
      (* Update framebuffer bindings *)
      run (if depthTarget then
             (* Depth-only, so no color attachments for read or write *)
             let drawBufs := [GL_NONE] in
             run glNamedFramebufferDrawBuffers readFramebuffer 1 drawBufs;
             run glNamedFramebufferDrawBuffers writeFramebuffer 1 drawBufs;
             run glNamedFramebufferTexture
                   readFramebuffer GL_COLOR_ATTACHMENT0 0 0;
             run glNamedFramebufferTexture
                   writeFramebuffer GL_COLOR_ATTACHMENT0 0 0;
             run glNamedFramebufferTexture
                   readFramebuffer GL_DEPTH_ATTACHMENT readAttachment 0;
             glNamedFramebufferTexture
               writeFramebuffer GL_DEPTH_ATTACHMENT writeAttachment 0
           else
             (* Color-only, so no depth attachments for read or write. *)
             let drawBufs := [GL_COLOR_ATTACHMENT0] in
             run glNamedFramebufferDrawBuffers readFramebuffer 1 drawBufs;
             run glNamedFramebufferDrawBuffers writeFramebuffer 1 drawBufs;
             run glNamedFramebufferTexture
                   readFramebuffer GL_DEPTH_ATTACHMENT 0 0;
             run glNamedFramebufferTexture
                   writeFramebuffer GL_DEPTH_ATTACHMENT 0 0;
             run glNamedFramebufferTexture
                   readFramebuffer GL_COLOR_ATTACHMENT0 readAttachment 0;
             glNamedFramebufferTexture
               writeFramebuffer GL_COLOR_ATTACHMENT0 writeAttachment 0);
      do status <- glCheckNamedFramebufferStatus readFramebuffer
                     GL_READ_FRAMEBUFFER;
      run TF_VERIFY (status =? GL_FRAMEBUFFER_COMPLETE)
            "status == GL_FRAMEBUFFER_COMPLETE";
      do status <- glCheckNamedFramebufferStatus writeFramebuffer
                     GL_DRAW_FRAMEBUFFER;
      run TF_VERIFY (status =? GL_FRAMEBUFFER_COMPLETE)
            "status == GL_FRAMEBUFFER_COMPLETE";
      (* Resolve MSAA fbo to a regular fbo *)
      let mask :=
        if depthTarget then GL_DEPTH_BUFFER_BIT else GL_COLOR_BUFFER_BIT in
      let src := HgiResolveImageOp.sourceRegion resolveOp in
      let dst := HgiResolveImageOp.destinationRegion resolveOp in
      (* Bind resolve framebuffer *)
      do restoreRead <- glGetIntegerv GL_READ_FRAMEBUFFER_BINDING;
      do restoreWrite <- glGetIntegerv GL_DRAW_FRAMEBUFFER_BINDING;
      run glBindFramebuffer GL_READ_FRAMEBUFFER readFramebuffer;
      run glBindFramebuffer GL_DRAW_FRAMEBUFFER writeFramebuffer;
      run glBlitFramebuffer
            (v4_0 src) (v4_1 src) (v4_2 src) (v4_3 src)
            (v4_0 dst) (v4_1 dst) (v4_2 dst) (v4_3 dst)
            mask
            GL_NEAREST;
      run glBindFramebuffer GL_READ_FRAMEBUFFER restoreRead;
      run glBindFramebuffer GL_DRAW_FRAMEBUFFER restoreWrite;
      run glDeleteFramebuffers readFramebuffer;
      run glDeleteFramebuffers writeFramebuffer;
      HGIGL_POST_PENDING_GL_ERRORS
  | _, _ => TF_CODING_ERROR "No textures provided for resolve"
  end.

Definition SetViewport (vp : GfVec4i) : HgiGLOpsFn :=
  glViewport (v4_0 vp) (v4_1 vp) (v4_2 vp) (v4_3 vp).

Definition SetScissor (sc : GfVec4i) : HgiGLOpsFn :=
  glScissor (v4_0 sc) (v4_1 sc) (v4_2 sc) (v4_3 sc).

Definition BindPipeline (pipeline : option HgiGLPipeline) : HgiGLOpsFn :=
  match pipeline with
  | Some p => act (BindPipeline_impl p)
  | None => ret tt
  end.

Definition BindResources (res : option HgiGLResourceBindings) : HgiGLOpsFn :=
  match res with
  | Some rb => act (BindResources_impl rb)
  | None => ret tt
  end.

(** The body of [for (size_t i=0; i<vertexBuffers.size(); i++)], from index
    [i] on; [rest] holds [vertexBuffers[i]], [vertexBuffers[i+1]], ...
    [firstBinding + i] is a [size_t] sum; the call takes it as the [GLuint]
    [bindingindex], so what the driver receives is the sum modulo [2^32]. *)
Fixpoint BindVertexBuffers_from (firstBinding : Z) (byteOffsets : list Z)
    (i : nat) (rest : list HgiBufferHandle) : GL unit :=
  match rest with
  | [] => ret tt
  | bufHandle :: rest =>
      do buf <- deref bufHandle;
      let desc := HgiGLBuffer.GetDescriptor buf in
      run TF_VERIFY (has_bit (HgiBufferDesc.usage desc) HgiBufferUsageVertex)
            "desc.usage & HgiBufferUsageVertex";
      do byteOffset <- index byteOffsets i;
      run glBindVertexBuffer
            (wrap_uint32 (firstBinding + Z.of_nat i))
            (HgiGLBuffer.GetBufferId buf)
            byteOffset
            (HgiBufferDesc.vertexStride desc);
      BindVertexBuffers_from firstBinding byteOffsets (S i) rest
  end.

Definition same_size {A B} (v : list A) (w : list B) : bool :=
  bool_decide (length v = length w).

Definition BindVertexBuffers (firstBinding : Z)
    (vertexBuffers : list HgiBufferHandle) (byteOffsets : list Z)
  : HgiGLOpsFn :=
  run TF_VERIFY (same_size byteOffsets vertexBuffers)
        "byteOffsets.size() == vertexBuffers.size()";
  run TF_VERIFY (same_size byteOffsets vertexBuffers)
        "byteOffsets.size() == vertexBuffers.size()";
  (* XXX use glBindVertexBuffers to bind all VBs in one go. *)
  run BindVertexBuffers_from firstBinding byteOffsets 0 vertexBuffers;
  HGIGL_POST_PENDING_GL_ERRORS.

Definition DrawIndexed (indexBuffer : HgiBufferHandle)
    (indexCount indexBufferByteOffset vertexOffset : Z)
    (instanceCount firstInstance : Z) : HgiGLOpsFn :=
  run TF_VERIFY (0 <? instanceCount) "instanceCount>0";
  do indexBuf <- deref indexBuffer;
  let indexDesc := HgiGLBuffer.GetDescriptor indexBuf in
  (* We assume 32bit indices: GL_UNSIGNED_INT *)
  run TF_VERIFY (has_bit (HgiBufferDesc.usage indexDesc) HgiBufferUsageIndex32)
        "indexDesc.usage & HgiBufferUsageIndex32";
  run glBindBuffer GL_ELEMENT_ARRAY_BUFFER (HgiGLBuffer.GetBufferId indexBuf);
  (* [count] and [instancecount] are [GLsizei] and [basevertex] is a
     [GLint]: the [uint32_t] arguments are converted on the way in; the
     byte offset goes through [uintptr_t] to a pointer as it is. *)
  run glDrawElementsInstancedBaseVertex
        GL_TRIANGLES
        (wrap_int32 indexCount)
        GL_UNSIGNED_INT
        indexBufferByteOffset
        (wrap_int32 instanceCount)
        (wrap_int32 vertexOffset);
  HGIGL_POST_PENDING_GL_ERRORS.

(** The body of the loop over [desc.colorAttachmentDescs], from index [i]
    on; the result is [blendEnabled] after the loop. *)
Fixpoint BindFramebufferOp_from (i : nat) (rest : list HgiAttachmentDesc.t)
    (blendEnabled : bool) : GL bool :=
  match rest with
  | [] => ret blendEnabled
  | colorAttachment :: rest =>
      run (if is_HgiAttachmentLoadOpClear
                (HgiAttachmentDesc.loadOp colorAttachment)
           then glClearBufferfv GL_COLOR (Z.of_nat i)
                  (HgiAttachmentDesc.clearValue colorAttachment)
           else ret tt);
      let blendEnabled :=
        blendEnabled || HgiAttachmentDesc.blendEnabled colorAttachment in
      let srcColor :=
        GetBlendFactor
          (HgiAttachmentDesc.srcColorBlendFactor colorAttachment) in
      let dstColor :=
        GetBlendFactor
          (HgiAttachmentDesc.dstColorBlendFactor colorAttachment) in
      let srcAlpha :=
        GetBlendFactor
          (HgiAttachmentDesc.srcAlphaBlendFactor colorAttachment) in
      let dstAlpha :=
        GetBlendFactor
          (HgiAttachmentDesc.dstAlphaBlendFactor colorAttachment) in
      let colorOp :=
        GetBlendEquation (HgiAttachmentDesc.colorBlendOp colorAttachment) in
      let alphaOp :=
        GetBlendEquation (HgiAttachmentDesc.alphaBlendOp colorAttachment) in
      run glBlendFuncSeparatei (Z.of_nat i) srcColor dstColor srcAlpha dstAlpha;
      run glBlendEquationSeparatei (Z.of_nat i) colorOp alphaOp;
      BindFramebufferOp_from (S i) rest blendEnabled
  end.

Definition BindFramebufferOp (desc : HgiGraphicsEncoderDesc.t) : HgiGLOpsFn :=
  run TF_VERIFY (HgiGraphicsEncoderDesc.HasAttachments desc)
        "Missing attachments";
  do framebuffer <-
    (fun c => let '(fb, c') := AcquireFramebuffer desc c in Normal fb c');
  run glBindFramebuffer GL_FRAMEBUFFER framebuffer;
  (* Apply LoadOps and blend mode *)
  do blendEnabled <-
    BindFramebufferOp_from 0
      (HgiGraphicsEncoderDesc.colorAttachmentDescs desc) false;
  let depthAttachment := HgiGraphicsEncoderDesc.depthAttachmentDesc desc in
  run (if negb (is_null (HgiGraphicsEncoderDesc.depthTexture desc))
          && is_HgiAttachmentLoadOpClear
               (HgiAttachmentDesc.loadOp depthAttachment)
       then glClearBufferfv GL_DEPTH 0
              (HgiAttachmentDesc.clearValue depthAttachment)
       else ret tt);
  (* Setup blending *)
  run (if blendEnabled then glEnable GL_BLEND else glDisable GL_BLEND);
  HGIGL_POST_PENDING_GL_ERRORS.

End Ops.
End HgiGLOps.

(** ** [HdxColorCorrectionTask]: the full-screen pass *)

Module HdxColorCorrectionTask.

(** [GLint _locations[4]], indexed by the enumerators of the same names. *)
Record Locations := mkLocations {
  COLOR_IN : Z;
  POSITION : Z;
  UV_IN : Z;
  LUT3D_IN : Z
}.

Record GfVec2i := mkGfVec2i { v2_0 : Z; v2_1 : Z }.

(** The members [_ApplyColorCorrection] reads.  [_shaderProgram] holds the
    id of the linked program, or is empty. *)
Record t := mk {
  _shaderProgram : option Z;
  _texture : Z;
  _texture3dLUT : Z;
  _vertexBuffer : Z;
  _locations : Locations;
  _framebufferSize : GfVec2i
}.

Definition sizeof_float : Z := 4.

(** [useOCIO] is the value the preprocessor block at the top of the function
    computes from the build flag, the task's mode and the environment. *)
Definition _ApplyColorCorrection (useOCIO : bool) (self : t) : GL unit :=
  do programId <- deref (_shaderProgram self);
  run glUseProgram programId;
  run glActiveTexture GL_TEXTURE0;
  run glBindTexture GL_TEXTURE_2D (_texture self);
  run glUniform1i (COLOR_IN (_locations self)) 0;
  run (if useOCIO then
         run glEnable GL_TEXTURE_3D;
         run glActiveTexture GL_TEXTURE1;
         run glBindTexture GL_TEXTURE_3D (_texture3dLUT self);
         glUniform1i (LUT3D_IN (_locations self)) 1
       else ret tt);
  run glBindBuffer GL_ARRAY_BUFFER (_vertexBuffer self);
  run glVertexAttribPointer (POSITION (_locations self)) 4 GL_FLOAT GL_FALSE
        (sizeof_float * 6) 0;
  run glEnableVertexAttribArray (POSITION (_locations self));
  run glVertexAttribPointer (UV_IN (_locations self)) 2 GL_FLOAT GL_FALSE
        (sizeof_float * 6) (sizeof_float * 4);
  run glEnableVertexAttribArray (UV_IN (_locations self));
  (* We are rendering a full-screen triangle, which would render to depth.
     Instead we want to preserve the original depth, so disable depth
     writes. *)
  do restoreDepthWriteMask <- glGetBooleanv GL_DEPTH_WRITEMASK;
  do restoreStencilWriteMask <- glGetBooleanv GL_STENCIL_WRITEMASK;
  run glDepthMask GL_FALSE;
  run glStencilMask (Z.b2z GL_FALSE);
  (* Depth test must be ALWAYS instead of disabling the depth_test because
     we still want to write to the depth buffer. *)
  do restoreDepthFunc <- glGetIntegerv GL_DEPTH_FUNC;
  run glDepthFunc GL_ALWAYS;
  do restoreViewport <- glGetIntegerv4 GL_VIEWPORT;
  run glViewport 0 0 (v2_0 (_framebufferSize self))
        (v2_1 (_framebufferSize self));
  (* The app may have alpha blending enabled.
     We want to pass-through the alpha values, not alpha-blend on top of
     dest. *)
  do restoreblendEnabled <- glGetBooleanv GL_BLEND;
  run glDisable GL_BLEND;
  (* Alpha to coverage would prevent any pixels that have an alpha of 0.0
     from being written. *)
  do restoreAlphaToCoverage <- glGetBooleanv GL_SAMPLE_ALPHA_TO_COVERAGE;
  run glDisable GL_SAMPLE_ALPHA_TO_COVERAGE;
  run glDrawArrays GL_TRIANGLES 0 3;
  run (if restoreAlphaToCoverage
       then glEnable GL_SAMPLE_ALPHA_TO_COVERAGE else ret tt);
  run (if restoreblendEnabled then glEnable GL_BLEND else ret tt);
  run glViewport (rect_x restoreViewport) (rect_y restoreViewport)
        (rect_w restoreViewport) (rect_h restoreViewport);
  run glDepthFunc restoreDepthFunc;
  run glDepthMask restoreDepthWriteMask;
  run glStencilMask (Z.b2z restoreStencilWriteMask);
  run glBindBuffer GL_ARRAY_BUFFER 0;
  run glDisableVertexAttribArray (POSITION (_locations self));
  run glDisableVertexAttribArray (UV_IN (_locations self));
  run glUseProgram 0;
  run glActiveTexture GL_TEXTURE0;
  run glBindTexture GL_TEXTURE_2D 0;
  run (if useOCIO then
         run glActiveTexture GL_TEXTURE1;
         run glBindTexture GL_TEXTURE_3D 0;
         glDisable GL_TEXTURE_3D
       else ret tt);
  GLF_POST_PENDING_GL_ERRORS.

End HdxColorCorrectionTask.

(** ** [HdxColorCorrectionTask]: parameters and the texture copy *)

Module HdxColorCorrectionTaskParams.

(** The parameters the sources name.  Tokens and paths are compared by
    their text. *)
Record t := mk {
  framebufferSize : HdxColorCorrectionTask.GfVec2i;
  colorCorrectionMode : string;
  displayOCIO : string;
  viewOCIO : string;
  colorspaceOCIO : string;
  looksOCIO : string;
  lut3dSizeOCIO : Z;
  aovName : string;
  aovBufferPath : string
}.

(** [GfVec2i::operator==] *)
Definition GfVec2i_eqb (a b : HdxColorCorrectionTask.GfVec2i) : bool :=
  (HdxColorCorrectionTask.v2_0 a =? HdxColorCorrectionTask.v2_0 b)
  && (HdxColorCorrectionTask.v2_1 a =? HdxColorCorrectionTask.v2_1 b).

(** [operator==] *)
Definition eqb (lhs rhs : t) : bool :=
  GfVec2i_eqb (framebufferSize lhs) (framebufferSize rhs)
  && String.eqb (colorCorrectionMode lhs) (colorCorrectionMode rhs)
  && String.eqb (displayOCIO lhs) (displayOCIO rhs)
  && String.eqb (viewOCIO lhs) (viewOCIO rhs)
  && String.eqb (colorspaceOCIO lhs) (colorspaceOCIO rhs)
  && String.eqb (looksOCIO lhs) (looksOCIO rhs)
  && (lut3dSizeOCIO lhs =? lut3dSizeOCIO rhs)
  && String.eqb (aovName lhs) (aovName rhs)
  && String.eqb (aovBufferPath lhs) (aovBufferPath rhs).

(** [operator!=] *)
Definition neqb (lhs rhs : t) : bool := negb (eqb lhs rhs).

End HdxColorCorrectionTaskParams.

Module HdxColorCorrectionTaskCopy.

(** The members [_CopyTexture] reads. *)
Record t := mk {
  _aovTexture : option HgiGLTexture.t;
  _aovFramebuffer : Z;
  _copyFramebuffer : Z;
  _textureSize : HdxColorCorrectionTask.GfVec2i
}.

Definition _CopyTexture (self : t) : GL unit :=
  do restoreReadFB <- glGetIntegerv GL_READ_FRAMEBUFFER_BINDING;
  do restoreDrawFB <- glGetIntegerv GL_DRAW_FRAMEBUFFER_BINDING;
  run (if negb (is_null (_aovTexture self)) then
         (* If we have an AOV we copy it so we can read from it while
            writing the color corrected pixels back into the AOV. *)
         run glBindFramebuffer GL_READ_FRAMEBUFFER (_aovFramebuffer self);
         glBindFramebuffer GL_DRAW_FRAMEBUFFER (_copyFramebuffer self)
       else
         (* No AOV provided then make a copy of the default FB color
            attachment. *)
         run glBindFramebuffer GL_READ_FRAMEBUFFER restoreDrawFB;
         glBindFramebuffer GL_DRAW_FRAMEBUFFER (_copyFramebuffer self));
  let width := HdxColorCorrectionTask.v2_0 (_textureSize self) in
  let height := HdxColorCorrectionTask.v2_1 (_textureSize self) in
  run glBlitFramebuffer 0 0 width height
        0 0 width height
        GL_COLOR_BUFFER_BIT GL_NEAREST;
  run glBindFramebuffer GL_READ_FRAMEBUFFER restoreReadFB;
  run glBindFramebuffer GL_DRAW_FRAMEBUFFER restoreDrawFB;
  GLF_POST_PENDING_GL_ERRORS.

End HdxColorCorrectionTaskCopy.

(** ** Sample contexts and inputs *)

Definition default_bindings : Bindings :=
  {| read_framebuffer := 0; draw_framebuffer := 0;
     viewport := mkRect 0 0 640 480; scissor := mkRect 0 0 640 480;
     blend := false; depth_func := 0x0201; depth_writemask := true;
     stencil_writemask := 0xFFFFFFFF; sample_alpha_to_coverage := false;
     texture_3d := false; active_texture := 0;
     texture_binding_2d := ∅; texture_binding_3d := ∅;
     array_buffer := 0; element_array_buffer := 0;
     vertex_buffer := ∅; vertex_attrib_array := ∅; current_program := 0 |}.

(** A freshly created context: the initial values OpenGL prescribes, for a
    640 by 480 window. *)
Definition fresh_context : Ctx :=
  {| bindings := default_bindings; framebuffers := ∅; textures := ∅;
     debug_groups := []; calls := []; gl_errors := []; diagnostics := [] |}.

(** A backend with the enumerator values of the Hgi headers, a framebuffer
    cache that already holds framebuffer 7 for every description, and
    pipelines and resource sets whose bind routines do nothing. *)
Definition sample_backend : Backend :=
  {| HgiGLPipeline := unit;
     HgiGLResourceBindings := unit;
     HgiTextureUsageBitsColorTarget := 1;
     HgiTextureUsageBitsDepthTarget := 2;
     HgiBufferUsageVertex := 4;
     HgiBufferUsageIndex32 := 2;
     GLEW_KHR_debug := true;
     GetFormat := fun _ => (0x1908, 0x1406, 0x8814);
     GetBlendFactor := fun f => f;
     GetBlendEquation := fun e => e;
     AcquireFramebuffer := fun _ c => (7, c);
     BindPipeline_impl := fun _ c => c;
     BindResources_impl := fun _ c => c |}.

Definition sample_texture (id usage layers : Z) : HgiGLTexture.t :=
  HgiGLTexture.mk id
    (HgiTextureDesc.mk usage HgiFormatFloat32 (mkGfVec3i 4 4 1) layers).

Definition sample_buffer (id usage stride : Z) : HgiGLBuffer.t :=
  HgiGLBuffer.mk id (HgiBufferDesc.mk usage stride).

(** A copy of one layer starting at layer [2^32 - 1] out of a color texture
    that has a single layer. *)
Definition layer_overflow_copy : HgiTextureGpuToCpuOp.t :=
  HgiTextureGpuToCpuOp.mk (Some (sample_texture 11 1 1)) (mkGfVec3i 0 0 0)
    0 4294967295 1 4096 0 64.

Definition two_buffers : list HgiGLBuffer.t :=
  [sample_buffer 21 4 12; sample_buffer 22 4 16].

(** A depth resolve whose source handle is null. *)
Definition resolve_without_source : HgiResolveImageOp.t :=
  HgiResolveImageOp.mk 2 None (Some (sample_texture 12 2 1))
    (mkGfVec4i 0 0 4 4) (mkGfVec4i 0 0 4 4).

Definition sample_index_buffer : HgiGLBuffer.t := sample_buffer 5 2 0.

Definition depth_resolve : HgiResolveImageOp.t :=
  HgiResolveImageOp.mk 2 (Some (sample_texture 11 2 1))
    (Some (sample_texture 12 2 1)) (mkGfVec4i 0 0 4 4) (mkGfVec4i 0 0 4 4).

(** A render pass with a depth attachment, cleared on load, and no color
    attachment. *)
Definition depth_only_desc : HgiGraphicsEncoderDesc.t :=
  HgiGraphicsEncoderDesc.mk []
    (HgiAttachmentDesc.mk HgiAttachmentLoadOpClear
       [0x3F800000; 0x3F800000; 0x3F800000; 0x3F800000] false 0 0 0 0 0 0)
    [] (Some (sample_texture 12 2 1)).

(** A pass with two color attachments: the first cleared on load, the
    second blended. *)
Definition two_color_desc : HgiGraphicsEncoderDesc.t :=
  HgiGraphicsEncoderDesc.mk
    [HgiAttachmentDesc.mk HgiAttachmentLoadOpClear [0; 0; 0; 0x3F800000]
       false 1 0 1 0 0 0;
     HgiAttachmentDesc.mk HgiAttachmentLoadOpLoad [0; 0; 0; 0]
       true 6 7 1 7 0 0]
    (HgiAttachmentDesc.mk HgiAttachmentLoadOpDontCare [0; 0; 0; 0]
       false 0 0 0 0 0 0)
    [Some (sample_texture 13 1 1); Some (sample_texture 14 1 1)] None.

Definition sample_task : HdxColorCorrectionTask.t :=
  HdxColorCorrectionTask.mk (Some 9) 31 32 33
    (HdxColorCorrectionTask.mkLocations 0 1 2 3)
    (HdxColorCorrectionTask.mkGfVec2i 640 480).

(** A copy of layer 0 of [tex] into a buffer of 64 bytes. *)
Definition sample_copy (tex : HgiTextureHandle) : HgiTextureGpuToCpuOp.t :=
  HgiTextureGpuToCpuOp.mk tex (mkGfVec3i 0 0 0) 0 0 1 4096 0 64.

(** A pass that declares no attachment at all. *)
Definition no_attachment_desc : HgiGraphicsEncoderDesc.t :=
  HgiGraphicsEncoderDesc.mk []
    (HgiAttachmentDesc.mk HgiAttachmentLoadOpDontCare [0; 0; 0; 0]
       false 0 0 0 0 0 0)
    [] None.

(** A task with no AOV texture, whose copy framebuffer is 41. *)
Definition sample_copy_task : HdxColorCorrectionTaskCopy.t :=
  HdxColorCorrectionTaskCopy.mk None 0 41
    (HdxColorCorrectionTask.mkGfVec2i 640 480).

(** * Vocabulary of the properties *)

(** The context [HGIGL_POST_PENDING_GL_ERRORS] leaves: one [glGetError] per
    pending error and one more that answers [GL_NO_ERROR]; the queue is
    empty and each error is in the sink. *)
Definition polled (c : Ctx) : Ctx :=
  {| bindings := bindings c;
     framebuffers := framebuffers c;
     textures := textures c;
     debug_groups := debug_groups c;
     calls := calls c ++ replicate (S (length (gl_errors c))) Call.glGetError;
     gl_errors := [];
     diagnostics := diagnostics c ++ (PendingGLError <$> gl_errors c) |}.

(** An invocation has polled at its end when the last native call in the log
    is the [glGetError] that found nothing left. *)
Definition polled_at_end (c : Ctx) : Prop :=
  last (calls c) = Some Call.glGetError /\ gl_errors c = [].

(** An invocation started in [c] has surfaced the errors when it has polled
    at its end and every error that was pending in [c] is in the sink. *)
Definition surfaces (c c' : Ctx) : Prop :=
  polled_at_end c'
  /\ forall e, In e (gl_errors c) -> In (PendingGLError e) (diagnostics c').

(** [b'] differs from [b] at most in the vertex-buffer binding slots. *)
Definition same_but_vertex_buffers (b b' : Bindings) : Prop :=
  b' = set_vertex_buffer (vertex_buffer b') b.

(** The bind calls expected of [BindVertexBuffers]: buffer [i] at the slot
    the [GLuint] parameter receives for [firstBinding + i], with its offset
    and its declared stride, for every [i] that has both a buffer and an
    offset. *)
Definition expected_binds (firstBinding : Z)
    (bufs : list HgiGLBuffer.t) (byteOffsets : list Z) : list GLCall :=
  imap (fun i '(buf, byteOffset) =>
          Call.glBindVertexBuffer (wrap_uint32 (firstBinding + Z.of_nat i))
            (HgiGLBuffer.GetBufferId buf) byteOffset
            (HgiBufferDesc.vertexStride (HgiGLBuffer.GetDescriptor buf)))
       (zip bufs byteOffsets).

(** How far an invocation got: what it added to the log, that it kept what
    was in the sink and in the error queue, and what it left bound. *)
Record extends (c c' : Ctx) (added : list GLCall) : Prop := {
  extends_calls : calls c' = calls c ++ added;
  extends_diagnostics : exists d, diagnostics c' = diagnostics c ++ d;
  extends_gl_errors : gl_errors c' = gl_errors c;
  extends_bindings : same_but_vertex_buffers (bindings c) (bindings c');
  extends_framebuffers : framebuffers c' = framebuffers c
}.

Definition size_mismatch : Diagnostic :=
  VerifyFailed "byteOffsets.size() == vertexBuffers.size()".

(** What the two [TF_VERIFY] lines at the top of the closure leave. *)
Definition after_size_checks {A B} (v : list A) (w : list B) (c : Ctx) : Ctx :=
  if HgiGLOps.same_size v w then c
  else post size_mismatch (post size_mismatch c).

(** The second name [ResolveImage] obtains: unused once the first exists. *)
Definition second_unused_framebuffer_name (c : Ctx) : Z :=
  fresh ({[0]} ∪ dom (<[unused_framebuffer_name c := new_framebuffer]>
                        (framebuffers c))).

(** The framebuffer bindings are names in [GLuint] range and each is the
    default framebuffer or a live framebuffer object. *)
Record framebuffer_bindings_ok (c : Ctx) : Prop := {
  read_in_range : is_uint32 (read_framebuffer (bindings c));
  draw_in_range : is_uint32 (draw_framebuffer (bindings c));
  read_live : read_framebuffer (bindings c) = 0
              \/ read_framebuffer (bindings c) ∈ dom (framebuffers c);
  draw_live : draw_framebuffer (bindings c) = 0
              \/ draw_framebuffer (bindings c) ∈ dom (framebuffers c)
}.

(** The native calls of an invocation that finds both textures, in order. *)
Definition resolve_calls (depthTarget : bool)
    (readAttachment writeAttachment : Z) (src dst : GfVec4i)
    (readFramebuffer writeFramebuffer restoreRead restoreWrite : Z)
  : list GLCall :=
  [Call.glCreateFramebuffers 1; Call.glCreateFramebuffers 1;
   Call.glIsTexture readAttachment; Call.glIsTexture writeAttachment]
  ++ (if depthTarget then
        [Call.glNamedFramebufferDrawBuffers readFramebuffer 1 [GL_NONE];
         Call.glNamedFramebufferDrawBuffers writeFramebuffer 1 [GL_NONE];
         Call.glNamedFramebufferTexture readFramebuffer
           GL_COLOR_ATTACHMENT0 0 0;
         Call.glNamedFramebufferTexture writeFramebuffer
           GL_COLOR_ATTACHMENT0 0 0;
         Call.glNamedFramebufferTexture readFramebuffer
           GL_DEPTH_ATTACHMENT readAttachment 0;
         Call.glNamedFramebufferTexture writeFramebuffer
           GL_DEPTH_ATTACHMENT writeAttachment 0]
      else
        [Call.glNamedFramebufferDrawBuffers readFramebuffer 1
           [GL_COLOR_ATTACHMENT0];
         Call.glNamedFramebufferDrawBuffers writeFramebuffer 1
           [GL_COLOR_ATTACHMENT0];
         Call.glNamedFramebufferTexture readFramebuffer
           GL_DEPTH_ATTACHMENT 0 0;
         Call.glNamedFramebufferTexture writeFramebuffer
           GL_DEPTH_ATTACHMENT 0 0;
         Call.glNamedFramebufferTexture readFramebuffer
           GL_COLOR_ATTACHMENT0 readAttachment 0;
         Call.glNamedFramebufferTexture writeFramebuffer
           GL_COLOR_ATTACHMENT0 writeAttachment 0])
  ++ [Call.glCheckNamedFramebufferStatus readFramebuffer GL_READ_FRAMEBUFFER;
      Call.glCheckNamedFramebufferStatus writeFramebuffer GL_DRAW_FRAMEBUFFER;
      Call.glGetIntegerv GL_READ_FRAMEBUFFER_BINDING;
      Call.glGetIntegerv GL_DRAW_FRAMEBUFFER_BINDING;
      Call.glBindFramebuffer GL_READ_FRAMEBUFFER readFramebuffer;
      Call.glBindFramebuffer GL_DRAW_FRAMEBUFFER writeFramebuffer;
      Call.glBlitFramebuffer (v4_0 src) (v4_1 src) (v4_2 src) (v4_3 src)
        (v4_0 dst) (v4_1 dst) (v4_2 dst) (v4_3 dst)
        (if depthTarget then GL_DEPTH_BUFFER_BIT else GL_COLOR_BUFFER_BIT)
        GL_NEAREST;
      Call.glBindFramebuffer GL_READ_FRAMEBUFFER restoreRead;
      Call.glBindFramebuffer GL_DRAW_FRAMEBUFFER restoreWrite;
      Call.glDeleteFramebuffers 1 readFramebuffer;
      Call.glDeleteFramebuffers 1 writeFramebuffer].

(** The bindings [ResolveImage] leaves when it finds both textures: the two
    ephemeral framebuffers bound, the values read before put back, then the
    effect of the two deletions. *)
Definition resolved_bindings (r w : Z) (b : Bindings) : Bindings :=
  unbind_framebuffer w
    (unbind_framebuffer r
       (set_draw_framebuffer (wrap_uint32 (wrap_int32 (draw_framebuffer b)))
          (set_read_framebuffer
             (wrap_uint32 (wrap_int32 (read_framebuffer b)))
             (set_draw_framebuffer (wrap_uint32 w)
                (set_read_framebuffer (wrap_uint32 r) b))))).

(** Whether any color attachment asks for blending. *)
Definition any_blendEnabled (descs : list HgiAttachmentDesc.t) : bool :=
  existsb HgiAttachmentDesc.blendEnabled descs.

(** The calls that set up a framebuffer object's draw buffers and
    attachments. *)
Definition is_framebuffer_setup (k : GLCall) : bool :=
  match k with
  | Call.glNamedFramebufferDrawBuffers _ _ _
  | Call.glNamedFramebufferTexture _ _ _ _ => true
  | _ => false
  end.

Definition is_blend_switch (k : GLCall) : bool :=
  match k with
  | Call.glEnable GL_BLEND | Call.glDisable GL_BLEND => true
  | _ => false
  end.

(** An op is state-transparent when every invocation, however it ends,
    leaves the global binding state it found. *)
Definition state_transparent (op : HgiGLOpsFn) : Prop :=
  forall c, bindings (final (op c)) = bindings c.

(** An op polls when every invocation that issues a native call ends with
    the poll and has the pending errors in the sink. *)
Definition polls_when_it_calls (op : HgiGLOpsFn) : Prop :=
  forall c, calls (final (op c)) <> calls c -> surfaces c (final (op c)).

Definition attaches_to (framebuffer : Z) (k : GLCall) : bool :=
  match k with
  | Call.glNamedFramebufferTexture fb _ _ _ => bool_decide (fb = framebuffer)
  | _ => false
  end.

(** [log] configures an explicit [GL_NONE] draw buffer on [framebuffer], and
    no texture is attached to that framebuffer earlier in [log]. *)
Definition null_draw_buffer_first (framebuffer : Z) (log : list GLCall)
  : Prop :=
  exists before after n,
    log = before
          ++ Call.glNamedFramebufferDrawBuffers framebuffer n [GL_NONE]
          :: after
    /\ Forall (fun k => attaches_to framebuffer k = false) before.

(** The calls that rebind a framebuffer target. *)
Definition is_framebuffer_bind (k : GLCall) : bool :=
  match k with
  | Call.glBindFramebuffer _ _ => true
  | _ => false
  end.

(** What [glGetBooleanv(GL_STENCIL_WRITEMASK)] followed by
    [glStencilMask] of the boolean leaves in the mask. *)
Definition stencil_mask_as_boolean (mask : Z) : Z :=
  Z.b2z (negb (mask =? 0)).

Definition invalid_texture_handle : Diagnostic :=
  VerifyFailed "Invalid texture handle".

(** The descriptor passes the three checks at the top of the closure, and
    its mip level and buffer size fit the [GLint] and [GLsizei] parameters
    they are passed to, so the conversion leaves them as they are. *)
Record copy_proceeds (copyOp : HgiTextureGpuToCpuOp.t)
    (srcTexture : HgiGLTexture.t) : Prop := {
  copy_texture :
    HgiTextureGpuToCpuOp.gpuSourceTexture copyOp = Some srcTexture;
  copy_texture_id : HgiGLTexture.GetTextureId srcTexture <> 0;
  copy_size :
    0 < HgiTextureGpuToCpuOp.destinationBufferByteSize copyOp < 2 ^ 31;
  copy_level : 0 <= HgiTextureGpuToCpuOp.mipLevel copyOp < 2 ^ 31;
  copy_layers :
    wrap_uint32 (HgiTextureGpuToCpuOp.startLayer copyOp
                 + HgiTextureGpuToCpuOp.numLayers copyOp)
    <= HgiTextureDesc.layerCount (HgiGLTexture.GetDescriptor srcTexture)
}.

(** The readback call for [copyOp]: mip level and offsets from the
    descriptor of the copy, extent from the descriptor of the texture. *)
Definition readback (copyOp : HgiTextureGpuToCpuOp.t)
    (srcTexture : HgiGLTexture.t) (glFormat glPixelType : Z) : GLCall :=
  let texDesc := HgiGLTexture.GetDescriptor srcTexture in
  Call.glGetTextureSubImage
    (HgiGLTexture.GetTextureId srcTexture)
    (HgiTextureGpuToCpuOp.mipLevel copyOp)
    (v3_0 (HgiTextureGpuToCpuOp.sourceTexelOffset copyOp))
    (v3_1 (HgiTextureGpuToCpuOp.sourceTexelOffset copyOp))
    (v3_2 (HgiTextureGpuToCpuOp.sourceTexelOffset copyOp))
    (v3_0 (HgiTextureDesc.dimensions texDesc))
    (v3_1 (HgiTextureDesc.dimensions texDesc))
    (v3_2 (HgiTextureDesc.dimensions texDesc))
    glFormat glPixelType
    (HgiTextureGpuToCpuOp.destinationBufferByteSize copyOp)
    (HgiTextureGpuToCpuOp.cpuDestinationBuffer copyOp).

(** What an invocation that reads back adds to the log and to the sink. *)
Definition reads_back (copyOp : HgiTextureGpuToCpuOp.t)
    (srcTexture : HgiGLTexture.t) (glFormat glPixelType : Z)
    (posted : list Diagnostic) (c c' : Ctx) : Prop :=
  calls c' =
    calls c
    ++ [Call.glMemoryBarrier GL_ALL_BARRIER_BITS;
        readback copyOp srcTexture glFormat glPixelType]
    ++ replicate (S (length (gl_errors c))) Call.glGetError
  /\ diagnostics c' =
       diagnostics c ++ posted ++ (PendingGLError <$> gl_errors c)
  /\ bindings c' = bindings c.


(** What a viewport or scissor call with the size [(w, h)] leaves in the
    error queue. *)
Definition size_error (w h : Z) : list GLenum :=
  if decide (w < 0 \/ h < 0) then [GL_INVALID_VALUE] else [].

(** What the four assertions of [ResolveImage] post: the two texture checks,
    then the two completeness checks.  A framebuffer whose only attachment
    is the texture named 0 is incomplete. *)
Definition resolve_diagnostics (isRead isWrite : bool)
    (readAttachment writeAttachment : Z) : list Diagnostic :=
  (if isRead then [] else [VerifyFailed "Source is not a texture"])
  ++ (if isWrite then [] else [VerifyFailed "Destination is not a texture"])
  ++ (if readAttachment =? 0
      then [VerifyFailed "status == GL_FRAMEBUFFER_COMPLETE"] else [])
  ++ (if writeAttachment =? 0
      then [VerifyFailed "status == GL_FRAMEBUFFER_COMPLETE"] else []).

Definition is_depth_clear (k : GLCall) : bool :=
  match k with
  | Call.glClearBufferfv GL_DEPTH _ _ => true
  | _ => false
  end.

(** The native calls of [_CopyTexture] before the poll; [source] is the
    framebuffer it reads from. *)
Definition copy_texture_calls (self : HdxColorCorrectionTaskCopy.t)
    (source restoreReadFB restoreDrawFB : Z) : list GLCall :=
  let size := HdxColorCorrectionTaskCopy._textureSize self in
  let width := HdxColorCorrectionTask.v2_0 size in
  let height := HdxColorCorrectionTask.v2_1 size in
  [Call.glGetIntegerv GL_READ_FRAMEBUFFER_BINDING;
   Call.glGetIntegerv GL_DRAW_FRAMEBUFFER_BINDING;
   Call.glBindFramebuffer GL_READ_FRAMEBUFFER source;
   Call.glBindFramebuffer GL_DRAW_FRAMEBUFFER
     (HdxColorCorrectionTaskCopy._copyFramebuffer self);
   Call.glBlitFramebuffer 0 0 width height 0 0 width height
     GL_COLOR_BUFFER_BIT GL_NEAREST;
   Call.glBindFramebuffer GL_READ_FRAMEBUFFER restoreReadFB;
   Call.glBindFramebuffer GL_DRAW_FRAMEBUFFER restoreDrawFB].

Section BackendVocabulary.
Context {backend : Backend}.

(** The native calls of the loop over the color attachments, from index [i]
    on. *)
Fixpoint attachment_calls (i : nat) (rest : list HgiAttachmentDesc.t)
  : list GLCall :=
  match rest with
  | [] => []
  | colorAttachment :: rest =>
      (if is_HgiAttachmentLoadOpClear
            (HgiAttachmentDesc.loadOp colorAttachment)
       then [Call.glClearBufferfv GL_COLOR (Z.of_nat i)
               (HgiAttachmentDesc.clearValue colorAttachment)]
       else [])
      ++ [Call.glBlendFuncSeparatei (Z.of_nat i)
            (GetBlendFactor
               (HgiAttachmentDesc.srcColorBlendFactor colorAttachment))
            (GetBlendFactor
               (HgiAttachmentDesc.dstColorBlendFactor colorAttachment))
            (GetBlendFactor
               (HgiAttachmentDesc.srcAlphaBlendFactor colorAttachment))
            (GetBlendFactor
               (HgiAttachmentDesc.dstAlphaBlendFactor colorAttachment));
          Call.glBlendEquationSeparatei (Z.of_nat i)
            (GetBlendEquation
               (HgiAttachmentDesc.colorBlendOp colorAttachment))
            (GetBlendEquation
               (HgiAttachmentDesc.alphaBlendOp colorAttachment))]
      ++ attachment_calls (S i) rest
  end.

(** The native calls the op issues itself, once the device has handed it
    [framebuffer]. *)
Definition BindFramebufferOp_calls (desc : HgiGraphicsEncoderDesc.t)
    (framebuffer : Z) : list GLCall :=
  [Call.glBindFramebuffer GL_FRAMEBUFFER framebuffer]
  ++ attachment_calls 0 (HgiGraphicsEncoderDesc.colorAttachmentDescs desc)
  ++ (if negb (is_null (HgiGraphicsEncoderDesc.depthTexture desc))
         && is_HgiAttachmentLoadOpClear
              (HgiAttachmentDesc.loadOp
                 (HgiGraphicsEncoderDesc.depthAttachmentDesc desc))
      then [Call.glClearBufferfv GL_DEPTH 0
              (HgiAttachmentDesc.clearValue
                 (HgiGraphicsEncoderDesc.depthAttachmentDesc desc))]
      else [])
  ++ [if any_blendEnabled
           (HgiGraphicsEncoderDesc.colorAttachmentDescs desc)
      then Call.glEnable GL_BLEND else Call.glDisable GL_BLEND].

(** The context the device's framebuffer cache returns in, and the
    framebuffer it returns. *)
Definition acquired (desc : HgiGraphicsEncoderDesc.t) (c : Ctx) : Z * Ctx :=
  AcquireFramebuffer desc
    (final (TF_VERIFY (HgiGraphicsEncoderDesc.HasAttachments desc)
              "Missing attachments" c)).


(** The blend function and blend equation calls for color attachment [i]. *)
Definition blend_state_calls (i : nat) (a : HgiAttachmentDesc.t)
  : list GLCall :=
  [Call.glBlendFuncSeparatei (Z.of_nat i)
     (GetBlendFactor (HgiAttachmentDesc.srcColorBlendFactor a))
     (GetBlendFactor (HgiAttachmentDesc.dstColorBlendFactor a))
     (GetBlendFactor (HgiAttachmentDesc.srcAlphaBlendFactor a))
     (GetBlendFactor (HgiAttachmentDesc.dstAlphaBlendFactor a));
   Call.glBlendEquationSeparatei (Z.of_nat i)
     (GetBlendEquation (HgiAttachmentDesc.colorBlendOp a))
     (GetBlendEquation (HgiAttachmentDesc.alphaBlendOp a))].

End BackendVocabulary.

(** * Properties *)

(** ** Integer conversions *)


(** Reading an unsigned name through a [GLint] and passing it back where a
    [GLuint] is expected gives the name again. *)
Lemma wrap_uint32_int32 (x : Z) : is_uint32 x -> wrap_uint32 (wrap_int32 x) = x.
Proof.
  intros Hx. unfold wrap_uint32, wrap_int32.
  rewrite Zminus_mod_idemp_l.
  replace (x + 2 ^ 31 - 2 ^ 31) with x by lia.
  apply Z.mod_small. exact Hx.
Qed.

(** ** Polling *)

Lemma post_pending_polled (pending : list GLenum) (c : Ctx) :
  gl_errors c = pending -> post_pending pending c = Normal tt (polled c).
Proof.
  revert c. induction pending as [|e rest IH]; intros c Hc.
  - unfold polled. destruct c as [b f t d k g s]. simpl in Hc. subst g.
    cbn. rewrite app_nil_r. reflexivity.
  - destruct c as [b f t d k g s]. simpl in Hc. subst g.
    cbn [post_pending bind glGetError gl_errors act post issue with_calls
         with_gl_errors with_diagnostics calls diagnostics bindings
         framebuffers textures debug_groups].
    rewrite IH by reflexivity.
    unfold polled. cbn. rewrite <- !app_assoc. reflexivity.
Qed.

Lemma HGIGL_POST_PENDING_GL_ERRORS_polled (c : Ctx) :
  HGIGL_POST_PENDING_GL_ERRORS c = Normal tt (polled c).
Proof. apply post_pending_polled. reflexivity. Qed.

Lemma polled_polled_at_end (c : Ctx) : polled_at_end (polled c).
Proof.
  split; [|reflexivity]. cbn [polled calls].
  rewrite replicate_S_end, app_assoc. apply last_snoc.
Qed.

Lemma polled_surfaces (c0 c : Ctx) :
  gl_errors c = gl_errors c0 -> surfaces c0 (polled c).
Proof.
  intros Herr. split; [apply polled_polled_at_end|].
  intros e He. cbn [polled diagnostics]. rewrite in_app_iff. right.
  rewrite Herr. apply in_map. exact He.
Qed.

(** ** [CopyBufferCpuToGpu] *)

(** C9.  With [byteSize] zero, or a null source pointer, or a null
    destination handle, the op returns the context it was given: the log has
    no new entry, so neither [glNamedBufferSubData] nor [glMemoryBarrier]
    was issued. *)
Theorem CopyBufferCpuToGpu_refuses (copyOp : HgiBufferCpuToGpuOp.t) (c : Ctx) :
  HgiBufferCpuToGpuOp.byteSize copyOp = 0
  \/ HgiBufferCpuToGpuOp.cpuSourceBuffer copyOp = 0
  \/ HgiBufferCpuToGpuOp.gpuDestinationBuffer copyOp = None ->
  HgiGLOps.CopyBufferCpuToGpu copyOp c = Normal tt c
  /\ calls (final (HgiGLOps.CopyBufferCpuToGpu copyOp c)) = calls c.
Proof.
  intros Hrefuse.
  assert (HgiGLOps.CopyBufferCpuToGpu copyOp c = Normal tt c) as ->.
  { unfold HgiGLOps.CopyBufferCpuToGpu.
    destruct Hrefuse as [Hz | [Hz | Hz]]; rewrite Hz.
    - reflexivity.
    - rewrite orb_true_r. reflexivity.
    - cbn [is_null]. rewrite orb_true_r. reflexivity. }
  split; reflexivity.
Qed.

(** Otherwise it writes, then issues the buffer-update barrier. *)
Lemma CopyBufferCpuToGpu_copies (copyOp : HgiBufferCpuToGpuOp.t)
    (glBuffer : HgiGLBuffer.t) (c : Ctx) :
  HgiBufferCpuToGpuOp.byteSize copyOp <> 0 ->
  HgiBufferCpuToGpuOp.cpuSourceBuffer copyOp <> 0 ->
  HgiBufferCpuToGpuOp.gpuDestinationBuffer copyOp = Some glBuffer ->
  HgiGLOps.CopyBufferCpuToGpu copyOp c =
    Normal tt
      (issue (Call.glMemoryBarrier GL_BUFFER_UPDATE_BARRIER_BIT)
         (issue (Call.glNamedBufferSubData
                   (HgiGLBuffer.GetBufferId glBuffer)
                   (HgiBufferCpuToGpuOp.destinationByteOffset copyOp)
                   (HgiBufferCpuToGpuOp.byteSize copyOp)
                   (HgiBufferCpuToGpuOp.cpuSourceBuffer copyOp
                    + HgiBufferCpuToGpuOp.sourceByteOffset copyOp)) c)).
Proof.
  intros Hsize Hsrc Hdst. unfold HgiGLOps.CopyBufferCpuToGpu.
  rewrite Hdst.
  apply Z.eqb_neq in Hsize. apply Z.eqb_neq in Hsrc.
  rewrite Hsize, Hsrc. reflexivity.
Qed.

(** C9 at a copy of zero bytes between a real pointer and a real buffer. *)
Lemma CopyBufferCpuToGpu_refuses_witness :
  HgiGLOps.CopyBufferCpuToGpu
    (HgiBufferCpuToGpuOp.mk 4096 0 (Some (sample_buffer 21 4 12)) 0 0)
    fresh_context = Normal tt fresh_context
  /\ calls (final (HgiGLOps.CopyBufferCpuToGpu
              (HgiBufferCpuToGpuOp.mk 4096 0 (Some (sample_buffer 21 4 12))
                 0 0) fresh_context)) = calls fresh_context.
Proof.
  apply CopyBufferCpuToGpu_refuses. left. reflexivity.
Defined.

(** ** [CopyTextureGpuToCpu] *)

Section CopyTexture.
Context {backend : Backend}.

(** With a destination size of zero the op issues no native call, whatever
    the texture handle. *)
Lemma CopyTextureGpuToCpu_zero_size (copyOp : HgiTextureGpuToCpuOp.t)
    (c : Ctx) :
  HgiTextureGpuToCpuOp.destinationBufferByteSize copyOp = 0 ->
  calls (final (HgiGLOps.CopyTextureGpuToCpu copyOp c)) = calls c.
Proof.
  intros Hsize. unfold HgiGLOps.CopyTextureGpuToCpu, bind, TF_VERIFY.
  destruct (HgiGLOps.valid_texture _); cbn.
  - rewrite Hsize. reflexivity.
  - reflexivity.
Qed.

(** The layer check compares the 32-bit sum: when that sum exceeds the
    layer count the op issues no native call. *)
Lemma CopyTextureGpuToCpu_layer_check (copyOp : HgiTextureGpuToCpuOp.t)
    (srcTexture : HgiGLTexture.t) (c : Ctx) :
  HgiTextureGpuToCpuOp.gpuSourceTexture copyOp = Some srcTexture ->
  HgiTextureDesc.layerCount (HgiGLTexture.GetDescriptor srcTexture)
  < wrap_uint32 (HgiTextureGpuToCpuOp.startLayer copyOp
                 + HgiTextureGpuToCpuOp.numLayers copyOp) ->
  calls (final (HgiGLOps.CopyTextureGpuToCpu copyOp c)) = calls c.
Proof.
  intros Htex Hlayers.
  unfold HgiGLOps.CopyTextureGpuToCpu, bind, TF_VERIFY. rewrite Htex.
  destruct (HgiGLOps.valid_texture _); cbn; [|reflexivity].
  destruct (_ =? 0); cbn; [reflexivity|].
  apply Z.leb_gt in Hlayers. rewrite Hlayers. reflexivity.
Qed.

End CopyTexture.

(** C3.  [startLayer + numLayers] is [2^32], far above the layer count 1,
    yet [layerCnt] wraps to 0: the check passes and the op issues the
    barrier and the readback. *)
Theorem CopyTextureGpuToCpu_layer_sum_wraps :
  HgiTextureDesc.layerCount (HgiGLTexture.GetDescriptor (sample_texture 11 1 1))
  < HgiTextureGpuToCpuOp.startLayer layer_overflow_copy
    + HgiTextureGpuToCpuOp.numLayers layer_overflow_copy
  /\ calls (final (HgiGLOps.CopyTextureGpuToCpu (backend := sample_backend)
                     layer_overflow_copy fresh_context))
     = [Call.glMemoryBarrier GL_ALL_BARRIER_BITS;
        Call.glGetTextureSubImage 11 0 0 0 0 4 4 1 0x1908 0x1406 64 4096;
        Call.glGetError].
Proof. split; [reflexivity | vm_compute; reflexivity]. Qed.

(** ** [BindVertexBuffers] *)

Lemma same_but_vertex_buffers_refl (b : Bindings) :
  same_but_vertex_buffers b b.
Proof. destruct b. reflexivity. Qed.

Lemma same_but_vertex_buffers_trans (b1 b2 b3 : Bindings) :
  same_but_vertex_buffers b1 b2 -> same_but_vertex_buffers b2 b3 ->
  same_but_vertex_buffers b1 b3.
Proof.
  unfold same_but_vertex_buffers. intros H12 H23.
  rewrite H23 at 1. rewrite H12. reflexivity.
Qed.

Lemma expected_binds_cons (firstBinding : Z) (buf : HgiGLBuffer.t)
    (bufs : list HgiGLBuffer.t) (byteOffset : Z) (byteOffsets : list Z) :
  expected_binds firstBinding (buf :: bufs) (byteOffset :: byteOffsets) =
    Call.glBindVertexBuffer (wrap_uint32 firstBinding)
      (HgiGLBuffer.GetBufferId buf) byteOffset
      (HgiBufferDesc.vertexStride (HgiGLBuffer.GetDescriptor buf))
    :: expected_binds (firstBinding + 1) bufs byteOffsets.
Proof.
  unfold expected_binds. cbn [zip_with imap]. rewrite Z.add_0_r. f_equal.
  apply imap_ext. intros j [b o] _. cbn. f_equal. f_equal. lia.
Qed.

Lemma extends_refl (c : Ctx) : extends c c [].
Proof.
  split; rewrite ?app_nil_r; auto using same_but_vertex_buffers_refl.
  exists []. rewrite app_nil_r. reflexivity.
Qed.

Lemma extends_trans (c1 c2 c3 : Ctx) (l1 l2 : list GLCall) :
  extends c1 c2 l1 -> extends c2 c3 l2 -> extends c1 c3 (l1 ++ l2).
Proof.
  intros [Hk1 [d1 Hd1] He1 Hb1 Hf1] [Hk2 [d2 Hd2] He2 Hb2 Hf2]. split.
  - rewrite Hk2, Hk1, app_assoc. reflexivity.
  - exists (d1 ++ d2). rewrite Hd2, Hd1, app_assoc. reflexivity.
  - congruence.
  - eauto using same_but_vertex_buffers_trans.
  - congruence.
Qed.

Lemma extends_post (d : Diagnostic) (c : Ctx) : extends c (post d c) [].
Proof.
  split; cbn; rewrite ?app_nil_r; auto using same_but_vertex_buffers_refl.
  exists [d]. reflexivity.
Qed.

Lemma extends_TF_VERIFY (cond : bool) (what : string) (c : Ctx) :
  extends c (if cond then c else post (VerifyFailed what) c) [].
Proof. destruct cond; auto using extends_refl, extends_post. Qed.

Lemma extends_glBindVertexBuffer (bindingindex buffer offset stride : Z)
    (c : Ctx) :
  extends c
    (final (glBindVertexBuffer bindingindex buffer offset stride c))
    [Call.glBindVertexBuffer bindingindex buffer offset stride].
Proof.
  split; cbn; auto.
  - exists []. rewrite app_nil_r. reflexivity.
  - destruct (bindings c); reflexivity.
Qed.

Section BindVertexBuffers.
Context {backend : Backend}.

Lemma TF_VERIFY_run (cond : bool) (what : string) (c : Ctx) :
  TF_VERIFY cond what c =
    Normal cond (if cond then c else post (VerifyFailed what) c).
Proof. destruct cond; reflexivity. Qed.

Lemma BindVertexBuffers_from_app (firstBinding : Z) (byteOffsets : list Z)
    (l1 l2 : list HgiBufferHandle) (i : nat) (c : Ctx) :
  HgiGLOps.BindVertexBuffers_from firstBinding byteOffsets i (l1 ++ l2) c =
    match HgiGLOps.BindVertexBuffers_from firstBinding byteOffsets i l1 c with
    | Normal _ c' =>
        HgiGLOps.BindVertexBuffers_from firstBinding byteOffsets
          (i + length l1) l2 c'
    | Undefined f c' => Undefined f c'
    end.
Proof.
  revert i c. induction l1 as [|h l1 IH]; intros i c.
  - cbn. rewrite Nat.add_0_r. reflexivity.
  - cbn [app HgiGLOps.BindVertexBuffers_from length]. unfold bind.
    destruct h as [buf|]; cbn [deref ret undefined]; [|reflexivity].
    rewrite !TF_VERIFY_run. unfold index.
    destruct (byteOffsets !! i); cbn [ret undefined]; [|reflexivity].
    cbn [glBindVertexBuffer act]. rewrite IH.
    replace (S i + length l1)%nat with (i + S (length l1))%nat by lia.
    reflexivity.
Qed.

(** The loop over live buffers binds one buffer per available offset, in
    order, and stops with an out-of-range index if the offsets run out. *)
Lemma BindVertexBuffers_from_live (firstBinding : Z) (byteOffsets : list Z)
    (bufs : list HgiGLBuffer.t) (i : nat) (c : Ctx) :
  exists c',
    HgiGLOps.BindVertexBuffers_from firstBinding byteOffsets i
      (Some <$> bufs) c
    = (if decide (length bufs <= length (drop i byteOffsets))%nat
       then Normal tt c' else Undefined IndexOutOfRange c')
    /\ extends c c'
         (expected_binds (firstBinding + Z.of_nat i) bufs
            (drop i byteOffsets)).
Proof.
  revert i c. induction bufs as [|buf bufs IH]; intros i c.
  - exists c. split.
    + cbn. destruct (decide _); [reflexivity | lia].
    + apply extends_refl.
  - cbn [fmap list_fmap HgiGLOps.BindVertexBuffers_from].
    unfold bind. cbn [deref ret]. rewrite TF_VERIFY_run. unfold index.
    match goal with |- context [if ?b then c else ?c1] =>
      pose proof (extends_TF_VERIFY b "desc.usage & HgiBufferUsageVertex" c)
        as Hverify;
      set (cv := if b then c else c1) in *
    end.
    destruct (byteOffsets !! i) as [byteOffset|] eqn:Hoff.
    + cbn [ret].
      pose proof (extends_glBindVertexBuffer
                    (wrap_uint32 (firstBinding + Z.of_nat i))
                    (HgiGLBuffer.GetBufferId buf) byteOffset
                    (HgiBufferDesc.vertexStride (HgiGLBuffer.GetDescriptor buf))
                    cv) as Hbound.
      cbn [glBindVertexBuffer act final] in *.
      match type of Hbound with extends _ ?c1 _ =>
        destruct (IH (S i) c1) as (c' & Hrun & Hext) end.
      exists c'. split.
      * change (list_fmap _ _ Some bufs) with (Some <$> bufs). rewrite Hrun.
        rewrite (drop_S _ _ _ Hoff). cbn [length].
        repeat destruct (decide _); try reflexivity; lia.
      * rewrite (drop_S _ _ _ Hoff), expected_binds_cons.
        replace (firstBinding + Z.of_nat i + 1)
          with (firstBinding + Z.of_nat (S i)) by lia.
        apply (extends_trans _ _ _ [] _ Hverify).
        apply (extends_trans _ _ _ [_] _ Hbound). exact Hext.
    + cbn [undefined]. apply lookup_ge_None in Hoff.
      rewrite (drop_ge _ _ Hoff).
      exists cv. split.
      * destruct (decide _) as [Hle|]; [cbn in Hle; lia | reflexivity].
      * exact Hverify.
Qed.

(** For any handles, null ones included, the loop only adds to the log and
    to the sink and only rebinds vertex-buffer slots, however it ends. *)
Lemma BindVertexBuffers_from_extends (firstBinding : Z)
    (byteOffsets : list Z) (handles : list HgiBufferHandle) (i : nat)
    (c : Ctx) :
  exists added,
    extends c
      (final (HgiGLOps.BindVertexBuffers_from firstBinding byteOffsets i
                handles c))
      added.
Proof.
  revert i c. induction handles as [|h handles IH]; intros i c.
  - exists []. apply extends_refl.
  - cbn [HgiGLOps.BindVertexBuffers_from]. unfold bind.
    destruct h as [buf|]; cbn [deref ret undefined final];
      [|exists []; apply extends_refl].
    rewrite TF_VERIFY_run. unfold index.
    match goal with |- context [if ?b then c else ?c1] =>
      pose proof (extends_TF_VERIFY b "desc.usage & HgiBufferUsageVertex" c)
        as Hverify;
      set (cv := if b then c else c1) in *
    end.
    destruct (byteOffsets !! i) as [byteOffset|];
      cbn [ret undefined final]; [|exists []; exact Hverify].
    pose proof (extends_glBindVertexBuffer
                  (wrap_uint32 (firstBinding + Z.of_nat i))
                  (HgiGLBuffer.GetBufferId buf) byteOffset
                  (HgiBufferDesc.vertexStride (HgiGLBuffer.GetDescriptor buf))
                  cv) as Hbound.
    cbn [glBindVertexBuffer act final] in *.
    match type of Hbound with extends _ ?c1 _ =>
      destruct (IH (S i) c1) as (added & Hext) end.
    eexists. eapply extends_trans; [exact Hverify|].
    eapply extends_trans; [exact Hbound | exact Hext].
Qed.

Lemma BindVertexBuffers_run (firstBinding : Z)
    (vertexBuffers : list HgiBufferHandle) (byteOffsets : list Z) (c : Ctx) :
  HgiGLOps.BindVertexBuffers firstBinding vertexBuffers byteOffsets c =
    match HgiGLOps.BindVertexBuffers_from firstBinding byteOffsets 0
            vertexBuffers (after_size_checks byteOffsets vertexBuffers c) with
    | Normal _ c' => Normal tt (polled c')
    | Undefined f c' => Undefined f c'
    end.
Proof.
  unfold HgiGLOps.BindVertexBuffers, bind, after_size_checks.
  rewrite !TF_VERIFY_run.
  destruct (HgiGLOps.same_size byteOffsets vertexBuffers);
    destruct (HgiGLOps.BindVertexBuffers_from _ _ _ _ _);
    rewrite ?HGIGL_POST_PENDING_GL_ERRORS_polled; reflexivity.
Qed.


Lemma same_size_false {A B} (v : list A) (w : list B) :
  length v <> length w -> HgiGLOps.same_size v w = false.
Proof.
  intros Hlen. unfold HgiGLOps.same_size. apply bool_decide_eq_false_2, Hlen.
Qed.



Lemma length_expected_binds (firstBinding : Z) (bufs : list HgiGLBuffer.t)
    (byteOffsets : list Z) :
  length (expected_binds firstBinding bufs byteOffsets) =
    (length bufs `min` length byteOffsets)%nat.
Proof. unfold expected_binds. rewrite length_imap. apply length_zip_with. Qed.


End BindVertexBuffers.



Section Unchecked.
Context {backend : Backend}.

(** C10.  With fewer offsets than buffers the size assertion is posted and
    the loop runs on regardless: it binds one buffer per offset there is and
    then reads [byteOffsets] past its end.  A null handle in the list is
    dereferenced when the loop reaches it.  [BindPipeline] and
    [BindResources] test their handle and do nothing on a null one. *)
Theorem BindVertexBuffers_unchecked_accesses (firstBinding : Z)
    (bufs : list HgiGLBuffer.t) (rest : list HgiBufferHandle)
    (byteOffsets : list Z) (c : Ctx) :
  ((length byteOffsets < length bufs)%nat ->
   exists c',
     HgiGLOps.BindVertexBuffers firstBinding (Some <$> bufs) byteOffsets c
     = Undefined IndexOutOfRange c'
     /\ In size_mismatch (diagnostics c')
     /\ calls c' = calls c ++ expected_binds firstBinding bufs byteOffsets
     /\ length (expected_binds firstBinding bufs byteOffsets)
        = length byteOffsets)
  /\ ((length bufs <= length byteOffsets)%nat ->
      exists c',
        HgiGLOps.BindVertexBuffers firstBinding
          ((Some <$> bufs) ++ None :: rest) byteOffsets c
        = Undefined NullDereference c'
        /\ calls c' = calls c ++ expected_binds firstBinding bufs byteOffsets)
  /\ HgiGLOps.BindPipeline None c = Normal tt c
  /\ HgiGLOps.BindResources None c = Normal tt c.
Proof.
  split; [|split; [|split; reflexivity]].
  - intros Hlen. rewrite BindVertexBuffers_run.
    destruct (BindVertexBuffers_from_live firstBinding byteOffsets bufs 0
                (after_size_checks byteOffsets (Some <$> bufs) c))
      as (c' & Hrun & [Hcalls [d Hdiag] _ _ _]).
    rewrite Hrun. change (drop 0 byteOffsets) with byteOffsets in *.
    rewrite Z.add_0_r in Hcalls.
    destruct (decide _); [lia|].
    exists c'. split; [reflexivity|]. split; [|split].
    + rewrite Hdiag. unfold after_size_checks.
      rewrite same_size_false by (rewrite length_fmap; lia).
      cbn. rewrite !in_app_iff. cbn. tauto.
    + rewrite Hcalls. unfold after_size_checks.
      destruct (HgiGLOps.same_size _ _); reflexivity.
    + rewrite length_expected_binds. lia.
  - intros Hlen. rewrite BindVertexBuffers_run, BindVertexBuffers_from_app.
    set (c0 := after_size_checks _ _ c).
    destruct (BindVertexBuffers_from_live firstBinding byteOffsets bufs 0 c0)
      as (c' & Hrun & [Hcalls _ _ _ _]).
    rewrite Hrun. change (drop 0 byteOffsets) with byteOffsets in *.
    rewrite Z.add_0_r in Hcalls.
    destruct (decide _); [|lia].
    exists c'. split; [reflexivity|].
    rewrite Hcalls. unfold c0, after_size_checks.
    destruct (HgiGLOps.same_size _ _); reflexivity.
Qed.

End Unchecked.

(** C10 at two buffers with a single offset, and at a null handle after
    the first of two buffers. *)
Lemma BindVertexBuffers_unchecked_accesses_witness :
  (exists c',
     HgiGLOps.BindVertexBuffers (backend := sample_backend) 3
       (Some <$> two_buffers) [0] fresh_context
     = Undefined IndexOutOfRange c'
     /\ calls c' = [Call.glBindVertexBuffer 3 21 0 12])
  /\ (exists c',
        HgiGLOps.BindVertexBuffers (backend := sample_backend) 3
          ((Some <$> [sample_buffer 21 4 12])
           ++ None :: [Some (sample_buffer 22 4 16)]) [0; 8] fresh_context
        = Undefined NullDereference c'
        /\ calls c' = [Call.glBindVertexBuffer 3 21 0 12]).
Proof.
  split.
  - destruct (proj1 (BindVertexBuffers_unchecked_accesses
                       (backend := sample_backend) 3 two_buffers [] [0]
                       fresh_context))
      as (c' & Hrun & _ & Hcalls & _); [cbn; lia|].
    exists c'. split; assumption.
  - destruct (proj1 (proj2 (BindVertexBuffers_unchecked_accesses
                       (backend := sample_backend) 3 [sample_buffer 21 4 12]
                       [Some (sample_buffer 22 4 16)] [0; 8] fresh_context)))
      as (c' & Hrun & Hcalls); [cbn; lia|].
    exists c'. split; assumption.
Defined.

(** ** [ResolveImage] *)

(** *** Stepping

    Symbolic execution keeps the context as a record of its fields.  The
    building blocks rewrite on such a record; [gl_step] unfolds the
    primitives down to them. *)

Lemma issue_run (c0 : GLCall) b f t g k e s :
  issue c0 (mkCtx b f t g k e s) = mkCtx b f t g (k ++ [c0]) e s.
Proof. reflexivity. Qed.

Lemma raise_run (e0 : GLenum) b f t g k e s :
  raise e0 (mkCtx b f t g k e s) = mkCtx b f t g k (e ++ [e0]) s.
Proof. reflexivity. Qed.

Lemma post_run (d : Diagnostic) b f t g k e s :
  post d (mkCtx b f t g k e s) = mkCtx b f t g k e (s ++ [d]).
Proof. reflexivity. Qed.

Lemma rebind_run (h : Bindings -> Bindings) b f t g k e s :
  rebind h (mkCtx b f t g k e s) = mkCtx (h b) f t g k e s.
Proof. reflexivity. Qed.

Lemma with_framebuffers_run (f' : gmap Z Framebuffer) b f t g k e s :
  with_framebuffers f' (mkCtx b f t g k e s) = mkCtx b f' t g k e s.
Proof. reflexivity. Qed.

Lemma with_debug_groups_run (g' : list string) b f t g k e s :
  with_debug_groups g' (mkCtx b f t g k e s) = mkCtx b f t g' k e s.
Proof. reflexivity. Qed.

Lemma with_gl_errors_run (e' : list GLenum) b f t g k e s :
  with_gl_errors e' (mkCtx b f t g k e s) = mkCtx b f t g k e' s.
Proof. reflexivity. Qed.

Create Rewrite HintDb gl.
#[global] Hint Rewrite issue_run raise_run post_run rebind_run
  with_framebuffers_run with_debug_groups_run with_gl_errors_run : gl.

Ltac gl_unfold :=
  cbn [bind ret act observe logged final undefined
       bindings framebuffers textures debug_groups calls gl_errors
       diagnostics
       glCreateFramebuffers glIsTexture
       glNamedFramebufferDrawBuffers glNamedFramebufferTexture
       glCheckNamedFramebufferStatus glGetIntegerv glGetIntegerv4
       glGetBooleanv glBindFramebuffer glBlitFramebuffer
       glBindVertexBuffer glBindBuffer glDrawElementsInstancedBaseVertex
       glDrawArrays glClearBufferfv glBlendFuncSeparatei
       glBlendEquationSeparatei set_capability glEnable glDisable
       glUseProgram glActiveTexture glBindTexture glUniform1i
       glVertexAttribPointer glEnableVertexAttribArray
       glDisableVertexAttribArray glDepthMask glStencilMask glDepthFunc
       glMemoryBarrier glGetTextureSubImage glNamedBufferSubData
       glPushDebugGroup glPopDebugGroup deref TF_WARN TF_CODING_ERROR].

Ltac gl_step := gl_unfold; autorewrite with gl; gl_unfold.

Lemma TF_VERIFY_sink (cond : bool) (what : string) b f t g k e s :
  TF_VERIFY cond what (mkCtx b f t g k e s) =
    Normal cond
      (mkCtx b f t g k e (if cond then s else s ++ [VerifyFailed what])).
Proof. destruct cond; reflexivity. Qed.

Section EphemeralFramebuffers.
Variables (f : gmap Z Framebuffer) (r w : Z).
Hypothesis r_unused : f !! r = None.
Hypothesis w_unused : f !! w = None.
Hypothesis r_w : r ≠ w.

Lemma on_read_framebuffer (h : Framebuffer -> Framebuffer) fr fw b t g k e s :
  on_framebuffer r h (mkCtx b (<[w := fw]> (<[r := fr]> f)) t g k e s) =
    mkCtx b (<[w := fw]> (<[r := h fr]> f)) t g k e s.
Proof.
  unfold on_framebuffer. cbn [framebuffers].
  rewrite lookup_insert_ne by congruence. rewrite lookup_insert_eq.
  rewrite (insert_insert_ne _ r w) by congruence.
  rewrite insert_insert_eq. reflexivity.
Qed.

Lemma on_write_framebuffer (h : Framebuffer -> Framebuffer) fr fw b t g k e s :
  on_framebuffer w h (mkCtx b (<[w := fw]> (<[r := fr]> f)) t g k e s) =
    mkCtx b (<[w := h fw]> (<[r := fr]> f)) t g k e s.
Proof.
  unfold on_framebuffer. cbn [framebuffers]. rewrite lookup_insert_eq.
  rewrite insert_insert_eq. reflexivity.
Qed.

Lemma lookup_read_framebuffer fr fw :
  (<[w := fw]> (<[r := fr]> f)) !! r = Some fr.
Proof. rewrite lookup_insert_ne by congruence. apply lookup_insert_eq. Qed.

Lemma lookup_write_framebuffer fr fw :
  (<[w := fw]> (<[r := fr]> f)) !! w = Some fw.
Proof. apply lookup_insert_eq. Qed.

Lemma status_read_framebuffer (target : GLenum) fr fw b t g k e s :
  glCheckNamedFramebufferStatus r target
    (mkCtx b (<[w := fw]> (<[r := fr]> f)) t g k e s) =
    Normal (framebuffer_status fr)
      (mkCtx b (<[w := fw]> (<[r := fr]> f)) t g
         (k ++ [Call.glCheckNamedFramebufferStatus r target]) e s).
Proof.
  unfold glCheckNamedFramebufferStatus. cbn [framebuffers].
  rewrite lookup_read_framebuffer. reflexivity.
Qed.

Lemma status_write_framebuffer (target : GLenum) fr fw b t g k e s :
  glCheckNamedFramebufferStatus w target
    (mkCtx b (<[w := fw]> (<[r := fr]> f)) t g k e s) =
    Normal (framebuffer_status fw)
      (mkCtx b (<[w := fw]> (<[r := fr]> f)) t g
         (k ++ [Call.glCheckNamedFramebufferStatus w target]) e s).
Proof.
  unfold glCheckNamedFramebufferStatus. cbn [framebuffers].
  rewrite lookup_write_framebuffer. reflexivity.
Qed.

Lemma glDeleteFramebuffers_run (name : Z) b f0 t g k e s :
  name ≠ 0 ->
  glDeleteFramebuffers name (mkCtx b f0 t g k e s) =
    Normal tt
      (mkCtx (unbind_framebuffer name b) (delete name f0) t g
         (k ++ [Call.glDeleteFramebuffers 1 name]) e s).
Proof.
  intros Hname. unfold glDeleteFramebuffers, act.
  rewrite decide_False by exact Hname. reflexivity.
Qed.

Lemma delete_ephemeral_framebuffers fr fw :
  delete w (delete r (<[w := fw]> (<[r := fr]> f))) = f.
Proof.
  rewrite (delete_insert_ne _ r w) by congruence.
  rewrite (delete_insert_id _ r) by exact r_unused.
  apply delete_insert_id. exact w_unused.
Qed.

End EphemeralFramebuffers.

Lemma unused_names (f : gmap Z Framebuffer) :
  let r := fresh ({[0]} ∪ dom f) in
  let w := fresh ({[0]} ∪ dom (<[r := new_framebuffer]> f)) in
  (r ≠ 0 /\ f !! r = None) /\ (w ≠ 0 /\ f !! w = None) /\ r ≠ w.
Proof.
  intros r w.
  pose proof (is_fresh ({[0]} ∪ dom f)) as Hr. fold r in Hr.
  pose proof (is_fresh ({[0]} ∪ dom (<[r := new_framebuffer]> f))) as Hw.
  fold w in Hw. rewrite dom_insert_L in Hw.
  repeat split.
  - intros E. apply Hr. rewrite E. set_solver.
  - apply not_elem_of_dom. set_solver.
  - intros E. apply Hw. rewrite E. set_solver.
  - apply not_elem_of_dom. set_solver.
  - intros E. apply Hw. rewrite <- E. set_solver.
Qed.

Section ResolveImage.
Context {backend : Backend}.

Ltac resolve_step :=
  first
    [ rewrite TF_VERIFY_sink
    | rewrite on_read_framebuffer by assumption
    | rewrite on_write_framebuffer
    | rewrite status_read_framebuffer by assumption
    | rewrite status_write_framebuffer
    | rewrite glDeleteFramebuffers_run by assumption
    | rewrite HGIGL_POST_PENDING_GL_ERRORS_polled
    | progress autorewrite with gl
    | progress gl_unfold ].

Lemma ResolveImage_resolves (resolveOp : HgiResolveImageOp.t)
    (glSrcTexture glDstTexture : HgiGLTexture.t) (c : Ctx) :
  HgiResolveImageOp.source resolveOp = Some glSrcTexture ->
  HgiResolveImageOp.destination resolveOp = Some glDstTexture ->
  exists c',
    HgiGLOps.ResolveImage resolveOp c = Normal tt c'
    /\ calls c' =
         calls c
         ++ resolve_calls
              (has_bit (HgiResolveImageOp.usage resolveOp)
                 HgiTextureUsageBitsDepthTarget)
              (HgiGLTexture.GetTextureId glSrcTexture)
              (HgiGLTexture.GetTextureId glDstTexture)
              (HgiResolveImageOp.sourceRegion resolveOp)
              (HgiResolveImageOp.destinationRegion resolveOp)
              (unused_framebuffer_name c) (second_unused_framebuffer_name c)
              (wrap_int32 (read_framebuffer (bindings c)))
              (wrap_int32 (draw_framebuffer (bindings c)))
         ++ replicate (S (length (gl_errors c))) Call.glGetError
    /\ gl_errors c' = []
    /\ framebuffers c' = framebuffers c
    /\ bindings c' =
         resolved_bindings (unused_framebuffer_name c)
           (second_unused_framebuffer_name c) (bindings c)
    /\ surfaces c c'.
Proof.
  intros Hsrc Hdst. destruct c as [b f t g k e s].
  unfold HgiGLOps.ResolveImage, second_unused_framebuffer_name,
    unused_framebuffer_name.
  rewrite Hsrc, Hdst. unfold bind. gl_step.
  unfold unused_framebuffer_name. gl_step.
  destruct (unused_names f) as ([Hr0 Hr] & [Hw0 Hw] & Hrw).
  set (r := fresh ({[0]} ∪ dom f)) in *.
  set (w := fresh ({[0]} ∪ dom (<[r := new_framebuffer]> f))) in *.
  destruct (has_bit _ _); repeat resolve_step;
    (eexists; split; [reflexivity|]);
    cbn [polled bindings framebuffers calls gl_errors diagnostics];
    (split; [|split; [|split; [|split]]]);
    [ unfold resolve_calls; rewrite <- !app_assoc; reflexivity
    | reflexivity
    | apply delete_ephemeral_framebuffers; assumption
    | reflexivity
    | apply polled_surfaces; reflexivity
    | unfold resolve_calls; rewrite <- !app_assoc; reflexivity
    | reflexivity
    | apply delete_ephemeral_framebuffers; assumption
    | reflexivity
    | apply polled_surfaces; reflexivity ].
Qed.

End ResolveImage.

Ltac gl_run :=
  repeat first
    [ rewrite TF_VERIFY_sink
    | rewrite HGIGL_POST_PENDING_GL_ERRORS_polled
    | progress autorewrite with gl
    | progress gl_unfold ].

Lemma last_poll (l : list GLCall) (n : nat) :
  last (l ++ replicate (S n) Call.glGetError) = Some Call.glGetError.
Proof. rewrite replicate_S_end, app_assoc. apply last_snoc. Qed.

Lemma unbind_other_framebuffer (name : Z) (b : Bindings) :
  read_framebuffer b ≠ name -> draw_framebuffer b ≠ name ->
  unbind_framebuffer name b = b.
Proof.
  intros Hread Hdraw. unfold unbind_framebuffer.
  destruct (decide (read_framebuffer b = name)); [contradiction|].
  destruct (decide (draw_framebuffer b = name)); [contradiction|].
  reflexivity.
Qed.

(** Binding the ephemeral framebuffers and then the values read back
    through [GLint] variables leaves the bindings as they were, and the
    deletions do not touch them: the names deleted are not the ones bound. *)
Lemma resolved_bindings_restored (c : Ctx) :
  framebuffer_bindings_ok c ->
  resolved_bindings (unused_framebuffer_name c)
    (second_unused_framebuffer_name c) (bindings c) = bindings c.
Proof.
  intros [Hread Hdraw Hrlive Hdlive].
  unfold second_unused_framebuffer_name, unused_framebuffer_name.
  destruct (unused_names (framebuffers c)) as ([Hr0 Hr] & [Hw0 Hw] & Hrw).
  set (r := fresh ({[0]} ∪ dom (framebuffers c))) in *.
  set (w := fresh ({[0]} ∪ dom (<[r := new_framebuffer]> (framebuffers c))))
    in *.
  assert (Hne : forall name, name = 0 \/ name ∈ dom (framebuffers c) ->
                             name ≠ r /\ name ≠ w).
  { intros name [-> | Hlive]; [split; congruence|].
    apply elem_of_dom in Hlive as [fb Hfb]. split; congruence. }
  destruct (Hne _ Hrlive) as [Hrr Hrw']. destruct (Hne _ Hdlive) as [Hdr Hdw].
  unfold resolved_bindings.
  rewrite !wrap_uint32_int32 by assumption.
  destruct (bindings c); cbn in *.
  rewrite (unbind_other_framebuffer r) by (cbn; assumption).
  rewrite (unbind_other_framebuffer w) by (cbn; assumption).
  reflexivity.
Qed.

Section ResolveImageProperties.
Context {backend : Backend}.

(** When both textures are present the op puts the read and draw
    framebuffer bindings back and destroys both framebuffers it created. *)
Lemma ResolveImage_restores_and_destroys (resolveOp : HgiResolveImageOp.t)
    (glSrcTexture glDstTexture : HgiGLTexture.t) (c : Ctx) :
  HgiResolveImageOp.source resolveOp = Some glSrcTexture ->
  HgiResolveImageOp.destination resolveOp = Some glDstTexture ->
  framebuffer_bindings_ok c ->
  exists c',
    HgiGLOps.ResolveImage resolveOp c = Normal tt c'
    /\ bindings c' = bindings c
    /\ framebuffers c' = framebuffers c.
Proof.
  intros Hsrc Hdst Hok.
  destruct (ResolveImage_resolves resolveOp _ _ c Hsrc Hdst)
    as (c' & Hrun & _ & _ & Hfb & Hbind & _).
  exists c'. rewrite Hbind, resolved_bindings_restored by exact Hok. auto.
Qed.

(** On the early return the op has created two framebuffers and deleted
    none: both stay alive in the context. *)
Lemma ResolveImage_early_return (resolveOp : HgiResolveImageOp.t) (c : Ctx) :
  HgiResolveImageOp.source resolveOp = None
  \/ HgiResolveImageOp.destination resolveOp = None ->
  HgiGLOps.ResolveImage resolveOp c =
    Normal tt
      (post (CodingError "No textures provided for resolve")
         (with_framebuffers
            (<[second_unused_framebuffer_name c := new_framebuffer]>
               (<[unused_framebuffer_name c := new_framebuffer]>
                  (framebuffers c)))
            (issue (Call.glCreateFramebuffers 1)
               (issue (Call.glCreateFramebuffers 1) c)))).
Proof.
  intros Hnull. destruct c as [b f t g k e s].
  unfold HgiGLOps.ResolveImage, second_unused_framebuffer_name, bind.
  gl_run. unfold unused_framebuffer_name. gl_run.
  destruct Hnull as [-> | ->];
    [|destruct (HgiResolveImageOp.source resolveOp)]; reflexivity.
Qed.

End ResolveImageProperties.

(** C2.  With a null source handle the op takes the early return: it has
    issued two [glCreateFramebuffers] and no [glDeleteFramebuffers], and the
    framebuffers 1 and 2 it created are still alive when it returns. *)
Theorem ResolveImage_early_return_leaks :
  let c' := final (HgiGLOps.ResolveImage (backend := sample_backend)
                     resolve_without_source fresh_context) in
  framebuffers fresh_context = ∅
  /\ framebuffers c' = <[2 := new_framebuffer]> (<[1 := new_framebuffer]> ∅)
  /\ calls c' = [Call.glCreateFramebuffers 1; Call.glCreateFramebuffers 1]
  /\ diagnostics c' = [CodingError "No textures provided for resolve"]
  /\ bindings c' = bindings fresh_context.
Proof. vm_compute. repeat split; reflexivity. Qed.

(** ** [DrawIndexed], the copies and the debug groups *)

Section Transparency.
Context {backend : Backend}.

(** With a live index buffer the op leaves [GL_ELEMENT_ARRAY_BUFFER] bound
    to it: nothing reads the prior binding and nothing puts it back. *)
Lemma DrawIndexed_draws (indexBuf : HgiGLBuffer.t)
    (indexCount indexBufferByteOffset vertexOffset : Z)
    (instanceCount firstInstance : Z) (c : Ctx) :
  exists c',
    HgiGLOps.DrawIndexed (Some indexBuf) indexCount indexBufferByteOffset
      vertexOffset instanceCount firstInstance c = Normal tt c'
    /\ bindings c' =
         set_element_array_buffer (HgiGLBuffer.GetBufferId indexBuf)
           (bindings c)
    /\ calls c' =
         calls c
         ++ [Call.glBindBuffer GL_ELEMENT_ARRAY_BUFFER
               (HgiGLBuffer.GetBufferId indexBuf);
             Call.glDrawElementsInstancedBaseVertex GL_TRIANGLES
               (wrap_int32 indexCount) GL_UNSIGNED_INT indexBufferByteOffset
               (wrap_int32 instanceCount) (wrap_int32 vertexOffset)]
         ++ replicate (S (length (gl_errors c))) Call.glGetError
    /\ surfaces c c'.
Proof.
  destruct c as [b f t g k e s].
  unfold HgiGLOps.DrawIndexed, bind. gl_run.
  eexists. split; [reflexivity|].
  split; [reflexivity|]. split; [|apply polled_surfaces; reflexivity].
  cbn [polled bindings calls gl_errors]. rewrite <- !app_assoc.
  reflexivity.
Qed.

Lemma CopyTextureGpuToCpu_outcome (copyOp : HgiTextureGpuToCpuOp.t)
    (c : Ctx) :
  exists c',
    HgiGLOps.CopyTextureGpuToCpu copyOp c = Normal tt c'
    /\ bindings c' = bindings c
    /\ (calls c' = calls c \/ surfaces c c').
Proof.
  destruct c as [b f t g k e s].
  unfold HgiGLOps.CopyTextureGpuToCpu, bind. rewrite TF_VERIFY_sink.
  destruct (HgiTextureGpuToCpuOp.gpuSourceTexture copyOp) as [srcTexture|];
    cbn [HgiGLOps.valid_texture negb];
    [|eexists; repeat split; left; reflexivity].
  destruct (negb (HgiGLTexture.GetTextureId srcTexture =? 0));
    cbn [negb]; [|eexists; repeat split; left; reflexivity].
  destruct (_ =? 0); [gl_run; eexists; repeat split; left; reflexivity|].
  gl_run. destruct (_ <=? _); cbn [negb];
    [|eexists; repeat split; left; reflexivity].
  destruct (has_bit _ HgiTextureUsageBitsColorTarget).
  - destruct (GetFormat _) as [[glFormat glPixelType] glInternalFormat].
    gl_run. eexists. split; [reflexivity|]. split; [reflexivity|]. right.
    apply polled_surfaces; reflexivity.
  - destruct (has_bit _ HgiTextureUsageBitsDepthTarget); gl_run;
      (eexists; split; [reflexivity|]; split; [reflexivity|]; right;
       apply polled_surfaces; reflexivity).
Qed.

Lemma CopyBufferCpuToGpu_outcome (copyOp : HgiBufferCpuToGpuOp.t) (c : Ctx) :
  exists c',
    HgiGLOps.CopyBufferCpuToGpu copyOp c = Normal tt c'
    /\ bindings c' = bindings c
    /\ gl_errors c' = gl_errors c
    /\ diagnostics c' = diagnostics c
    /\ (calls c' = calls c
        \/ exists buffer offset size data,
             calls c' =
               calls c
               ++ [Call.glNamedBufferSubData buffer offset size data;
                   Call.glMemoryBarrier GL_BUFFER_UPDATE_BARRIER_BIT]).
Proof.
  destruct c as [b f t g k e s].
  unfold HgiGLOps.CopyBufferCpuToGpu, bind.
  destruct (HgiBufferCpuToGpuOp.gpuDestinationBuffer copyOp) as [glBuffer|];
    cbn [is_null]; rewrite ?orb_true_r, ?orb_false_r;
    [|eexists; repeat split; left; reflexivity].
  destruct (_ || _); [eexists; repeat split; left; reflexivity|].
  gl_run. eexists. split; [reflexivity|]. autorewrite with gl.
  repeat split. right. do 4 eexists. cbn [calls]. rewrite <- app_assoc.
  reflexivity.
Qed.

End Transparency.

(** ** [BindFramebufferOp] *)

Section BindFramebufferOp.
Context {backend : Backend}.

Lemma BindFramebufferOp_from_run (rest : list HgiAttachmentDesc.t)
    (i : nat) (blendEnabled : bool) b f t g k e s :
  HgiGLOps.BindFramebufferOp_from i rest blendEnabled (mkCtx b f t g k e s) =
    Normal (blendEnabled || any_blendEnabled rest)
      (mkCtx b f t g (k ++ attachment_calls i rest) e s).
Proof.
  revert i blendEnabled k.
  induction rest as [|colorAttachment rest IH]; intros i blendEnabled k.
  - cbn. rewrite orb_false_r, app_nil_r. reflexivity.
  - cbn [HgiGLOps.BindFramebufferOp_from attachment_calls any_blendEnabled
         existsb].
    unfold bind.
    destruct (is_HgiAttachmentLoadOpClear _); gl_run; rewrite IH;
      rewrite <- !app_assoc, orb_assoc; reflexivity.
Qed.

Lemma attachment_calls_clear (rest : list HgiAttachmentDesc.t) (i j : nat)
    (colorAttachment : HgiAttachmentDesc.t) :
  rest !! j = Some colorAttachment ->
  HgiAttachmentDesc.loadOp colorAttachment = HgiAttachmentLoadOpClear ->
  In (Call.glClearBufferfv GL_COLOR (Z.of_nat (i + j))
        (HgiAttachmentDesc.clearValue colorAttachment))
     (attachment_calls i rest).
Proof.
  revert i j. induction rest as [|a rest IH]; intros i j Hj Hclear.
  - discriminate.
  - cbn [attachment_calls]. destruct j as [|j].
    + injection Hj as ->. rewrite Hclear, Nat.add_0_r. cbn. left. reflexivity.
    + rewrite !in_app_iff. right. right.
      replace (i + S j)%nat with (S i + j)%nat by lia. apply IH; assumption.
Qed.

Lemma attachment_calls_plain (rest : list HgiAttachmentDesc.t) (i : nat) :
  Forall (fun k => is_framebuffer_setup k = false
                   /\ is_blend_switch k = false)
    (attachment_calls i rest).
Proof.
  revert i. induction rest as [|a rest IH]; intros i; cbn [attachment_calls].
  - constructor.
  - apply Forall_app. split; [destruct (is_HgiAttachmentLoadOpClear _)|];
      repeat constructor. apply IH.
Qed.

Lemma BindFramebufferOp_run (desc : HgiGraphicsEncoderDesc.t) (c : Ctx) :
  exists c',
    HgiGLOps.BindFramebufferOp desc c = Normal tt c'
    /\ calls c' =
         calls (acquired desc c).2
         ++ BindFramebufferOp_calls desc (acquired desc c).1
         ++ replicate (S (length (gl_errors (acquired desc c).2)))
              Call.glGetError
    /\ surfaces (acquired desc c).2 c'
    /\ blend (bindings c') =
         any_blendEnabled (HgiGraphicsEncoderDesc.colorAttachmentDescs desc).
Proof.
  unfold HgiGLOps.BindFramebufferOp, acquired, bind.
  destruct (TF_VERIFY _ _ c) as [ok c0|] eqn:Hverify;
    [|unfold TF_VERIFY, bind in Hverify; destruct (_ : bool); discriminate].
  cbn [final]. destruct (AcquireFramebuffer desc c0) as [fb c1].
  destruct c1 as [b f t g k e s]. cbn [fst snd]. gl_run.
  rewrite BindFramebufferOp_from_run. cbn [orb].
  unfold BindFramebufferOp_calls.
  destruct (negb _ && _); destruct (any_blendEnabled _); gl_run;
    (eexists; split; [reflexivity|]);
    (split; [|split; [apply polled_surfaces; reflexivity|]]);
    cbn [polled calls gl_errors bindings];
    rewrite <- ?app_assoc; destruct b; reflexivity.
Qed.

(** What the op leaves in the sink and in the bindings, on top of what the
    device left. *)
Lemma BindFramebufferOp_bindings (desc : HgiGraphicsEncoderDesc.t)
    (c : Ctx) :
  exists c',
    HgiGLOps.BindFramebufferOp desc c = Normal tt c'
    /\ diagnostics c' =
         diagnostics (acquired desc c).2
         ++ (PendingGLError <$> gl_errors (acquired desc c).2)
    /\ bindings c' =
         set_blend
           (any_blendEnabled (HgiGraphicsEncoderDesc.colorAttachmentDescs desc))
           (set_draw_framebuffer (wrap_uint32 (acquired desc c).1)
              (set_read_framebuffer (wrap_uint32 (acquired desc c).1)
                 (bindings (acquired desc c).2))).
Proof.
  unfold HgiGLOps.BindFramebufferOp, acquired, bind.
  destruct (TF_VERIFY _ _ c) as [ok c0|] eqn:Hverify;
    [|unfold TF_VERIFY, bind in Hverify; destruct (_ : bool); discriminate].
  cbn [final]. destruct (AcquireFramebuffer desc c0) as [fb c1].
  destruct c1 as [b f t g k e s]. cbn [fst snd]. gl_run.
  rewrite BindFramebufferOp_from_run. cbn [orb].
  destruct (negb _ && _); destruct (any_blendEnabled _); gl_run;
    (eexists; split; [reflexivity|]);
    cbn [polled bindings diagnostics gl_errors]; destruct b; repeat split.
Qed.

End BindFramebufferOp.

(** ** What the ops leave bound *)

(** C1, as stated, fails at [DrawIndexed]: drawing six indices out of index
    buffer 5 in a fresh context leaves [GL_ELEMENT_ARRAY_BUFFER] bound to 5,
    where 0 was bound before. *)
Lemma DrawIndexed_not_state_transparent :
  element_array_buffer (bindings fresh_context) = 0
  /\ element_array_buffer
       (bindings (final (HgiGLOps.DrawIndexed (backend := sample_backend)
                           (Some sample_index_buffer) 6 0 0 1 0
                           fresh_context))) = 5
  /\ ~ state_transparent
         (HgiGLOps.DrawIndexed (backend := sample_backend)
            (Some sample_index_buffer) 6 0 0 1 0).
Proof.
  split; [reflexivity|]. split; [vm_compute; reflexivity|].
  intros Htransparent. specialize (Htransparent fresh_context).
  apply (f_equal element_array_buffer) in Htransparent.
  vm_compute in Htransparent. discriminate.
Qed.

Section Footprint.
Context {backend : Backend}.

Lemma ResolveImage_bindings (resolveOp : HgiResolveImageOp.t) (c : Ctx) :
  framebuffer_bindings_ok c ->
  bindings (final (HgiGLOps.ResolveImage resolveOp c)) = bindings c.
Proof.
  intros Hok.
  destruct (HgiResolveImageOp.source resolveOp) as [glSrcTexture|] eqn:Hsrc;
    [destruct (HgiResolveImageOp.destination resolveOp) as [glDstTexture|]
       eqn:Hdst|].
  - destruct (ResolveImage_restores_and_destroys resolveOp _ _ c Hsrc Hdst
                Hok) as (c' & -> & Hbind & _).
    exact Hbind.
  - rewrite ResolveImage_early_return by (right; exact Hdst). reflexivity.
  - rewrite ResolveImage_early_return by (left; exact Hsrc). reflexivity.
Qed.

Lemma BindVertexBuffers_bindings (firstBinding : Z)
    (vertexBuffers : list HgiBufferHandle) (byteOffsets : list Z) (c : Ctx) :
  same_but_vertex_buffers (bindings c)
    (bindings (final (HgiGLOps.BindVertexBuffers firstBinding vertexBuffers
                        byteOffsets c))).
Proof.
  rewrite BindVertexBuffers_run.
  destruct (BindVertexBuffers_from_extends firstBinding byteOffsets
              vertexBuffers 0
              (after_size_checks byteOffsets vertexBuffers c))
    as (added & [_ _ _ Hbind _]).
  assert (bindings (after_size_checks byteOffsets vertexBuffers c)
          = bindings c) as Hchecks.
  { unfold after_size_checks. destruct (HgiGLOps.same_size _ _); reflexivity. }
  rewrite Hchecks in Hbind.
  destruct (HgiGLOps.BindVertexBuffers_from _ _ _ _ _); exact Hbind.
Qed.

(** C1, amended.  The debug-group ops and the two copies are
    state-transparent; so is [ResolveImage] in a context whose framebuffer
    bindings are the default framebuffer or live objects.
    [BindVertexBuffers] changes the vertex-buffer binding slots and nothing
    else.  [DrawIndexed] leaves the element-array-buffer binding set to its
    index buffer and changes nothing else. *)
Theorem ops_binding_footprint (c : Ctx) :
  (forall label, state_transparent (HgiGLOps.PushDebugGroup label))
  /\ state_transparent HgiGLOps.PopDebugGroup
  /\ (forall copyOp, state_transparent (HgiGLOps.CopyTextureGpuToCpu copyOp))
  /\ (forall copyOp, state_transparent (HgiGLOps.CopyBufferCpuToGpu copyOp))
  /\ (forall resolveOp,
        framebuffer_bindings_ok c ->
        bindings (final (HgiGLOps.ResolveImage resolveOp c)) = bindings c)
  /\ (forall firstBinding vertexBuffers byteOffsets,
        same_but_vertex_buffers (bindings c)
          (bindings (final (HgiGLOps.BindVertexBuffers firstBinding
                              vertexBuffers byteOffsets c))))
  /\ (forall indexBuf indexCount indexBufferByteOffset vertexOffset
             instanceCount firstInstance,
        bindings (final (HgiGLOps.DrawIndexed (Some indexBuf) indexCount
                           indexBufferByteOffset vertexOffset instanceCount
                           firstInstance c))
        = set_element_array_buffer (HgiGLBuffer.GetBufferId indexBuf)
            (bindings c)).
Proof.
  repeat split.
  - intros label c0. unfold HgiGLOps.PushDebugGroup.
    destruct GLEW_KHR_debug; reflexivity.
  - intros c0. unfold HgiGLOps.PopDebugGroup.
    destruct GLEW_KHR_debug; reflexivity.
  - intros copyOp c0.
    destruct (CopyTextureGpuToCpu_outcome copyOp c0) as (c' & -> & Hbind & _).
    exact Hbind.
  - intros copyOp c0.
    destruct (CopyBufferCpuToGpu_outcome copyOp c0) as (c' & -> & Hbind & _).
    exact Hbind.
  - intros resolveOp. apply ResolveImage_bindings.
  - intros. apply BindVertexBuffers_bindings.
  - intros.
    destruct (DrawIndexed_draws indexBuf indexCount indexBufferByteOffset
                vertexOffset instanceCount firstInstance c)
      as (c' & -> & Hbind & _).
    exact Hbind.
Qed.

End Footprint.

Lemma fresh_context_framebuffer_bindings_ok :
  framebuffer_bindings_ok fresh_context.
Proof.
  split; cbn; try (left; reflexivity); unfold is_uint32; lia.
Qed.

(** The amended C1 at a depth resolve in a fresh context. *)
Lemma ops_binding_footprint_witness :
  framebuffer_bindings_ok fresh_context
  /\ bindings (final (HgiGLOps.ResolveImage (backend := sample_backend)
                        depth_resolve fresh_context))
     = bindings fresh_context.
Proof.
  split; [exact fresh_context_framebuffer_bindings_ok|].
  apply (ops_binding_footprint (backend := sample_backend) fresh_context).
  exact fresh_context_framebuffer_bindings_ok.
Defined.

(** ** Which ops poll *)

(** C4, as stated, fails at [SetViewport]: a viewport of negative size
    makes [glViewport] raise [GL_INVALID_VALUE]; the op returns with the
    error still pending, nothing in the sink and no [glGetError] issued. *)
Lemma SetViewport_does_not_poll :
  let c' := final (HgiGLOps.SetViewport (mkGfVec4i 0 0 (-1) (-1))
                     fresh_context) in
  calls c' = [Call.glViewport 0 0 (-1) (-1)]
  /\ gl_errors c' = [GL_INVALID_VALUE]
  /\ diagnostics c' = []
  /\ ~ polls_when_it_calls (HgiGLOps.SetViewport (mkGfVec4i 0 0 (-1) (-1))).
Proof.
  repeat split. intros Hpolls.
  destruct (Hpolls fresh_context) as [[Hlast _] _]; [discriminate|].
  vm_compute in Hlast. discriminate.
Qed.

Section Polling.
Context {backend : Backend}.

(** C4, amended.  [CopyTextureGpuToCpu], [ResolveImage] when it finds both
    textures, and [BindVertexBuffers] and [DrawIndexed] when they run to
    their end, finish by polling: the last native call is the [glGetError]
    that finds the queue empty, and every error that was pending when the
    op started is in the sink.  [BindFramebufferOp] finishes the same way
    with respect to the errors pending once the device has handed it the
    framebuffer; it surfaces the errors pending when the op started whenever
    the device leaves them in the queue.  [PushDebugGroup], [PopDebugGroup],
    [CopyBufferCpuToGpu], [SetViewport] and [SetScissor] return without
    polling: they add their own calls to the log, one each for the debug
    groups when the extension is there, and nothing to the sink, and what
    is pending stays pending. *)
Theorem ops_that_poll (c : Ctx) :
  (forall copyOp, polls_when_it_calls (HgiGLOps.CopyTextureGpuToCpu copyOp))
  /\ (forall resolveOp glSrcTexture glDstTexture,
        HgiResolveImageOp.source resolveOp = Some glSrcTexture ->
        HgiResolveImageOp.destination resolveOp = Some glDstTexture ->
        surfaces c (final (HgiGLOps.ResolveImage resolveOp c)))
  /\ (forall firstBinding vertexBuffers byteOffsets c',
        HgiGLOps.BindVertexBuffers firstBinding vertexBuffers byteOffsets c
        = Normal tt c' ->
        surfaces c c')
  /\ (forall indexBuf indexCount indexBufferByteOffset vertexOffset
             instanceCount firstInstance,
        surfaces c
          (final (HgiGLOps.DrawIndexed (Some indexBuf) indexCount
                    indexBufferByteOffset vertexOffset instanceCount
                    firstInstance c)))
  /\ (forall desc,
        surfaces (acquired desc c).2
          (final (HgiGLOps.BindFramebufferOp desc c)))
  /\ (forall copyOp,
        let c' := final (HgiGLOps.CopyBufferCpuToGpu copyOp c) in
        ~ In Call.glGetError (drop (length (calls c)) (calls c'))
        /\ gl_errors c' = gl_errors c /\ diagnostics c' = diagnostics c)
  /\ (forall vp,
        let c' := final (HgiGLOps.SetViewport vp c) in
        calls c' = calls c ++ [Call.glViewport (v4_0 vp) (v4_1 vp) (v4_2 vp)
                                 (v4_3 vp)]
        /\ (exists raised, gl_errors c' = gl_errors c ++ raised)
        /\ diagnostics c' = diagnostics c)
  /\ (forall sc,
        let c' := final (HgiGLOps.SetScissor sc c) in
        calls c' = calls c ++ [Call.glScissor (v4_0 sc) (v4_1 sc) (v4_2 sc)
                                 (v4_3 sc)]
        /\ (exists raised, gl_errors c' = gl_errors c ++ raised)
        /\ diagnostics c' = diagnostics c)
  /\ (forall desc,
        (forall e, In e (gl_errors c) ->
                   In e (gl_errors (acquired desc c).2)) ->
        surfaces c (final (HgiGLOps.BindFramebufferOp desc c)))
  /\ (forall label,
        let c' := final (HgiGLOps.PushDebugGroup label c) in
        calls c' =
          calls c
          ++ (if GLEW_KHR_debug
              then [Call.glPushDebugGroup GL_DEBUG_SOURCE_THIRD_PARTY 0 (-1)
                      label]
              else [])
        /\ (exists raised, gl_errors c' = gl_errors c ++ raised)
        /\ diagnostics c' = diagnostics c)
  /\ (let c' := final (HgiGLOps.PopDebugGroup c) in
      calls c' =
        calls c ++ (if GLEW_KHR_debug then [Call.glPopDebugGroup] else [])
      /\ (exists raised, gl_errors c' = gl_errors c ++ raised)
      /\ diagnostics c' = diagnostics c).
Proof.
  split; [|split; [|split; [|split; [|split; [|split; [|split;
    [|split; [|split; [|split]]]]]]]]].
  - intros copyOp c0 Hcalls.
    destruct (CopyTextureGpuToCpu_outcome copyOp c0)
      as (c' & Hrun & _ & [Hsame | Hsurfaces]);
      rewrite Hrun in *; cbn [final] in *; [contradiction | exact Hsurfaces].
  - intros resolveOp glSrcTexture glDstTexture Hsrc Hdst.
    destruct (ResolveImage_resolves resolveOp _ _ c Hsrc Hdst)
      as (c' & -> & _ & _ & _ & _ & Hsurfaces).
    exact Hsurfaces.
  - intros firstBinding vertexBuffers byteOffsets c' Hrun.
    rewrite BindVertexBuffers_run in Hrun.
    destruct (BindVertexBuffers_from_extends firstBinding byteOffsets
                vertexBuffers 0
                (after_size_checks byteOffsets vertexBuffers c))
      as (added & [_ _ Herr _ _]).
    destruct (HgiGLOps.BindVertexBuffers_from _ _ _ _ _) as [[] c2|];
      [|discriminate].
    injection Hrun as <-. apply polled_surfaces. cbn [final] in Herr.
    rewrite Herr. unfold after_size_checks.
    destruct (HgiGLOps.same_size _ _); reflexivity.
  - intros.
    destruct (DrawIndexed_draws indexBuf indexCount indexBufferByteOffset
                vertexOffset instanceCount firstInstance c)
      as (c' & -> & _ & _ & Hsurfaces).
    exact Hsurfaces.
  - intros desc.
    destruct (BindFramebufferOp_run desc c) as (c' & -> & _ & Hsurfaces & _).
    exact Hsurfaces.
  - intros copyOp c'. subst c'.
    destruct (CopyBufferCpuToGpu_outcome copyOp c)
      as (c' & -> & _ & Herr & Hdiag & Hcalls).
    cbn [final]. split; [|split; assumption].
    destruct Hcalls as [-> | (buffer & offset & size & data & ->)].
    + rewrite drop_all. intros [].
    + rewrite drop_app_length. cbn. intros [|[|[]]]; discriminate.
  - intros vp c'. subst c'. destruct c as [b f t g k e s].
    unfold HgiGLOps.SetViewport, glViewport, act. cbn [final].
    autorewrite with gl. destruct (decide _); autorewrite with gl;
      cbn [calls gl_errors diagnostics]; repeat split; eauto.
    exists []. rewrite app_nil_r. reflexivity.
  - intros sc c'. subst c'. destruct c as [b f t g k e s].
    unfold HgiGLOps.SetScissor, glScissor, act. cbn [final].
    autorewrite with gl. destruct (decide _); autorewrite with gl;
      cbn [calls gl_errors diagnostics]; repeat split; eauto.
    exists []. rewrite app_nil_r. reflexivity.
  - intros desc Hkept.
    destruct (BindFramebufferOp_run desc c)
      as (c' & -> & _ & [Hend Hposted] & _).
    cbn [final]. split; [exact Hend|].
    intros e He. apply Hposted, Hkept, He.
  - intros label c'. subst c'. destruct c as [b f t g k e s].
    unfold HgiGLOps.PushDebugGroup.
    destruct GLEW_KHR_debug; cbn [final ret];
      [unfold glPushDebugGroup, act; autorewrite with gl; cbn [final]|];
      cbn [calls gl_errors diagnostics]; rewrite ?app_nil_r;
      repeat split; exists []; rewrite app_nil_r; reflexivity.
  - destruct c as [b f t g k e s].
    unfold HgiGLOps.PopDebugGroup.
    destruct GLEW_KHR_debug; cbn [final ret];
      [unfold glPopDebugGroup, act; autorewrite with gl; cbn [final]|];
      cbn [calls gl_errors diagnostics]; rewrite ?app_nil_r;
      repeat split; exists []; rewrite app_nil_r; reflexivity.
Qed.

End Polling.

(** The amended C4 at a depth resolve and at two vertex buffers, in a fresh
    context. *)
Lemma ops_that_poll_witness :
  surfaces fresh_context
    (final (HgiGLOps.ResolveImage (backend := sample_backend)
              depth_resolve fresh_context))
  /\ (forall c',
        HgiGLOps.BindVertexBuffers (backend := sample_backend) 3
          (Some <$> two_buffers) [0; 8] fresh_context = Normal tt c' ->
        surfaces fresh_context c').
Proof.
  pose proof (ops_that_poll (backend := sample_backend) fresh_context)
    as (_ & Hresolve & Hbind & _).
  split.
  - exact (Hresolve depth_resolve _ _ eq_refl eq_refl).
  - exact (Hbind 3 (Some <$> two_buffers) [0; 8]).
Defined.

(** ** Draw buffers before attachments *)

(** C5, as stated, fails: for the depth-only pass, with a device whose
    cache already holds the framebuffer, the whole invocation is four native
    calls, none of them a draw-buffer configuration. *)
Lemma BindFramebufferOp_sets_no_draw_buffer :
  let c' := final (HgiGLOps.BindFramebufferOp (backend := sample_backend)
                     depth_only_desc fresh_context) in
  calls c' =
    [Call.glBindFramebuffer GL_FRAMEBUFFER 7;
     Call.glClearBufferfv GL_DEPTH 0
       [0x3F800000; 0x3F800000; 0x3F800000; 0x3F800000];
     Call.glDisable GL_BLEND;
     Call.glGetError]
  /\ ~ exists framebuffer, null_draw_buffer_first framebuffer (calls c').
Proof.
  split; [vm_compute; reflexivity|].
  intros (framebuffer & before & after & n & Hlog & _).
  assert (In (Call.glNamedFramebufferDrawBuffers framebuffer n [GL_NONE])
            (calls (final (HgiGLOps.BindFramebufferOp
                             (backend := sample_backend) depth_only_desc
                             fresh_context)))) as Hin.
  { rewrite Hlog. apply in_elt. }
  vm_compute in Hin. intuition discriminate.
Qed.

Section DrawBuffers.
Context {backend : Backend}.

(** C5, amended.  [BindFramebufferOp] issues no draw-buffer configuration
    and no texture-attach call of its own: what it logs after the device
    returns the framebuffer is the bind, the clears, the blend setup and the
    poll.  The explicit [GL_NONE] configuration is [ResolveImage]'s: a depth
    resolve configures it on each of its two framebuffers before any
    texture-attach call on that framebuffer. *)
Theorem null_draw_buffer_set_by_ResolveImage
    (resolveOp : HgiResolveImageOp.t)
    (glSrcTexture glDstTexture : HgiGLTexture.t)
    (desc : HgiGraphicsEncoderDesc.t) (c : Ctx) :
  (HgiResolveImageOp.source resolveOp = Some glSrcTexture ->
   HgiResolveImageOp.destination resolveOp = Some glDstTexture ->
   has_bit (HgiResolveImageOp.usage resolveOp)
     HgiTextureUsageBitsDepthTarget = true ->
   exists c' added,
     HgiGLOps.ResolveImage resolveOp c = Normal tt c'
     /\ calls c' = calls c ++ added
     /\ null_draw_buffer_first (unused_framebuffer_name c) added
     /\ null_draw_buffer_first (second_unused_framebuffer_name c) added)
  /\ (exists c' own,
        HgiGLOps.BindFramebufferOp desc c = Normal tt c'
        /\ calls c' = calls (acquired desc c).2 ++ own
        /\ Forall (fun k => is_framebuffer_setup k = false) own).
Proof.
  split.
  - intros Hsrc Hdst Hdepth.
    destruct (ResolveImage_resolves resolveOp _ _ c Hsrc Hdst)
      as (c' & Hrun & Hcalls & _).
    rewrite Hdepth in Hcalls. eexists c', _.
    split; [exact Hrun|]. split; [exact Hcalls|].
    unfold resolve_calls. cbn [app]. split.
    + exists [Call.glCreateFramebuffers 1; Call.glCreateFramebuffers 1;
              Call.glIsTexture (HgiGLTexture.GetTextureId glSrcTexture);
              Call.glIsTexture (HgiGLTexture.GetTextureId glDstTexture)].
      eexists _, 1. split; [reflexivity|]. repeat constructor.
    + exists [Call.glCreateFramebuffers 1; Call.glCreateFramebuffers 1;
              Call.glIsTexture (HgiGLTexture.GetTextureId glSrcTexture);
              Call.glIsTexture (HgiGLTexture.GetTextureId glDstTexture);
              Call.glNamedFramebufferDrawBuffers (unused_framebuffer_name c)
                1 [GL_NONE]].
      eexists _, 1. split; [reflexivity|]. repeat constructor.
  - destruct (BindFramebufferOp_run desc c) as (c' & Hrun & Hcalls & _).
    eexists c', _. split; [exact Hrun|]. split; [exact Hcalls|].
    unfold BindFramebufferOp_calls. rewrite !Forall_app. repeat split.
    + repeat constructor.
    + eapply Forall_impl; [apply attachment_calls_plain|].
      intros k [Hsetup _]. exact Hsetup.
    + destruct (_ && _); repeat constructor.
    + destruct (any_blendEnabled _); repeat constructor.
    + apply Forall_replicate. reflexivity.
Qed.

Lemma attachment_calls_bind_nothing (rest : list HgiAttachmentDesc.t)
    (i : nat) :
  List.filter is_framebuffer_bind (attachment_calls i rest) = [].
Proof.
  revert i. induction rest as [|a rest IH]; intros i; [reflexivity|].
  cbn [attachment_calls]. rewrite !List.filter_app, IH.
  destruct (is_HgiAttachmentLoadOpClear _); reflexivity.
Qed.

(** C7.  The op binds the framebuffer the device hands it, as the first
    call of its own and the only framebuffer binding it makes, and leaves
    it bound for reading and drawing; its own calls are exactly those of
    [BindFramebufferOp_calls], followed only by the poll.  It leaves
    blending enabled exactly when some color attachment has [blendEnabled]
    set: it then issues [glEnable(GL_BLEND)] and no [glDisable(GL_BLEND)],
    and otherwise the reverse.  For each color attachment [i] whose load op
    is clear it issues [glClearBufferfv(GL_COLOR, i, clearValue)], after
    that binding: on draw buffer [i] of the framebuffer it acquired. *)
Theorem BindFramebufferOp_blend_and_clear (desc : HgiGraphicsEncoderDesc.t)
    (c : Ctx) :
  let descs := HgiGraphicsEncoderDesc.colorAttachmentDescs desc in
  let framebuffer := (acquired desc c).1 in
  exists c' own polls,
    HgiGLOps.BindFramebufferOp desc c = Normal tt c'
    /\ calls c' = calls (acquired desc c).2 ++ own ++ polls
    /\ (blend (bindings c') = true <->
        exists a, In a descs /\ HgiAttachmentDesc.blendEnabled a = true)
    /\ (In (Call.glEnable GL_BLEND) own <-> blend (bindings c') = true)
    /\ (In (Call.glDisable GL_BLEND) own <-> blend (bindings c') = false)
    /\ (forall (i : nat) a,
          descs !! i = Some a ->
          HgiAttachmentDesc.loadOp a = HgiAttachmentLoadOpClear ->
          In (Call.glClearBufferfv GL_COLOR (Z.of_nat i)
                (HgiAttachmentDesc.clearValue a)) own)
    /\ own = BindFramebufferOp_calls desc framebuffer
    /\ Forall (eq Call.glGetError) polls
    /\ head own = Some (Call.glBindFramebuffer GL_FRAMEBUFFER framebuffer)
    /\ List.filter is_framebuffer_bind own
       = [Call.glBindFramebuffer GL_FRAMEBUFFER framebuffer]
    /\ read_framebuffer (bindings c') = wrap_uint32 framebuffer
    /\ draw_framebuffer (bindings c') = wrap_uint32 framebuffer.
Proof.
  intros descs framebuffer.
  destruct (BindFramebufferOp_run desc c)
    as (c' & Hrun & Hcalls & _ & Hblend).
  destruct (BindFramebufferOp_bindings desc c) as (c2 & Hrun2 & _ & Hbind).
  rewrite Hrun in Hrun2. injection Hrun2 as <-.
  exists c', (BindFramebufferOp_calls desc (acquired desc c).1),
    (replicate (S (length (gl_errors (acquired desc c).2))) Call.glGetError).
  split; [exact Hrun|]. split; [exact Hcalls|]. fold descs in Hblend.
  rewrite Hblend.
  assert (Hswitch : forall k, is_blend_switch k = true ->
            (In k (BindFramebufferOp_calls desc (acquired desc c).1) <->
             k = if any_blendEnabled descs
                 then Call.glEnable GL_BLEND else Call.glDisable GL_BLEND)).
  { intros k Hk. unfold BindFramebufferOp_calls. fold descs.
    rewrite !in_app_iff. split.
    - intros [[<- | []] | [Hin | [Hin | [<- | []]]]];
        [discriminate | | | reflexivity].
      + pose proof (attachment_calls_plain descs 0) as Hplain.
        rewrite Forall_forall in Hplain.
        apply list_elem_of_In in Hin.
        destruct (Hplain k Hin) as [_ Hno]. congruence.
      + destruct (_ && _); [destruct Hin as [<- | []]; discriminate
                           | destruct Hin].
    - intros ->. right. right. right. left. reflexivity. }
  split; [|split; [|split; [|split; [|split; [|split; [|split; [|split;
    [|split]]]]]]]].
  - unfold any_blendEnabled. rewrite existsb_exists. reflexivity.
  - rewrite (Hswitch (Call.glEnable GL_BLEND) eq_refl).
    destruct (any_blendEnabled descs); split; congruence.
  - rewrite (Hswitch (Call.glDisable GL_BLEND) eq_refl).
    destruct (any_blendEnabled descs); split; congruence.
  - intros i a Hi Hclear. unfold BindFramebufferOp_calls.
    rewrite !in_app_iff. right. left.
    apply (attachment_calls_clear descs 0 i a Hi Hclear).
  - reflexivity.
  - apply Forall_replicate. reflexivity.
  - reflexivity.
  - unfold BindFramebufferOp_calls. fold descs.
    rewrite !List.filter_app, attachment_calls_bind_nothing.
    destruct (_ && _); destruct (any_blendEnabled descs); reflexivity.
  - rewrite Hbind. destruct (bindings (acquired desc c).2); reflexivity.
  - rewrite Hbind. destruct (bindings (acquired desc c).2); reflexivity.
Qed.

End DrawBuffers.

(** The amended C5 at a depth resolve in a fresh context, where the two
    framebuffers get the names 1 and 2. *)
Lemma null_draw_buffer_set_by_ResolveImage_witness :
  exists c' added,
    HgiGLOps.ResolveImage (backend := sample_backend) depth_resolve
      fresh_context = Normal tt c'
    /\ calls c' = calls fresh_context ++ added
    /\ null_draw_buffer_first 1 added
    /\ null_draw_buffer_first 2 added.
Proof.
  exact (proj1 (null_draw_buffer_set_by_ResolveImage
                  (backend := sample_backend) depth_resolve
                  (sample_texture 11 2 1) (sample_texture 12 2 1)
                  depth_only_desc fresh_context)
           eq_refl eq_refl eq_refl).
Defined.

(** C7 at that pass, with the sample device that hands out framebuffer 7:
    the op binds 7 first, blending ends enabled and attachment 0 is
    cleared. *)
Lemma BindFramebufferOp_blend_and_clear_witness :
  exists c' own polls,
    HgiGLOps.BindFramebufferOp (backend := sample_backend) two_color_desc
      fresh_context = Normal tt c'
    /\ calls c' = own ++ polls
    /\ blend (bindings c') = true
    /\ In (Call.glEnable GL_BLEND) own
    /\ In (Call.glClearBufferfv GL_COLOR 0 [0; 0; 0; 0x3F800000]) own
    /\ head own = Some (Call.glBindFramebuffer GL_FRAMEBUFFER 7)
    /\ draw_framebuffer (bindings c') = 7.
Proof.
  destruct (BindFramebufferOp_blend_and_clear (backend := sample_backend)
              two_color_desc fresh_context)
    as (c' & own & polls & Hrun & Hcalls & Hany & Henable & _ & Hclear
        & _ & _ & Hhead & _ & _ & Hdraw).
  assert (blend (bindings c') = true) as Hblend.
  { apply Hany. eexists. split; [right; left; reflexivity | reflexivity]. }
  exists c', own, polls. repeat split; try assumption.
  - apply Henable. exact Hblend.
  - exact (Hclear 0%nat _ eq_refl eq_refl).
Defined.

(** ** The color-correction pass *)

Lemma glViewport_run (x y width height : Z) b f t g k e s :
  glViewport x y width height (mkCtx b f t g k e s) =
    Normal tt
      (if decide (width < 0 \/ height < 0)
       then mkCtx b f t g (k ++ [Call.glViewport x y width height])
              (e ++ [GL_INVALID_VALUE]) s
       else mkCtx (set_viewport (mkRect x y width height) b) f t g
              (k ++ [Call.glViewport x y width height]) e s).
Proof.
  unfold glViewport, act. autorewrite with gl.
  destruct (decide _); reflexivity.
Qed.

Ltac bindings_simpl :=
  cbn [read_framebuffer draw_framebuffer viewport scissor blend depth_func
       depth_writemask stencil_writemask sample_alpha_to_coverage texture_3d
       active_texture texture_binding_2d texture_binding_3d array_buffer
       element_array_buffer vertex_buffer vertex_attrib_array
       current_program
       set_read_framebuffer set_draw_framebuffer set_viewport set_scissor
       set_blend set_depth_func set_depth_writemask set_stencil_writemask
       set_sample_alpha_to_coverage set_texture_3d set_active_texture
       set_texture_binding_2d set_texture_binding_3d set_array_buffer
       set_element_array_buffer set_vertex_buffer set_vertex_attrib_array
       set_current_program].

Ltac pass_step :=
  first
    [ rewrite glViewport_run
    | rewrite HGIGL_POST_PENDING_GL_ERRORS_polled
    | progress autorewrite with gl
    | progress gl_unfold
    | progress bindings_simpl ].

(** With a linked program, the pass puts back the depth write mask, the
    depth function, blending, alpha-to-coverage and the viewport.  The
    stencil write mask it reads as a boolean, so what it puts back is 0 or
    1. *)
Lemma ApplyColorCorrection_restores (useOCIO : bool)
    (self : HdxColorCorrectionTask.t) (programId : Z) (c : Ctx) :
  HdxColorCorrectionTask._shaderProgram self = Some programId ->
  is_uint32 (depth_func (bindings c)) ->
  0 <= rect_w (viewport (bindings c)) ->
  0 <= rect_h (viewport (bindings c)) ->
  exists c',
    HdxColorCorrectionTask._ApplyColorCorrection useOCIO self c = Normal tt c'
    /\ depth_writemask (bindings c') = depth_writemask (bindings c)
    /\ depth_func (bindings c') = depth_func (bindings c)
    /\ blend (bindings c') = blend (bindings c)
    /\ sample_alpha_to_coverage (bindings c')
       = sample_alpha_to_coverage (bindings c)
    /\ viewport (bindings c') = viewport (bindings c)
    /\ stencil_writemask (bindings c')
       = stencil_mask_as_boolean (stencil_writemask (bindings c)).
Proof.
  intros Hprogram Hfunc Hw Hh. destruct c as [b f t g k e s].
  cbn [bindings] in *.
  unfold HdxColorCorrectionTask._ApplyColorCorrection,
    GLF_POST_PENDING_GL_ERRORS, bind.
  rewrite Hprogram.
  destruct useOCIO; repeat pass_step;
    destruct (decide (_ \/ _)); repeat pass_step;
    destruct (sample_alpha_to_coverage b) eqn:Ha2c; repeat pass_step;
    destruct (blend b) eqn:Hblend; repeat pass_step;
    (destruct (decide (_ \/ _)); [lia|]); repeat pass_step;
    (eexists; split; [reflexivity|]);
    cbn [polled bindings]; bindings_simpl;
    rewrite ?wrap_uint32_int32 by assumption;
    destruct (viewport b); repeat split;
    unfold stencil_mask_as_boolean; destruct (_ =? 0); reflexivity.
Qed.

(** C8.  In a fresh context the stencil write mask has all bits set.  The
    pass reads it with [glGetBooleanv] into a [GLboolean], so after
    [glStencilMask(restoreStencilWriteMask)] the mask is 1, not the value it
    held; the other five pieces of state it overrides are back at their
    prior values. *)
Theorem ApplyColorCorrection_clobbers_stencil_mask :
  let c' := final (HdxColorCorrectionTask._ApplyColorCorrection false
                     sample_task fresh_context) in
  stencil_writemask (bindings fresh_context) = 0xFFFFFFFF
  /\ stencil_writemask (bindings c') = 1
  /\ depth_writemask (bindings c') = depth_writemask (bindings fresh_context)
  /\ depth_func (bindings c') = depth_func (bindings fresh_context)
  /\ blend (bindings c') = blend (bindings fresh_context)
  /\ sample_alpha_to_coverage (bindings c')
     = sample_alpha_to_coverage (bindings fresh_context)
  /\ viewport (bindings c') = viewport (bindings fresh_context).
Proof. vm_compute. repeat split; reflexivity. Qed.

(** * Further properties of the ops *)

(** ** Debug groups *)

Section DebugGroups.
Context {backend : Backend}.

(** X1.  A [PushDebugGroup] followed by a [PopDebugGroup] leaves the stack
    of open debug groups, the bindings and the sink as they were.  With the
    extension present the log gains the push and the pop, in that order;
    without it, nothing. *)
Theorem PushDebugGroup_then_PopDebugGroup (label : string) (c : Ctx) :
  exists c',
    (run HgiGLOps.PushDebugGroup label; HgiGLOps.PopDebugGroup) c
    = Normal tt c'
    /\ debug_groups c' = debug_groups c
    /\ bindings c' = bindings c
    /\ diagnostics c' = diagnostics c
    /\ calls c' =
         calls c
         ++ (if GLEW_KHR_debug
             then [Call.glPushDebugGroup GL_DEBUG_SOURCE_THIRD_PARTY 0 (-1)
                     label;
                   Call.glPopDebugGroup]
             else []).
Proof.
  destruct c as [b f t g k e s].
  unfold HgiGLOps.PushDebugGroup, HgiGLOps.PopDebugGroup, bind.
  destruct GLEW_KHR_debug.
  - unfold glPushDebugGroup, glPopDebugGroup, act. autorewrite with gl.
    eexists. split; [reflexivity|]. cbn. rewrite <- app_assoc.
    repeat split.
  - eexists. split; [reflexivity|]. cbn. rewrite app_nil_r. repeat split.
Qed.

End DebugGroups.

(** ** [CopyTextureGpuToCpu]: the readback *)

Section CopyTextureMore.
Context {backend : Backend}.

(** X2.  A null texture handle, or a texture whose id is 0, makes the op
    post "Invalid texture handle" and return without a native call, whatever
    the rest of the descriptor says. *)
Theorem CopyTextureGpuToCpu_invalid_handle (copyOp : HgiTextureGpuToCpuOp.t)
    (c : Ctx) :
  HgiTextureGpuToCpuOp.gpuSourceTexture copyOp = None
  \/ (exists srcTexture,
        HgiTextureGpuToCpuOp.gpuSourceTexture copyOp = Some srcTexture
        /\ HgiGLTexture.GetTextureId srcTexture = 0) ->
  exists c',
    HgiGLOps.CopyTextureGpuToCpu copyOp c = Normal tt c'
    /\ calls c' = calls c
    /\ diagnostics c' = diagnostics c ++ [invalid_texture_handle]
    /\ bindings c' = bindings c.
Proof.
  intros Hinvalid.
  assert (HgiGLOps.valid_texture
            (HgiTextureGpuToCpuOp.gpuSourceTexture copyOp) = false) as Hv.
  { destruct Hinvalid as [-> | (srcTexture & -> & Hid)]; [reflexivity|].
    cbn. rewrite Hid. reflexivity. }
  unfold HgiGLOps.CopyTextureGpuToCpu, bind. rewrite Hv.
  eexists. split; [reflexivity|]. repeat split.
Qed.

Lemma wrap_int32_id (x : Z) : - 2 ^ 31 <= x < 2 ^ 31 -> wrap_int32 x = x.
Proof.
  intros Hx. unfold wrap_int32. rewrite Z.mod_small by lia. lia.
Qed.

Ltac copy_texture_start :=
  match goal with
  | Hok : copy_proceeds ?copyOp ?srcTexture |- _ =>
      destruct Hok as [Htex Hid Hsize Hlevel Hlayers];
      unfold HgiGLOps.CopyTextureGpuToCpu, bind; rewrite Htex;
      cbn [HgiGLOps.valid_texture];
      rewrite (wrap_int32_id (HgiTextureGpuToCpuOp.mipLevel copyOp))
        by lia;
      rewrite (wrap_int32_id
                 (HgiTextureGpuToCpuOp.destinationBufferByteSize copyOp))
        by lia;
      assert ((HgiTextureGpuToCpuOp.destinationBufferByteSize copyOp =? 0)
              = false) as Hnonzero by (apply Z.eqb_neq; lia);
      apply Z.eqb_neq in Hid; apply Z.leb_le in Hlayers;
      rewrite Hid, Hnonzero; rewrite !TF_VERIFY_sink; cbn [negb deref ret];
      rewrite Hlayers; rewrite !TF_VERIFY_sink; cbn [negb]
  end.

(** X3.  For a color-target texture, with a mip level and a buffer size
    below [2^31], the op issues the full barrier, then one readback with
    the format and pixel type of the conversion table, then the poll; it
    posts nothing of its own.  The extent read is the texture's, whatever
    layer range the copy names. *)
Theorem CopyTextureGpuToCpu_color (copyOp : HgiTextureGpuToCpuOp.t)
    (srcTexture : HgiGLTexture.t) (c : Ctx) :
  copy_proceeds copyOp srcTexture ->
  has_bit (HgiTextureDesc.usage (HgiGLTexture.GetDescriptor srcTexture))
    HgiTextureUsageBitsColorTarget = true ->
  exists c',
    HgiGLOps.CopyTextureGpuToCpu copyOp c = Normal tt c'
    /\ reads_back copyOp srcTexture
         (GetFormat (HgiTextureDesc.format
                       (HgiGLTexture.GetDescriptor srcTexture))).1.1
         (GetFormat (HgiTextureDesc.format
                       (HgiGLTexture.GetDescriptor srcTexture))).1.2
         [] c c'.
Proof.
  intros Hok Hcolor. destruct c as [b f t g k e s]. copy_texture_start.
  rewrite Hcolor.
  destruct (GetFormat _) as [[glFormat glPixelType] glInternalFormat].
  gl_run. eexists. split; [reflexivity|].
  unfold reads_back, readback. cbn [polled calls diagnostics bindings fst snd].
  rewrite <- !app_assoc. repeat split.
Qed.

(** X4.  For a texture that is a depth target and not a color target,
    with a mip level and a buffer size below [2^31], the readback uses
    [GL_DEPTH_COMPONENT] and [GL_FLOAT]; a format other than
    [HgiFormatFloat32] posts an assertion and the readback is issued all the
    same. *)
Theorem CopyTextureGpuToCpu_depth (copyOp : HgiTextureGpuToCpuOp.t)
    (srcTexture : HgiGLTexture.t) (c : Ctx) :
  copy_proceeds copyOp srcTexture ->
  has_bit (HgiTextureDesc.usage (HgiGLTexture.GetDescriptor srcTexture))
    HgiTextureUsageBitsColorTarget = false ->
  has_bit (HgiTextureDesc.usage (HgiGLTexture.GetDescriptor srcTexture))
    HgiTextureUsageBitsDepthTarget = true ->
  exists c',
    HgiGLOps.CopyTextureGpuToCpu copyOp c = Normal tt c'
    /\ reads_back copyOp srcTexture GL_DEPTH_COMPONENT GL_FLOAT
         (if is_HgiFormatFloat32
               (HgiTextureDesc.format (HgiGLTexture.GetDescriptor srcTexture))
          then []
          else [VerifyFailed "texDesc.format == HgiFormatFloat32"])
         c c'.
Proof.
  intros Hok Hcolor Hdepth. destruct c as [b f t g k e s].
  copy_texture_start. rewrite Hcolor, Hdepth.
  gl_run. eexists. split; [reflexivity|].
  unfold reads_back, readback. cbn [polled calls diagnostics bindings].
  rewrite <- !app_assoc.
  destruct (is_HgiFormatFloat32 _); repeat split.
  rewrite <- app_assoc. reflexivity.
Qed.

(** X5.  For a texture that is neither a color nor a depth target the op
    posts a coding error and still issues the barrier and the readback,
    with format 0 and pixel type 0, then polls.  The coding error is the
    first thing it posts; whatever follows it in the sink is a GL error the
    poll found. *)
Theorem CopyTextureGpuToCpu_unknown_usage (copyOp : HgiTextureGpuToCpuOp.t)
    (srcTexture : HgiGLTexture.t) (c : Ctx) :
  copy_proceeds copyOp srcTexture ->
  has_bit (HgiTextureDesc.usage (HgiGLTexture.GetDescriptor srcTexture))
    HgiTextureUsageBitsColorTarget = false ->
  has_bit (HgiTextureDesc.usage (HgiGLTexture.GetDescriptor srcTexture))
    HgiTextureUsageBitsDepthTarget = false ->
  exists c' polls found,
    HgiGLOps.CopyTextureGpuToCpu copyOp c = Normal tt c'
    /\ calls c' =
         calls c
         ++ [Call.glMemoryBarrier GL_ALL_BARRIER_BITS;
             readback copyOp srcTexture 0 0]
         ++ polls
    /\ polls <> [] /\ Forall (eq Call.glGetError) polls
    /\ diagnostics c' =
         diagnostics c
         ++ CodingError "Unknown HgTextureUsage bit"
            :: (PendingGLError <$> found)
    /\ bindings c' = bindings c.
Proof.
  intros Hok Hcolor Hdepth. destruct c as [b f t g k e s].
  copy_texture_start. rewrite Hcolor, Hdepth.
  gl_run. eexists. exists (replicate (S (length e)) Call.glGetError), e.
  split; [reflexivity|].
  unfold readback. cbn [polled calls diagnostics bindings gl_errors].
  rewrite <- !app_assoc. repeat split.
  - discriminate.
  - apply Forall_replicate. reflexivity.
Qed.

End CopyTextureMore.

(** X2 at a texture whose id is 0. *)
Lemma CopyTextureGpuToCpu_invalid_handle_witness :
  exists c',
    HgiGLOps.CopyTextureGpuToCpu (backend := sample_backend)
      (sample_copy (Some (sample_texture 0 1 1))) fresh_context
    = Normal tt c'
    /\ calls c' = calls fresh_context
    /\ diagnostics c' = diagnostics fresh_context ++ [invalid_texture_handle]
    /\ bindings c' = bindings fresh_context.
Proof.
  apply (CopyTextureGpuToCpu_invalid_handle (backend := sample_backend)).
  right. exists (sample_texture 0 1 1). split; reflexivity.
Defined.

(** X3 at a color texture with one layer. *)
Lemma CopyTextureGpuToCpu_color_witness :
  exists c',
    HgiGLOps.CopyTextureGpuToCpu (backend := sample_backend)
      (sample_copy (Some (sample_texture 11 1 1))) fresh_context
    = Normal tt c'
    /\ reads_back (sample_copy (Some (sample_texture 11 1 1)))
         (sample_texture 11 1 1) 0x1908 0x1406 [] fresh_context c'.
Proof.
  apply (CopyTextureGpuToCpu_color (backend := sample_backend)
           (sample_copy (Some (sample_texture 11 1 1)))
           (sample_texture 11 1 1) fresh_context).
  - split; [reflexivity|discriminate|cbn; lia|cbn; lia|].
    vm_compute. discriminate.
  - reflexivity.
Defined.

(** X4 at a depth texture of format [HgiFormatFloat32]. *)
Lemma CopyTextureGpuToCpu_depth_witness :
  exists c',
    HgiGLOps.CopyTextureGpuToCpu (backend := sample_backend)
      (sample_copy (Some (sample_texture 12 2 1))) fresh_context
    = Normal tt c'
    /\ reads_back (sample_copy (Some (sample_texture 12 2 1)))
         (sample_texture 12 2 1) GL_DEPTH_COMPONENT GL_FLOAT [] fresh_context
         c'.
Proof.
  apply (CopyTextureGpuToCpu_depth (backend := sample_backend)
           (sample_copy (Some (sample_texture 12 2 1)))
           (sample_texture 12 2 1) fresh_context).
  - split; [reflexivity|discriminate|cbn; lia|cbn; lia|].
    vm_compute. discriminate.
  - reflexivity.
  - reflexivity.
Defined.

(** X5 at a texture whose usage is 8, neither of the two target bits. *)
Lemma CopyTextureGpuToCpu_unknown_usage_witness :
  exists c' polls found,
    HgiGLOps.CopyTextureGpuToCpu (backend := sample_backend)
      (sample_copy (Some (sample_texture 13 8 1))) fresh_context
    = Normal tt c'
    /\ calls c' =
         [Call.glMemoryBarrier GL_ALL_BARRIER_BITS;
          readback (sample_copy (Some (sample_texture 13 8 1)))
            (sample_texture 13 8 1) 0 0]
         ++ polls
    /\ polls <> [] /\ Forall (eq Call.glGetError) polls
    /\ diagnostics c' =
         CodingError "Unknown HgTextureUsage bit" :: (PendingGLError <$> found)
    /\ bindings c' = bindings fresh_context.
Proof.
  apply (CopyTextureGpuToCpu_unknown_usage (backend := sample_backend)
           (sample_copy (Some (sample_texture 13 8 1)))
           (sample_texture 13 8 1) fresh_context).
  - split; [reflexivity|discriminate|cbn; lia|cbn; lia|].
    vm_compute. discriminate.
  - reflexivity.
  - reflexivity.
Defined.

(** ** [CopyBufferCpuToGpu]: the write *)


(** ** [DrawIndexed]: the assertions *)

Section DrawIndexedMore.
Context {backend : Backend}.

(** X7.  The two assertions of [DrawIndexed] are not fatal: with an
    instance count of 0, or an index buffer that lacks the 32-bit index
    usage bit, the op posts the failed assertion and still binds the buffer
    and issues the draw.  With the index count, the instance count and the
    vertex offset below [2^31] the draw receives them as they were given.
    The sink gains the failed assertions, in source order, then the pending
    GL errors. *)
Theorem DrawIndexed_assertions_are_not_fatal (indexBuf : HgiGLBuffer.t)
    (indexCount indexBufferByteOffset vertexOffset : Z)
    (instanceCount firstInstance : Z) (c : Ctx) :
  0 <= indexCount < 2 ^ 31 ->
  0 <= instanceCount < 2 ^ 31 ->
  0 <= vertexOffset < 2 ^ 31 ->
  exists c',
    HgiGLOps.DrawIndexed (Some indexBuf) indexCount indexBufferByteOffset
      vertexOffset instanceCount firstInstance c = Normal tt c'
    /\ diagnostics c' =
         diagnostics c
         ++ (if 0 <? instanceCount then []
             else [VerifyFailed "instanceCount>0"])
         ++ (if has_bit (HgiBufferDesc.usage
                           (HgiGLBuffer.GetDescriptor indexBuf))
                  HgiBufferUsageIndex32
             then []
             else [VerifyFailed "indexDesc.usage & HgiBufferUsageIndex32"])
         ++ (PendingGLError <$> gl_errors c)
    /\ calls c' =
         calls c
         ++ [Call.glBindBuffer GL_ELEMENT_ARRAY_BUFFER
               (HgiGLBuffer.GetBufferId indexBuf);
             Call.glDrawElementsInstancedBaseVertex GL_TRIANGLES indexCount
               GL_UNSIGNED_INT indexBufferByteOffset instanceCount
               vertexOffset]
         ++ replicate (S (length (gl_errors c))) Call.glGetError.
Proof.
  intros Hcount Hinstances Hvertex. destruct c as [b f t g k e s].
  unfold HgiGLOps.DrawIndexed, bind.
  rewrite !wrap_int32_id by lia. gl_run.
  eexists. split; [reflexivity|].
  cbn [polled diagnostics calls gl_errors]. rewrite <- !app_assoc.
  split; [|reflexivity].
  destruct (0 <? instanceCount); destruct (has_bit _ _);
    rewrite <- ?app_assoc; reflexivity.
Qed.

(** X8.  With a null index buffer the op dereferences a null pointer: by
    then it has posted the instance-count assertion if that failed, and it
    has issued no native call. *)
Theorem DrawIndexed_null_index_buffer
    (indexCount indexBufferByteOffset vertexOffset : Z)
    (instanceCount firstInstance : Z) (c : Ctx) :
  exists c',
    HgiGLOps.DrawIndexed None indexCount indexBufferByteOffset
      vertexOffset instanceCount firstInstance c
    = Undefined NullDereference c'
    /\ calls c' = calls c
    /\ bindings c' = bindings c
    /\ diagnostics c' =
         diagnostics c
         ++ (if 0 <? instanceCount then []
             else [VerifyFailed "instanceCount>0"]).
Proof.
  destruct c as [b f t g k e s].
  unfold HgiGLOps.DrawIndexed, bind. rewrite TF_VERIFY_sink.
  cbn [deref undefined]. eexists. split; [reflexivity|].
  cbn. destruct (0 <? instanceCount); rewrite ?app_nil_r; repeat split.
Qed.

End DrawIndexedMore.

(** X7 at a draw of six indices with an instance count of 0, out of a
    buffer that has the vertex usage bit and not the index one: both
    assertions fail and the draw is issued. *)
Lemma DrawIndexed_assertions_are_not_fatal_witness :
  exists c',
    HgiGLOps.DrawIndexed (backend := sample_backend)
      (Some (sample_buffer 21 4 12)) 6 0 0 0 0 fresh_context = Normal tt c'
    /\ diagnostics c' =
         [VerifyFailed "instanceCount>0";
          VerifyFailed "indexDesc.usage & HgiBufferUsageIndex32"]
    /\ calls c' =
         [Call.glBindBuffer GL_ELEMENT_ARRAY_BUFFER 21;
          Call.glDrawElementsInstancedBaseVertex GL_TRIANGLES 6
            GL_UNSIGNED_INT 0 0 0;
          Call.glGetError].
Proof.
  apply (DrawIndexed_assertions_are_not_fatal (backend := sample_backend)
           (sample_buffer 21 4 12) 6 0 0 0 0 fresh_context); lia.
Defined.

(** ** [SetViewport] and [SetScissor] *)

(** X9.  [SetViewport] and [SetScissor] issue one native call each, with
    the four components in order, and nothing else: no poll, no diagnostic.
    A rectangle of negative width or height leaves [GL_INVALID_VALUE]
    pending and the viewport, or the scissor box, as it was; any other
    rectangle becomes the viewport, or the scissor box.  Neither op touches
    the other's rectangle. *)
Theorem SetViewport_SetScissor_one_call (r : GfVec4i) (c : Ctx) :
  (exists c',
     HgiGLOps.SetViewport r c = Normal tt c'
     /\ calls c' =
          calls c ++ [Call.glViewport (v4_0 r) (v4_1 r) (v4_2 r) (v4_3 r)]
     /\ gl_errors c' = gl_errors c ++ size_error (v4_2 r) (v4_3 r)
     /\ diagnostics c' = diagnostics c
     /\ viewport (bindings c') =
          (if decide (v4_2 r < 0 \/ v4_3 r < 0) then viewport (bindings c)
           else mkRect (v4_0 r) (v4_1 r) (v4_2 r) (v4_3 r))
     /\ scissor (bindings c') = scissor (bindings c))
  /\ (exists c',
        HgiGLOps.SetScissor r c = Normal tt c'
        /\ calls c' =
             calls c ++ [Call.glScissor (v4_0 r) (v4_1 r) (v4_2 r) (v4_3 r)]
        /\ gl_errors c' = gl_errors c ++ size_error (v4_2 r) (v4_3 r)
        /\ diagnostics c' = diagnostics c
        /\ scissor (bindings c') =
             (if decide (v4_2 r < 0 \/ v4_3 r < 0) then scissor (bindings c)
              else mkRect (v4_0 r) (v4_1 r) (v4_2 r) (v4_3 r))
        /\ viewport (bindings c') = viewport (bindings c)).
Proof.
  destruct c as [b f t g k e s]. unfold size_error. split.
  - unfold HgiGLOps.SetViewport. rewrite glViewport_run.
    eexists. split; [reflexivity|].
    destruct (decide _); cbn; rewrite ?app_nil_r; repeat split;
      destruct b; reflexivity.
  - unfold HgiGLOps.SetScissor, glScissor, act. autorewrite with gl.
    eexists. split; [reflexivity|].
    destruct (decide _); cbn; rewrite ?app_nil_r; repeat split;
      destruct b; reflexivity.
Qed.

(** ** [ResolveImage]: the assertions *)

Section ResolveImageMore.
Context {backend : Backend}.

Ltac resolve_more_step :=
  first
    [ rewrite TF_VERIFY_sink
    | rewrite on_read_framebuffer by assumption
    | rewrite on_write_framebuffer
    | rewrite status_read_framebuffer by assumption
    | rewrite status_write_framebuffer
    | rewrite glDeleteFramebuffers_run by assumption
    | rewrite HGIGL_POST_PENDING_GL_ERRORS_polled
    | progress autorewrite with gl
    | progress gl_unfold ].

Lemma ResolveImage_diagnostics (resolveOp : HgiResolveImageOp.t)
    (glSrcTexture glDstTexture : HgiGLTexture.t) (c : Ctx) :
  HgiResolveImageOp.source resolveOp = Some glSrcTexture ->
  HgiResolveImageOp.destination resolveOp = Some glDstTexture ->
  diagnostics (final (HgiGLOps.ResolveImage resolveOp c)) =
    diagnostics c
    ++ resolve_diagnostics
         (bool_decide (HgiGLTexture.GetTextureId glSrcTexture ∈ textures c))
         (bool_decide (HgiGLTexture.GetTextureId glDstTexture ∈ textures c))
         (HgiGLTexture.GetTextureId glSrcTexture)
         (HgiGLTexture.GetTextureId glDstTexture)
    ++ (PendingGLError <$> gl_errors c).
Proof.
  intros Hsrc Hdst. destruct c as [b f t g k e s].
  unfold HgiGLOps.ResolveImage. rewrite Hsrc, Hdst. unfold bind. gl_step.
  unfold unused_framebuffer_name. gl_step.
  destruct (unused_names f) as ([Hr0 Hr] & [Hw0 Hw] & Hrw).
  set (r := fresh ({[0]} ∪ dom f)) in *.
  set (w := fresh ({[0]} ∪ dom (<[r := new_framebuffer]> f))) in *.
  unfold resolve_diagnostics.
  destruct (has_bit _ _); repeat resolve_more_step;
    cbn [polled diagnostics final textures gl_errors];
    unfold framebuffer_status, attach, new_framebuffer;
    cbn [fb_draw_buffers fb_color_attachment0 fb_depth_attachment
         Z.eqb andb];
    destruct (bool_decide (HgiGLTexture.GetTextureId glSrcTexture ∈ t));
    destruct (bool_decide (HgiGLTexture.GetTextureId glDstTexture ∈ t));
    destruct (HgiGLTexture.GetTextureId glSrcTexture =? 0);
    destruct (HgiGLTexture.GetTextureId glDstTexture =? 0);
    cbn; rewrite <- ?app_assoc; reflexivity.
Qed.

(** X10.  The assertions of [ResolveImage] are not fatal.  With both
    handles set the op issues its whole call sequence, blit included,
    followed only by the poll, whether or not the driver knows the two
    names as textures.  The two restoring binds name, as [GLuint], the
    framebuffers that were bound when the op started; the op leaves the
    bindings as it found them and destroys the two framebuffers it
    created.  A name the driver does not know as a texture leaves its
    assertion in the sink. *)
Theorem ResolveImage_assertions_are_not_fatal
    (resolveOp : HgiResolveImageOp.t)
    (glSrcTexture glDstTexture : HgiGLTexture.t) (c : Ctx) :
  HgiResolveImageOp.source resolveOp = Some glSrcTexture ->
  HgiResolveImageOp.destination resolveOp = Some glDstTexture ->
  framebuffer_bindings_ok c ->
  exists c' polls posted restoreRead restoreWrite,
    HgiGLOps.ResolveImage resolveOp c = Normal tt c'
    /\ wrap_uint32 restoreRead = read_framebuffer (bindings c)
    /\ wrap_uint32 restoreWrite = draw_framebuffer (bindings c)
    /\ calls c' =
         calls c
         ++ resolve_calls
              (has_bit (HgiResolveImageOp.usage resolveOp)
                 HgiTextureUsageBitsDepthTarget)
              (HgiGLTexture.GetTextureId glSrcTexture)
              (HgiGLTexture.GetTextureId glDstTexture)
              (HgiResolveImageOp.sourceRegion resolveOp)
              (HgiResolveImageOp.destinationRegion resolveOp)
              (unused_framebuffer_name c) (second_unused_framebuffer_name c)
              restoreRead restoreWrite
         ++ polls
    /\ polls <> [] /\ Forall (eq Call.glGetError) polls
    /\ diagnostics c' = diagnostics c ++ posted
    /\ (HgiGLTexture.GetTextureId glSrcTexture ∉ textures c ->
        In (VerifyFailed "Source is not a texture") posted)
    /\ (HgiGLTexture.GetTextureId glDstTexture ∉ textures c ->
        In (VerifyFailed "Destination is not a texture") posted)
    /\ bindings c' = bindings c
    /\ framebuffers c' = framebuffers c.
Proof.
  intros Hsrc Hdst Hok.
  pose proof (ResolveImage_diagnostics resolveOp _ _ c Hsrc Hdst) as Hdiag.
  destruct (ResolveImage_resolves resolveOp _ _ c Hsrc Hdst)
    as (c' & Hrun & Hcalls & _ & Hfb & Hbind & _).
  rewrite Hrun in Hdiag. cbn [final] in Hdiag.
  exists c', (replicate (S (length (gl_errors c))) Call.glGetError).
  eexists. exists (wrap_int32 (read_framebuffer (bindings c))),
    (wrap_int32 (draw_framebuffer (bindings c))).
  split; [exact Hrun|].
  split; [apply wrap_uint32_int32, Hok|].
  split; [apply wrap_uint32_int32, Hok|]. split; [exact Hcalls|].
  split; [discriminate|]. split; [apply Forall_replicate; reflexivity|].
  split; [exact Hdiag|].
  rewrite Hbind, resolved_bindings_restored by exact Hok.
  unfold resolve_diagnostics. repeat split; try assumption.
  - intros Hnot. rewrite bool_decide_eq_false_2 by exact Hnot.
    rewrite !in_app_iff. left. left. left. reflexivity.
  - intros Hnot.
    rewrite (bool_decide_eq_false_2
               (HgiGLTexture.GetTextureId glDstTexture ∈ textures c))
      by exact Hnot.
    rewrite !in_app_iff. left. right. left. left. reflexivity.
Qed.

End ResolveImageMore.

(** X10 at a depth resolve between the names 11 and 12, in a fresh
    context, where the driver knows neither as a texture: both assertions
    are posted, the blit is issued, and the bindings and the framebuffer
    table come back as they were. *)
Lemma ResolveImage_assertions_are_not_fatal_witness :
  exists c',
    HgiGLOps.ResolveImage (backend := sample_backend) depth_resolve
      fresh_context = Normal tt c'
    /\ In (Call.glBlitFramebuffer 0 0 4 4 0 0 4 4 GL_DEPTH_BUFFER_BIT
             GL_NEAREST) (calls c')
    /\ In (VerifyFailed "Source is not a texture") (diagnostics c')
    /\ In (VerifyFailed "Destination is not a texture") (diagnostics c')
    /\ bindings c' = bindings fresh_context
    /\ framebuffers c' = framebuffers fresh_context.
Proof.
  destruct (ResolveImage_assertions_are_not_fatal
              (backend := sample_backend) depth_resolve
              (sample_texture 11 2 1) (sample_texture 12 2 1)
              fresh_context eq_refl eq_refl)
    as (c' & polls & posted & restoreRead & restoreWrite & Hrun & _ & _
        & Hcalls & _ & _ & Hdiag & Hsource & Hdest & Hbind & Hfb).
  - exact fresh_context_framebuffer_bindings_ok.
  - exists c'. split; [exact Hrun|]. rewrite Hcalls, Hdiag.
    split; [|split; [|split; [|split]]]; try assumption.
    + rewrite !in_app_iff. right. left. unfold resolve_calls.
      rewrite !in_app_iff. right. right. vm_compute. tauto.
    + apply in_or_app. right. apply Hsource. cbn. set_solver.
    + apply in_or_app. right. apply Hdest. cbn. set_solver.
Defined.

(** ** [BindVertexBuffers]: the binding table *)

Section BindVertexBuffersMore.
Context {backend : Backend}.




End BindVertexBuffersMore.



(** ** [BindFramebufferOp]: what it binds, the depth clear, the blend state *)

Section BindFramebufferOpMore.
Context {backend : Backend}.

(** X13.  The op binds the framebuffer the device hands it to both the
    read and the draw target and does not put the previous bindings back.
    Of the bindings the device left, it changes these two and the blend
    switch, nothing else. *)
Theorem BindFramebufferOp_binds_acquired (desc : HgiGraphicsEncoderDesc.t)
    (c : Ctx) :
  exists c',
    HgiGLOps.BindFramebufferOp desc c = Normal tt c'
    /\ read_framebuffer (bindings c') = wrap_uint32 (acquired desc c).1
    /\ draw_framebuffer (bindings c') = wrap_uint32 (acquired desc c).1
    /\ bindings c' =
         set_blend
           (any_blendEnabled (HgiGraphicsEncoderDesc.colorAttachmentDescs desc))
           (set_draw_framebuffer (wrap_uint32 (acquired desc c).1)
              (set_read_framebuffer (wrap_uint32 (acquired desc c).1)
                 (bindings (acquired desc c).2))).
Proof.
  destruct (BindFramebufferOp_bindings desc c) as (c' & Hrun & _ & Hbind).
  exists c'. split; [exact Hrun|]. rewrite Hbind.
  destruct (bindings (acquired desc c).2); repeat split.
Qed.

Lemma attachment_calls_depth_clear (rest : list HgiAttachmentDesc.t)
    (i : nat) :
  List.filter is_depth_clear (attachment_calls i rest) = [].
Proof.
  revert i. induction rest as [|a rest IH]; intros i; [reflexivity|].
  cbn [attachment_calls]. rewrite !List.filter_app, IH.
  destruct (is_HgiAttachmentLoadOpClear _); reflexivity.
Qed.

(** X14.  The op clears the depth buffer exactly when the description has
    a depth texture and the load op of the depth attachment is clear: it
    then issues one [glClearBufferfv(GL_DEPTH, 0, clearValue)], and
    otherwise none.  The load op alone, without a depth texture, clears
    nothing. *)
Theorem BindFramebufferOp_depth_clear (desc : HgiGraphicsEncoderDesc.t)
    (c : Ctx) :
  let depthAttachment := HgiGraphicsEncoderDesc.depthAttachmentDesc desc in
  exists c' own polls,
    HgiGLOps.BindFramebufferOp desc c = Normal tt c'
    /\ calls c' = calls (acquired desc c).2 ++ own ++ polls
    /\ Forall (eq Call.glGetError) polls
    /\ List.filter is_depth_clear own =
         if negb (is_null (HgiGraphicsEncoderDesc.depthTexture desc))
            && is_HgiAttachmentLoadOpClear
                 (HgiAttachmentDesc.loadOp depthAttachment)
         then [Call.glClearBufferfv GL_DEPTH 0
                 (HgiAttachmentDesc.clearValue depthAttachment)]
         else [].
Proof.
  intros depthAttachment.
  destruct (BindFramebufferOp_run desc c) as (c' & Hrun & Hcalls & _).
  exists c', (BindFramebufferOp_calls desc (acquired desc c).1),
    (replicate (S (length (gl_errors (acquired desc c).2))) Call.glGetError).
  split; [exact Hrun|]. split; [exact Hcalls|].
  split; [apply Forall_replicate; reflexivity|].
  unfold BindFramebufferOp_calls. fold depthAttachment.
  rewrite !List.filter_app, attachment_calls_depth_clear.
  destruct (_ && _); destruct (any_blendEnabled _); reflexivity.
Qed.

Lemma attachment_calls_blend_state (rest : list HgiAttachmentDesc.t)
    (i j : nat) (a : HgiAttachmentDesc.t) :
  rest !! j = Some a ->
  exists before after,
    attachment_calls i rest
    = before ++ blend_state_calls (i + j) a ++ after.
Proof.
  revert i j. induction rest as [|a0 rest IH]; intros i j Hj; [discriminate|].
  cbn [attachment_calls]. destruct j as [|j].
  - injection Hj as ->. rewrite Nat.add_0_r. eexists _, _. reflexivity.
  - destruct (IH (S i) j Hj) as (before & after & Heq). rewrite Heq.
    replace (i + S j)%nat with (S i + j)%nat by lia.
    match goal with |- context [?clear ++ ?state ++ before ++ _] =>
      exists (clear ++ state ++ before), after
    end.
    rewrite <- !app_assoc. reflexivity.
Qed.

(** X15.  For every color attachment [i], whether or not it has blending
    enabled, the op issues [glBlendFuncSeparatei] with the four converted
    factors of the attachment, immediately followed by
    [glBlendEquationSeparatei] with its two converted ops, both on draw
    buffer [i]. *)
Theorem BindFramebufferOp_blend_state (desc : HgiGraphicsEncoderDesc.t)
    (c : Ctx) :
  exists c' own polls,
    HgiGLOps.BindFramebufferOp desc c = Normal tt c'
    /\ calls c' = calls (acquired desc c).2 ++ own ++ polls
    /\ Forall (eq Call.glGetError) polls
    /\ forall (i : nat) a,
         HgiGraphicsEncoderDesc.colorAttachmentDescs desc !! i = Some a ->
         exists before after,
           own = before ++ blend_state_calls i a ++ after.
Proof.
  destruct (BindFramebufferOp_run desc c) as (c' & Hrun & Hcalls & _).
  exists c', (BindFramebufferOp_calls desc (acquired desc c).1),
    (replicate (S (length (gl_errors (acquired desc c).2))) Call.glGetError).
  split; [exact Hrun|]. split; [exact Hcalls|].
  split; [apply Forall_replicate; reflexivity|].
  intros i a Hi.
  destruct (attachment_calls_blend_state _ 0 i a Hi)
    as (before & after & Heq).
  unfold BindFramebufferOp_calls. rewrite Heq.
  match goal with |- context [[?bound] ++ _ ++ ?clear ++ ?switch] =>
    exists (bound :: before), (after ++ clear ++ switch)
  end.
  cbn [app Nat.add]. rewrite <- !app_assoc. reflexivity.
Qed.

(** X16.  The attachment assertion is not fatal.  When the description
    declares no attachment the op posts "Missing attachments" and goes on:
    the device is asked for a framebuffer all the same, with the
    diagnostic already in the sink, and the op binds what it gets. *)
Theorem BindFramebufferOp_missing_attachments
    (desc : HgiGraphicsEncoderDesc.t) (c : Ctx) :
  HgiGraphicsEncoderDesc.HasAttachments desc = false ->
  exists c',
    HgiGLOps.BindFramebufferOp desc c = Normal tt c'
    /\ acquired desc c =
         AcquireFramebuffer desc
           (post (VerifyFailed "Missing attachments") c)
    /\ calls c' =
         calls (acquired desc c).2
         ++ BindFramebufferOp_calls desc (acquired desc c).1
         ++ replicate (S (length (gl_errors (acquired desc c).2)))
              Call.glGetError
    /\ diagnostics c' =
         diagnostics (acquired desc c).2
         ++ (PendingGLError <$> gl_errors (acquired desc c).2)
    /\ draw_framebuffer (bindings c') = wrap_uint32 (acquired desc c).1.
Proof.
  intros Hmissing.
  destruct (BindFramebufferOp_run desc c) as (c' & Hrun & Hcalls & _).
  destruct (BindFramebufferOp_bindings desc c)
    as (c2 & Hrun2 & Hdiag & Hbind).
  rewrite Hrun in Hrun2. injection Hrun2 as <-.
  exists c'. split; [exact Hrun|].
  split; [unfold acquired; rewrite Hmissing; reflexivity|].
  split; [exact Hcalls|]. split; [exact Hdiag|]. rewrite Hbind.
  destruct (bindings (acquired desc c).2); reflexivity.
Qed.

End BindFramebufferOpMore.

(** X16 at the pass without attachments, in a fresh context: the sample
    device hands out framebuffer 7. *)
Lemma BindFramebufferOp_missing_attachments_witness :
  exists c',
    HgiGLOps.BindFramebufferOp (backend := sample_backend)
      no_attachment_desc fresh_context = Normal tt c'
    /\ calls c' =
         [Call.glBindFramebuffer GL_FRAMEBUFFER 7; Call.glDisable GL_BLEND;
          Call.glGetError]
    /\ diagnostics c' = [VerifyFailed "Missing attachments"]
    /\ draw_framebuffer (bindings c') = 7.
Proof.
  destruct (BindFramebufferOp_missing_attachments
              (backend := sample_backend) no_attachment_desc fresh_context
              eq_refl)
    as (c' & Hrun & _ & Hcalls & Hdiag & Hdraw).
  exists c'. repeat split; assumption.
Defined.

(** ** The color-correction pass: what it leaves behind *)


(** X19.  With a linked program the pass leaves the stencil write mask as
    it found it exactly when the mask was 0 or 1: every other mask comes
    back as 1. *)
Theorem ApplyColorCorrection_keeps_stencil_mask_iff (useOCIO : bool)
    (self : HdxColorCorrectionTask.t) (programId : Z) (c : Ctx) :
  HdxColorCorrectionTask._shaderProgram self = Some programId ->
  is_uint32 (depth_func (bindings c)) ->
  0 <= rect_w (viewport (bindings c)) ->
  0 <= rect_h (viewport (bindings c)) ->
  exists c',
    HdxColorCorrectionTask._ApplyColorCorrection useOCIO self c = Normal tt c'
    /\ (stencil_writemask (bindings c') = stencil_writemask (bindings c)
        <-> stencil_writemask (bindings c) = 0
            \/ stencil_writemask (bindings c) = 1)
    /\ (stencil_writemask (bindings c') = 0
        \/ stencil_writemask (bindings c') = 1).
Proof.
  intros Hprogram Hfunc Hw Hh.
  destruct (ApplyColorCorrection_restores useOCIO self programId c
              Hprogram Hfunc Hw Hh)
    as (c' & Hrun & _ & _ & _ & _ & _ & Hstencil).
  exists c'. split; [exact Hrun|]. rewrite Hstencil.
  unfold stencil_mask_as_boolean.
  destruct (stencil_writemask (bindings c) =? 0) eqn:Hzero; cbn.
  - apply Z.eqb_eq in Hzero. lia.
  - apply Z.eqb_neq in Hzero. lia.
Qed.


(** X19 in a fresh context, where the mask has all bits set. *)
Lemma ApplyColorCorrection_keeps_stencil_mask_iff_witness :
  exists c',
    HdxColorCorrectionTask._ApplyColorCorrection false sample_task
      fresh_context = Normal tt c'
    /\ stencil_writemask (bindings c')
       <> stencil_writemask (bindings fresh_context).
Proof.
  destruct (ApplyColorCorrection_keeps_stencil_mask_iff false sample_task 9
              fresh_context eq_refl)
    as (c' & Hrun & Hiff & _).
  - unfold is_uint32. cbn. lia.
  - cbn. lia.
  - cbn. lia.
  - exists c'. split; [exact Hrun|]. intros Hkept.
    apply Hiff in Hkept. cbn in Hkept. lia.
Defined.

(** ** The texture copy of the color-correction task *)

(** X20.  [_CopyTexture] blits into the copy framebuffer from the AOV
    framebuffer when the task has an AOV texture, and otherwise from the
    framebuffer that was bound for drawing.  With the two framebuffer
    bindings in [GLuint] range it leaves all bindings as it found them, and
    it ends with the poll. *)
Theorem CopyTexture_restores_framebuffers
    (self : HdxColorCorrectionTaskCopy.t) (c : Ctx) :
  is_uint32 (read_framebuffer (bindings c)) ->
  is_uint32 (draw_framebuffer (bindings c)) ->
  exists c',
    HdxColorCorrectionTaskCopy._CopyTexture self c = Normal tt c'
    /\ bindings c' = bindings c
    /\ calls c' =
         calls c
         ++ copy_texture_calls self
              (if is_null (HdxColorCorrectionTaskCopy._aovTexture self)
               then wrap_int32 (draw_framebuffer (bindings c))
               else HdxColorCorrectionTaskCopy._aovFramebuffer self)
              (wrap_int32 (read_framebuffer (bindings c)))
              (wrap_int32 (draw_framebuffer (bindings c)))
         ++ replicate (S (length (gl_errors c))) Call.glGetError
    /\ surfaces c c'.
Proof.
  intros Hread Hdraw. destruct c as [b f t g k e s]. cbn [bindings] in *.
  unfold HdxColorCorrectionTaskCopy._CopyTexture,
    GLF_POST_PENDING_GL_ERRORS, bind.
  destruct (HdxColorCorrectionTaskCopy._aovTexture self) as [aov|];
    cbn [is_null negb]; gl_run;
    (eexists; split; [reflexivity|]);
    (split; [|split; [|apply polled_surfaces; reflexivity]]);
    cbn [polled bindings calls gl_errors]; bindings_simpl;
    rewrite ?wrap_uint32_int32 by assumption;
    try (destruct b; reflexivity);
    unfold copy_texture_calls; cbn [app]; rewrite <- ?app_assoc; reflexivity.
Qed.

(** X20 at a task without an AOV texture, in a fresh context: the blit
    reads from framebuffer 0. *)
Lemma CopyTexture_restores_framebuffers_witness :
  exists c',
    HdxColorCorrectionTaskCopy._CopyTexture sample_copy_task fresh_context
    = Normal tt c'
    /\ bindings c' = bindings fresh_context
    /\ calls c' =
         copy_texture_calls sample_copy_task 0 0 0 ++ [Call.glGetError].
Proof.
  destruct (CopyTexture_restores_framebuffers sample_copy_task fresh_context)
    as (c' & Hrun & Hbind & Hcalls & _).
  - unfold is_uint32. cbn. lia.
  - unfold is_uint32. cbn. lia.
  - exists c'. repeat split; assumption.
Defined.

(** ** Equality of the task parameters *)

Lemma GfVec2i_eqb_eq (a b : HdxColorCorrectionTask.GfVec2i) :
  HdxColorCorrectionTaskParams.GfVec2i_eqb a b = true <-> a = b.
Proof.
  unfold HdxColorCorrectionTaskParams.GfVec2i_eqb.
  rewrite andb_true_iff, !Z.eqb_eq. destruct a, b; cbn.
  split; [intros [-> ->]; reflexivity | intros [= -> ->]; auto].
Qed.

(** X21.  [operator==] on the task parameters compares all nine fields:
    it answers true exactly when the two records are equal.  [operator!=]
    answers true exactly when they differ in some field. *)
Theorem Params_eqb_eq (lhs rhs : HdxColorCorrectionTaskParams.t) :
  (HdxColorCorrectionTaskParams.eqb lhs rhs = true <-> lhs = rhs)
  /\ (HdxColorCorrectionTaskParams.neqb lhs rhs = true <-> lhs <> rhs).
Proof.
  assert (HdxColorCorrectionTaskParams.eqb lhs rhs = true <-> lhs = rhs)
    as Heq.
  { unfold HdxColorCorrectionTaskParams.eqb.
    rewrite !andb_true_iff, GfVec2i_eqb_eq, !String.eqb_eq, Z.eqb_eq.
    destruct lhs, rhs; cbn. split.
    - intros [[[[[[[[-> ->] ->] ->] ->] ->] ->] ->] ->]. reflexivity.
    - intros [= -> -> -> -> -> -> -> -> ->]. repeat split. }
  split; [exact Heq|].
  unfold HdxColorCorrectionTaskParams.neqb.
  rewrite negb_true_iff, <- not_true_iff_false, Heq. reflexivity.
Qed.
